(** * MGCP bridging core of the BSC NAT (osmo-bsc_nat/bsc_mgcp_utils.c)

    A shallow embedding of the endpoint allocator, the CIC patcher, the
    pending-transaction table, the policy callback, the reply forwarder and
    the MGCP line rewriter, followed by the properties proved about them.

    Conventions.
    - C [int] values are [Z]; the narrow unsigned types of the source
      ([uint8_t], [uint16_t], the [unsigned] printed by [%x]) have their
      wrap-around written out.
    - C strings and message payloads are [list ascii]; a C string ends at
      its first NUL, see [c_str].
    - Pointers to BSC connections and to SCCP connection records are indices
      into the tables of the NAT state.  A run of the source has no pointer
      that denotes no object; for an index outside its table the model
      leaves the state as it is.
    - Reading an array outside its bounds is undefined in C.  The model reads
      the zero element there and a write outside the bounds changes nothing;
      the statements that depend on an access carry the bound. *)

From Stdlib Require Import ZArith Lia List Ascii String Bool.
From Stdlib Require Import DecimalString HexadecimalString.
From stdpp Require Import base option list.

Local Open Scope Z_scope.

(** Pointers into the tables of BSC connections and of SCCP records. *)
Abbreviation bsc_ref := Datatypes.nat.
Abbreviation sccp_ref := Datatypes.nat.

(** ** Arrays indexed by a C [int] *)

Definition zlookup {A} (l : list A) (i : Z) : option A :=
  if 0 <=? i then l !! Z.to_nat i else None.

Definition zinsert {A} (i : Z) (v : A) (l : list A) : list A :=
  if 0 <=? i then <[Z.to_nat i := v]> l else l.

(** ** Fixed-width integers *)

Definition to_uint8 (v : Z) : Z := v mod 2 ^ 8.
Definition to_uint16 (v : Z) : Z := v mod 2 ^ 16.
Definition to_uint32 (v : Z) : Z := v mod 2 ^ 32.

(** ** Endpoint numbering *)

(** Modelled from the spec: [mgcp_endpoint_to_timeslot] is an inline helper
    of openbsc/mgcp.h, which is not among the sources.  The data model says
    that an endpoint id encodes a (multiplex, timeslot) pair, the timeslot in
    the low five bits and the multiplex in the bits above. *)
Definition mgcp_endpoint_to_timeslot (endpoint : Z) : Z * Z :=
  (Z.quot endpoint 32, Z.rem endpoint 32).

(** Modelled from the spec: [mgcp_timeslot_to_endpoint], the inverse helper
    of the same header. *)
Definition mgcp_timeslot_to_endpoint (multiplex timeslot : Z) : Z :=
  timeslot + 32 * multiplex.

(** ** Records of the NAT *)

(** The part of [struct bsc_config] the core reads: the endpoint limit and
    the dropped-calls rate counter. *)
Record bsc_config := {
  cfg_max_endpoints : Z;
  dropped_calls : Z
}.

(** [struct bsc_connection].  [peer_addr] stands for what [getpeername]
    reports for the connection's socket ([None] when the call fails). *)
Record bsc_connection := {
  cfg : option bsc_config;
  number_multiplexes : Z;
  max_endpoints : Z;
  last_endpoint : Z;
  _endpoint_status : option (list Z);
  peer_addr : option Z
}.

(** [struct sccp_connections]: the two endpoint ids and the owning BSC. *)
Record sccp_connections := {
  msc_endp : Z;
  bsc_endp : Z;
  con_bsc : bsc_ref
}.

Definition set_status (st : option (list Z)) (b : bsc_connection) :=
  {| cfg := cfg b; number_multiplexes := number_multiplexes b;
     max_endpoints := max_endpoints b; last_endpoint := last_endpoint b;
     _endpoint_status := st; peer_addr := peer_addr b |}.

Definition set_last_endpoint (e : Z) (b : bsc_connection) :=
  {| cfg := cfg b; number_multiplexes := number_multiplexes b;
     max_endpoints := max_endpoints b; last_endpoint := e;
     _endpoint_status := _endpoint_status b; peer_addr := peer_addr b |}.

Definition set_bsc_endp (e : Z) (c : sccp_connections) :=
  {| msc_endp := msc_endp c; bsc_endp := e; con_bsc := con_bsc c |}.

Definition set_msc_endp (e : Z) (c : sccp_connections) :=
  {| msc_endp := e; bsc_endp := bsc_endp c; con_bsc := con_bsc c |}.

(** [_endpoint_status[i]] of a BSC. *)
Definition status_at (b : bsc_connection) (i : Z) : Z :=
  default 0 (_endpoint_status b ≫= fun l => zlookup l i).

(** ** Endpoint allocator *)

Definition bsc_mgcp_nr_multiplexes (max_endpoints : Z) : Z :=
  let div := Z.quot max_endpoints 32 in
  if negb (Z.rem max_endpoints 32 =? 0) then div + 1 else div.

(** [talloc_zero_array(con, char, count)].  The count is taken as an
    unsigned number, and talloc gives NULL for a count that is not below
    its limit of 0x10000000 bytes, so for every negative [count]; an
    allocation within the limit is taken to succeed and gives [count] zero
    bytes. *)
Definition talloc_zero_array (count : Z) : option (list Z) :=
  if (0 <=? count) && (count <? 2 ^ 28)
  then Some (replicate (Z.to_nat count) 0)
  else None.

(** The value returned is [con->_endpoint_status == NULL]: 1 when the
    allocation has failed; the two limits are stored before it is tried. *)
Definition bsc_init_endps_if_needed (con : bsc_connection) : Z * bsc_connection :=
  match _endpoint_status con with
  | Some _ => (0, con)
  | None =>
    match cfg con with
    | None => (-1, con)
    | Some c =>
      let multiplexes := bsc_mgcp_nr_multiplexes (cfg_max_endpoints c) in
      let status := talloc_zero_array (32 * multiplexes + 1) in
      (match status with Some _ => 0 | None => 1 end,
       {| cfg := cfg con;
          number_multiplexes := multiplexes;
          max_endpoints := cfg_max_endpoints c;
          last_endpoint := last_endpoint con;
          _endpoint_status := status;
          peer_addr := peer_addr con |})
    end
  end.

(** One pass of the loop body of [bsc_assign_endpoint] up to the status
    test: the cursor after the wrap-arounds and the endpoint it denotes. *)
Definition wrap_cursor (bsc : bsc_connection) (multiplex timeslot : Z) : Z * Z * Z :=
  let timeslot := if timeslot =? 0 then 1 else timeslot in
  let '(multiplex, timeslot) :=
    if timeslot =? 31 then (multiplex + 1, 1) else (multiplex, timeslot) in
  let multiplex := if multiplex >=? number_multiplexes bsc then 0 else multiplex in
  let endpoint := mgcp_timeslot_to_endpoint multiplex timeslot in
  if endpoint >=? max_endpoints bsc
  then (0, 1, mgcp_timeslot_to_endpoint 0 1)
  else (multiplex, timeslot, endpoint).

(** The [for] loop of [bsc_assign_endpoint]; [n] counts the iterations that
    are left, the result is the endpoint claimed, if any. *)
Fixpoint assign_loop (bsc : bsc_connection) (n : nat) (multiplex timeslot : Z) : option Z :=
  match n with
  | O => None
  | S n' =>
    let '(multiplex, timeslot, endpoint) := wrap_cursor bsc multiplex timeslot in
    if status_at bsc endpoint =? 0 then Some endpoint
    else assign_loop bsc n' multiplex (timeslot + 1)
  end.

Definition bsc_assign_endpoint (bsc : bsc_connection) (con : sccp_connections)
  : Z * bsc_connection * sccp_connections :=
  let number_endpoints := max_endpoints bsc in
  let '(multiplex, timeslot) := mgcp_endpoint_to_timeslot (last_endpoint bsc) in
  let timeslot := timeslot + 1 in
  match assign_loop bsc (Z.to_nat number_endpoints) multiplex timeslot with
  | Some endpoint =>
    (0,
     set_last_endpoint endpoint
       (set_status (zinsert endpoint 1 <$> _endpoint_status bsc) bsc),
     set_bsc_endp endpoint con)
  | None => (-1, bsc, con)
  end.

(** ** Circuit identity codes *)

(** The expression returned by [create_cic], converted to [uint16_t]. *)
Definition cic_encode (multiplex timeslot : Z) : Z :=
  to_uint16 (Z.lor (Z.shiftl multiplex 5) (Z.land timeslot 31)).

Definition create_cic (endpoint : Z) : Z :=
  let '(multiplex, timeslot) := mgcp_endpoint_to_timeslot endpoint in
  cic_encode multiplex timeslot.

(** The decoding at the head of [bsc_mgcp_assign_patch]: both results are
    stored in [uint8_t] variables.  [cic & ~0x1f] clears the low five bits. *)
Definition cic_decode (cic : Z) : Z * Z :=
  let timeslot := to_uint8 (Z.land cic 31) in
  let multiplex := to_uint8 (Z.shiftr (Z.land cic (Z.lnot 31)) 5) in
  (multiplex, timeslot).

(** ** C strings *)

Definition NUL : ascii := ascii_of_nat 0.
Definition LF : ascii := ascii_of_nat 10.
Definition CR : ascii := ascii_of_nat 13.

(** A string literal as bytes. *)
Definition txt (s : string) : list ascii := list_ascii_of_string s.

(** What the [str*] functions and [sscanf] see of a buffer: the bytes before
    the first NUL. *)
Fixpoint c_str (s : list ascii) : list ascii :=
  match s with
  | [] => []
  | c :: r => if Ascii.eqb c NUL then [] else c :: c_str r
  end.

(** [strncmp(prefix, s, strlen(prefix)) == 0]. *)
Fixpoint starts_with (prefix s : list ascii) : bool :=
  match prefix, s with
  | [], _ => true
  | p :: prefix', c :: s' => Ascii.eqb p c && starts_with prefix' s'
  | _ :: _, [] => false
  end.

(** [strsep(&running, "\n")]: the token before the first line feed and the
    new value of [running], [None] for NULL when no line feed is left. *)
Fixpoint strsep (s : list ascii) : list ascii * option (list ascii) :=
  match s with
  | [] => ([], None)
  | c :: r =>
    if Ascii.eqb c LF then ([], Some r)
    else let '(token, running) := strsep r in (c :: token, running)
  end.

(** [strstr(s, needle)]: the suffix of [s] at the first occurrence. *)
Fixpoint strstr (needle s : list ascii) : option (list ascii) :=
  if starts_with needle s then Some s
  else match s with
       | [] => None
       | _ :: r => strstr needle r
       end.

(** *** The [sscanf] directives the file uses *)

Definition isspace (c : ascii) : bool :=
  let n := nat_of_ascii c in
  (n =? 32)%nat || ((9 <=? n)%nat && (n <=? 13)%nat).

Definition isdigit (c : ascii) : bool :=
  let n := nat_of_ascii c in (48 <=? n)%nat && (n <=? 57)%nat.

Definition digit_val (c : ascii) : Z := Z.of_nat (nat_of_ascii c) - 48.

(** White space in a format, and the white space skipped before [%d], [%u]
    and [%s]. *)
Fixpoint skip_space (s : list ascii) : list ascii :=
  match s with
  | c :: r => if isspace c then skip_space r else s
  | [] => []
  end.

(** [%s] with field width [width]: the longest run of at most [width]
    characters that are not white space, and the rest of the input. *)
Fixpoint scan_word (width : nat) (s : list ascii) : list ascii * list ascii :=
  match width, s with
  | S w, c :: r =>
    if isspace c then ([], s)
    else let '(word, rest) := scan_word w r in (c :: word, rest)
  | _, _ => ([], s)
  end.

(** At most [width] decimal digits: their value, how many were read and the
    rest of the input. *)
Fixpoint scan_digits (width : nat) (acc : Z) (s : list ascii) : Z * nat * list ascii :=
  match width, s with
  | S w, c :: r =>
    if isdigit c
    then let '(v, n, rest) := scan_digits w (10 * acc + digit_val c) r in (v, S n, rest)
    else (acc, O, s)
  | _, _ => (acc, O, s)
  end.

(** The numeral of a [%d] or [%u] with field width [width], after the white
    space: an optional sign, which counts for the width, and at least one
    digit.  The result is the value of the numeral as written. *)
Definition scan_num (width : nat) (s : list ascii) : option (Z * list ascii) :=
  let '(neg, width, s) :=
    match width, s with
    | S w, c :: r =>
      if Ascii.eqb c "-" then (true, w, r)
      else if Ascii.eqb c "+" then (false, w, r)
      else (false, width, s)
    | _, _ => (false, width, s)
    end in
  let '(v, n, rest) := scan_digits width 0 s in
  match n with
  | O => None
  | S _ => Some (if neg then - v else v, rest)
  end.

(** The conversion to [int] of a value that fits [long]: the low 32 bits,
    read as a signed number. *)
Definition to_int32 (v : Z) : Z := (v + 2 ^ 31) mod 2 ^ 32 - 2 ^ 31.

(** [%d]: [sscanf] converts the numeral as [strtol] does, to a [long] of 64
    bits that saturates at its bounds, and stores it into the [int]
    argument. *)
Definition scan_int (width : nat) (s : list ascii) : option (Z * list ascii) :=
  '(v, rest) ← scan_num width s;
  Some (to_int32 (Z.max (- 2 ^ 63) (Z.min v (2 ^ 63 - 1))), rest).

(** A directive without field width reads as far as the input goes. *)
Definition unbounded (s : list ascii) : nat := length s.

(** Ordinary characters of a format: they must match the input. *)
Fixpoint scan_lit (lit s : list ascii) : option (list ascii) :=
  match lit, s with
  | [], _ => Some s
  | p :: lit', c :: s' => if Ascii.eqb p c then scan_lit lit' s' else None
  | _ :: _, [] => None
  end.

(** *** The [printf] conversions the file uses *)

(** [%d]. *)
Definition fmt_d (v : Z) : list ascii :=
  txt (DecimalString.NilZero.string_of_int (Z.to_int v)).

(** [%x] of an [int]: the value as [unsigned], in lowercase hexadecimal. *)
Definition fmt_x (v : Z) : list ascii :=
  txt (HexadecimalString.NilZero.string_of_uint (N.to_hex_uint (Z.to_N (to_uint32 v)))).

(** [cr ? "\r\n" : "\n"]. *)
Definition eol (cr : bool) : list ascii := if cr then [CR; LF] else [LF].

(** ** Message buffers *)

(** The part of [struct msgb] the rewriter uses.  [buf] holds the bytes from
    [data] on (every byte behind it is zero, the buffer being allocated
    zeroed), [tail] and [l3h] are offsets from [data].  The record has no
    capacity: [buf] grows with what is put and stored, and [fits_msgb] says
    of a message that it has stayed within the room of the buffer of the
    source, where [msgb_put] would abort otherwise. *)
Record msgb := {
  buf : list ascii;
  tail : nat;
  l3h : nat
}.

Definition pad (n : nat) (b : list ascii) : list ascii :=
  b ++ replicate (n - length b) NUL.

(** Storing [src] at offset [off]. *)
Definition write_at (off : nat) (src b : list ascii) : list ascii :=
  let b := pad (off + length src) b in
  take off b ++ src ++ drop (off + length src) b.

(** The bytes of the message: [data] up to [tail]. *)
Definition msgb_bytes (m : msgb) : list ascii :=
  take (tail m) (pad (tail m) (buf m)).

(** [output->l3h = msgb_put(output, len)]: [msgb_put] moves the tail and
    returns where it was. *)
Definition put_l3h (len : nat) (m : msgb) : msgb :=
  {| buf := pad (tail m + len) (buf m); tail := tail m + len; l3h := tail m |}.

(** A store of [src] at [output->l3h + off]. *)
Definition write_l3h (off : nat) (src : list ascii) (m : msgb) : msgb :=
  {| buf := write_at (l3h m + off) src (buf m); tail := tail m; l3h := l3h m |}.

(** ** MGCP rewriter *)

(** [sscanf(tok, "%*s %s", buf)]: the second word of the line, when there
    is one.  The size of [buf] is not modelled. *)
Definition scan_second_word (tok : list ascii) : option (list ascii) :=
  let s := skip_space tok in
  let '(w1, rest) := scan_word (unbounded s) s in
  match w1 with
  | [] => None
  | _ :: _ =>
    let s := skip_space rest in
    let '(w2, _) := scan_word (unbounded s) s in
    match w2 with
    | [] => None
    | _ :: _ => Some w2
    end
  end.

(** [sprintf] stores the line and its closing NUL at [output->l3h], then
    [msgb_put] moves the tail by the length of the line. *)
Definition patch_mgcp (output : msgb) (op tok : list ascii) (endp : Z) (cr : bool) : msgb :=
  match scan_second_word tok with
  | None => output
  | Some word =>
    let line := op ++ txt " " ++ word ++ txt " " ++ fmt_x endp
                   ++ txt "@mgw MGCP 1.0" ++ eol cr in
    put_l3h (length line) (write_l3h 0 (line ++ [NUL]) output)
  end.

Definition crcx_str := txt "CRCX ".
Definition dlcx_str := txt "DLCX ".
Definition mdcx_str := txt "MDCX ".
Definition ip_str := txt "c=IN IP4 ".
Definition aud_str := txt "m=audio ".
Definition fmt_str := txt "a=fmtp:".

(** [sscanf(token, "m=audio %*d RTP/AVP %d", &payload)]. *)
Definition scan_audio (token : list ascii) : option Z :=
  s ← scan_lit (txt "m=audio") token;
  let s := skip_space s in
  '(_, s) ← scan_int (unbounded s) s;
  s ← scan_lit (txt "RTP/AVP") (skip_space s);
  let s := skip_space s in
  '(payload, _) ← scan_int (unbounded s) s;
  Some payload.

(** [snprintf(buf, sizeof(buf) - 1, ...)] with [char buf[128]] keeps at most
    126 characters. *)
Definition snprintf_buf (s : list ascii) : list ascii := take 126 s.

(** The local variables of [bsc_mgcp_rewrite] that live across the loop. *)
Record rewrite_state := {
  output : msgb;
  found_fmtp : bool;
  payload : Z;
  cr : bool
}.

(** [output->l3h = msgb_put(output, n); memcpy(output->l3h, src, n)]. *)
Definition put_bytes (src : list ascii) (m : msgb) : msgb :=
  write_l3h 0 src (put_l3h (length src) m).

(** The body of the loop of [bsc_mgcp_rewrite] for one token; [None] when
    the function returns NULL from inside the loop. *)
Definition rewrite_line (endpoint : Z) (ip : list ascii) (port : Z)
    (token : list ascii) (st : rewrite_state) : option rewrite_state :=
  let len := length token in
  let cr := match last token with Some c => Ascii.eqb c CR | None => false end in
  let out o := Some {| output := o; found_fmtp := found_fmtp st;
                       payload := payload st; cr := cr |} in
  let copy found :=
    Some {| output := write_l3h len [LF] (write_l3h 0 token (put_l3h (len + 1) (output st)));
            found_fmtp := found; payload := payload st; cr := cr |} in
  if starts_with crcx_str token then
    out (patch_mgcp (output st) (txt "CRCX") token endpoint cr)
  else if starts_with dlcx_str token then
    out (patch_mgcp (output st) (txt "DLCX") token endpoint cr)
  else if starts_with mdcx_str token then
    out (patch_mgcp (output st) (txt "MDCX") token endpoint cr)
  else if starts_with ip_str token then
    out (put_bytes (eol cr) (put_bytes (c_str ip) (put_bytes ip_str (output st))))
  else if starts_with aud_str token then
    match scan_audio token with
    | None => None
    | Some pt =>
      let line := snprintf_buf (txt "m=audio " ++ fmt_d port ++ txt " RTP/AVP "
                                  ++ fmt_d pt ++ eol cr) in
      Some {| output := put_bytes line (output st); found_fmtp := found_fmtp st;
              payload := pt; cr := cr |}
    end
  else if starts_with fmt_str token then copy true
  else copy (found_fmtp st).

(** The [for] loop over the tokens of [strsep]; it ends when [strsep] leaves
    [running] NULL.  [fuel] bounds the iterations; the length of the input
    plus one is enough, see [rewrite_loop_lines]. *)
Fixpoint rewrite_loop (fuel : nat) (endpoint : Z) (ip : list ascii) (port : Z)
    (running : list ascii) (st : rewrite_state) : option rewrite_state :=
  match fuel with
  | O => Some st
  | S fuel' =>
    match strsep running with
    | (_, None) => Some st
    | (token, Some running') =>
      st' ← rewrite_line endpoint ip port token st;
      rewrite_loop fuel' endpoint ip port running' st'
    end
  end.

(** The line appended after the loop. *)
Definition fmtp_line (payload : Z) (cr : bool) : list ascii :=
  snprintf_buf (txt "a=fmtp:" ++ fmt_d payload ++ txt " mode-set=2" ++ eol cr).

Definition rewrite_init : rewrite_state :=
  {| output := {| buf := []; tail := 0; l3h := 0 |};
     found_fmtp := false; payload := -1; cr := true |}.

(** The state when the loop is left, [None] when the function has returned
    NULL by then.  [strsep] cuts the input buffer in place; the buffer is an
    argument of the call and no part of the state modelled. *)
Definition rewrite_scan (input : list ascii) (length : Z) (endpoint : Z)
    (ip : list ascii) (port : Z) : option rewrite_state :=
  if length >? 4096 - 256 then None
  else
    let running := c_str input in
    rewrite_loop (S (List.length running)) endpoint ip port running rewrite_init.

(** [bsc_mgcp_rewrite]; [msgb_alloc_headroom] is taken to succeed. *)
Definition bsc_mgcp_rewrite (input : list ascii) (length : Z) (endpoint : Z)
    (ip : list ascii) (port : Z) : option msgb :=
  st ← rewrite_scan input length endpoint ip port;
  if negb (found_fmtp st) && negb (payload st =? -1)
  then Some (put_bytes (fmtp_line (payload st) (cr st)) (output st))
  else Some (output st).

(** ** State of the NAT *)

(** Modelled from the spec: the verb codes [MGCP_ENDP_*] of openbsc/mgcp.h,
    which is not among the sources.  The data model gives
    [transaction_state] the values none, CRCX, MDCX and DLCX, none being 0;
    the three codes are distinct and different from 0. *)
Definition MGCP_ENDP_CRCX : Z := 1.
Definition MGCP_ENDP_DLCX : Z := 2.
Definition MGCP_ENDP_MDCX : Z := 3.

(** Modelled from the spec: [CI_UNUSED] of openbsc/mgcp_internal.h, the
    absent value of a connection identifier. *)
Definition CI_UNUSED : Z := 0.

(** The results of the policy callback. *)
Inductive mgcp_policy :=
  | MGCP_POLICY_CONT
  | MGCP_POLICY_DEFER
  | MGCP_POLICY_REJECT.

(** [struct bsc_endpoint], the pending-transaction slot of an endpoint. *)
Record bsc_endpoint := {
  transaction_id : option (list ascii);
  transaction_state : Z;
  bsc : option bsc_ref
}.

(** The fields of [struct mgcp_endpoint] the core reads or assigns. *)
Record mgcp_endpoint := {
  ci : Z;
  bts_end_addr : Z;
  bts_end_local_port : Z;
  net_end_local_port : Z
}.

(** What the core hands to its transports. *)
Inductive event :=
  | BscWrite (to : bsc_ref) (msg : list ascii)
  | MscSend (msg : list ascii)
  | GwQueue (msg : list ascii).

(** [struct bsc_nat] with the trunk of its MGCP configuration.  [bscs] and
    [sccp_list] hold the BSC connections and the list [sccp_connections];
    [sent] records the messages handed to the transports, oldest first. *)
Record bsc_nat := {
  bsc_endpoints : list bsc_endpoint;
  number_endpoints : Z;
  endpoints : list mgcp_endpoint;
  source_addr : list ascii;
  mgcp_ipa : bool;
  sccp_list : list sccp_connections;
  bscs : list bsc_connection;
  sent : list event
}.

Definition with_bsc_endpoints (v : list bsc_endpoint) (nat : bsc_nat) :=
  {| bsc_endpoints := v; number_endpoints := number_endpoints nat;
     endpoints := endpoints nat; source_addr := source_addr nat;
     mgcp_ipa := mgcp_ipa nat; sccp_list := sccp_list nat;
     bscs := bscs nat; sent := sent nat |}.

Definition with_endpoints (v : list mgcp_endpoint) (nat : bsc_nat) :=
  {| bsc_endpoints := bsc_endpoints nat; number_endpoints := number_endpoints nat;
     endpoints := v; source_addr := source_addr nat;
     mgcp_ipa := mgcp_ipa nat; sccp_list := sccp_list nat;
     bscs := bscs nat; sent := sent nat |}.

Definition with_sccp_list (v : list sccp_connections) (nat : bsc_nat) :=
  {| bsc_endpoints := bsc_endpoints nat; number_endpoints := number_endpoints nat;
     endpoints := endpoints nat; source_addr := source_addr nat;
     mgcp_ipa := mgcp_ipa nat; sccp_list := v;
     bscs := bscs nat; sent := sent nat |}.

Definition with_bscs (v : list bsc_connection) (nat : bsc_nat) :=
  {| bsc_endpoints := bsc_endpoints nat; number_endpoints := number_endpoints nat;
     endpoints := endpoints nat; source_addr := source_addr nat;
     mgcp_ipa := mgcp_ipa nat; sccp_list := sccp_list nat;
     bscs := v; sent := sent nat |}.

Definition emit (e : event) (nat : bsc_nat) :=
  {| bsc_endpoints := bsc_endpoints nat; number_endpoints := number_endpoints nat;
     endpoints := endpoints nat; source_addr := source_addr nat;
     mgcp_ipa := mgcp_ipa nat; sccp_list := sccp_list nat;
     bscs := bscs nat; sent := sent nat ++ [e] |}.

Definition empty_slot : bsc_endpoint :=
  {| transaction_id := None; transaction_state := 0; bsc := None |}.

Definition zero_endpoint : mgcp_endpoint :=
  {| ci := 0; bts_end_addr := 0; bts_end_local_port := 0; net_end_local_port := 0 |}.

(** [nat->bsc_endpoints[i]] and [nat->mgcp_cfg->trunk.endpoints[i]]. *)
Definition slot_at (nat : bsc_nat) (i : Z) : bsc_endpoint :=
  default empty_slot (zlookup (bsc_endpoints nat) i).

Definition endp_at (nat : bsc_nat) (i : Z) : mgcp_endpoint :=
  default zero_endpoint (zlookup (endpoints nat) i).

Definition set_slot (i : Z) (s : bsc_endpoint) (nat : bsc_nat) : bsc_nat :=
  with_bsc_endpoints (zinsert i s (bsc_endpoints nat)) nat.

Definition set_endp (i : Z) (e : mgcp_endpoint) (nat : bsc_nat) : bsc_nat :=
  with_endpoints (zinsert i e (endpoints nat)) nat.

Definition mgcp_queue_for_call_agent (outp : msgb) (nat : bsc_nat) : bsc_nat :=
  if mgcp_ipa nat then emit (MscSend (msgb_bytes outp)) nat
  else emit (GwQueue (msgb_bytes outp)) nat.

(** ** Pending-transaction table and teardown *)

(** The id string is released when there is one; the three fields of the
    slot are then NULL, 0 and NULL. *)
Definition bsc_mgcp_free_endpoint (i : Z) (nat : bsc_nat) : bsc_nat :=
  set_slot i {| transaction_id := None; transaction_state := 0; bsc := None |} nat.

(** Modelled from the spec: [mgcp_free_endp] belongs to the MGCP protocol
    code, which is not among the sources; it releases the underlying MGCP
    endpoint.  Of the fields kept here it resets the connection
    identifier. *)
Definition mgcp_free_endp (i : Z) (nat : bsc_nat) : bsc_nat :=
  let e := endp_at nat i in
  set_endp i {| ci := CI_UNUSED; bts_end_addr := bts_end_addr e;
                bts_end_local_port := bts_end_local_port e;
                net_end_local_port := net_end_local_port e |} nat.

(** The iterations [i], [i + 1], ... of a loop over the endpoints. *)
Fixpoint free_endpoints_from (n : nat) (i : Z) (nat : bsc_nat) : bsc_nat :=
  match n with
  | O => nat
  | S n' => free_endpoints_from n' (i + 1) (mgcp_free_endp i (bsc_mgcp_free_endpoint i nat))
  end.

Definition bsc_mgcp_free_endpoints (nat : bsc_nat) : bsc_nat :=
  free_endpoints_from (Z.to_nat (number_endpoints nat - 1)) 1 nat.

Definition bsc_mgcp_send_mdcx (to : bsc_ref) (port : Z) (endp : mgcp_endpoint)
    (nat : bsc_nat) : bsc_nat :=
  emit (BscWrite to
          (txt "MDCX 23 " ++ fmt_x port ++ txt "@mgw MGCP 1.0" ++ [CR; LF]
           ++ txt "Z: noanswer" ++ [CR; LF]
           ++ [CR; LF]
           ++ txt "c=IN IP4 " ++ c_str (source_addr nat) ++ [CR; LF]
           ++ txt "m=audio " ++ fmt_d (bts_end_local_port endp)
           ++ txt " RTP/AVP 255" ++ [CR; LF])) nat.

Definition bsc_mgcp_send_dlcx (to : bsc_ref) (endpoint : Z) (nat : bsc_nat) : bsc_nat :=
  emit (BscWrite to
          (txt "DLCX 26 " ++ fmt_x endpoint ++ txt "@mgw MGCP 1.0" ++ [CR; LF]
           ++ txt "Z: noanswer" ++ [CR; LF])) nat.

Definition bsc_mgcp_init (con : sccp_connections) : sccp_connections :=
  {| msc_endp := -1; bsc_endp := -1; con_bsc := con_bsc con |}.

(** [bsc_mgcp_dlcx] on the record with index [con] of the list. *)
Definition bsc_mgcp_dlcx (con : sccp_ref) (nat : bsc_nat) : bsc_nat :=
  match sccp_list nat !! con with
  | None => nat
  | Some c =>
    let nat :=
      if negb (bsc_endp c =? -1) then
        match bscs nat !! con_bsc c with
        | Some b =>
          match _endpoint_status b with
          | Some status =>
            let b := set_status (Some (zinsert (bsc_endp c) 0 status)) b in
            let nat := with_bscs (<[con_bsc c := b]> (bscs nat)) nat in
            let nat := bsc_mgcp_send_dlcx (con_bsc c) (bsc_endp c) nat in
            bsc_mgcp_free_endpoint (msc_endp c) nat
          | None => nat
          end
        | None => nat
        end
      else nat in
    with_sccp_list (<[con := bsc_mgcp_init c]> (sccp_list nat)) nat
  end.

(** The loop of [bsc_mgcp_find_con] over the list from position [i] on;
    [con] is the last record found so far, with its position. *)
Fixpoint find_con_from (endpoint : Z) (l : list sccp_connections) (i : sccp_ref)
    (con : option (sccp_ref * sccp_connections)) : option (sccp_ref * sccp_connections) :=
  match l with
  | [] => con
  | sccp :: l' =>
    if msc_endp sccp =? -1 then find_con_from endpoint l' (S i) con
    else if negb (msc_endp sccp =? endpoint) then find_con_from endpoint l' (S i) con
    else find_con_from endpoint l' (S i) (Some (i, sccp))
  end.

Definition bsc_mgcp_find_con (nat : bsc_nat) (endpoint : Z)
  : option (sccp_ref * sccp_connections) :=
  find_con_from endpoint (sccp_list nat) 0 None.

(** ** Policy callback *)

(** [bsc_mgcp_policy_cb] for the message in [nat->mgcp_msg], of length
    [nat->mgcp_length]; [talloc_strdup] is taken to succeed. *)
Definition bsc_mgcp_policy_cb (mgcp_msg : list ascii) (mgcp_length : Z)
    (endpoint state : Z) (tid : list ascii) (nat : bsc_nat)
  : mgcp_policy * bsc_nat :=
  let bsc_endp0 := slot_at nat endpoint in
  let mgcp_endp := endp_at nat endpoint in
  let cleared :=
    match transaction_id bsc_endp0 with
    | Some _ => {| transaction_id := None; transaction_state := 0; bsc := None |}
    | None => {| transaction_id := None;
                 transaction_state := transaction_state bsc_endp0; bsc := None |}
    end in
  let nat := set_slot endpoint cleared nat in
  match bsc_mgcp_find_con nat endpoint with
  | None =>
    if state =? MGCP_ENDP_CRCX then (MGCP_POLICY_REJECT, nat)
    else if state =? MGCP_ENDP_DLCX then (MGCP_POLICY_CONT, nat)
    else if state =? MGCP_ENDP_MDCX then (MGCP_POLICY_CONT, nat)
    else (MGCP_POLICY_CONT, nat)
  | Some (con, sccp) =>
    match bsc_mgcp_rewrite mgcp_msg mgcp_length (bsc_endp sccp) (source_addr nat)
            (bts_end_local_port mgcp_endp) with
    | None => (MGCP_POLICY_CONT, nat)
    | Some bsc_msg =>
      let nat := set_slot endpoint
                   {| transaction_id := Some (c_str tid);
                      transaction_state := state;
                      bsc := Some (con_bsc sccp) |} nat in
      if state =? MGCP_ENDP_CRCX then
        let mgcp_endp :=
          match bscs nat !! con_bsc sccp ≫= peer_addr with
          | None => mgcp_endp
          | Some addr => {| ci := ci mgcp_endp; bts_end_addr := addr;
                            bts_end_local_port := bts_end_local_port mgcp_endp;
                            net_end_local_port := net_end_local_port mgcp_endp |}
          end in
        let nat := set_endp endpoint mgcp_endp nat in
        let nat := emit (BscWrite (con_bsc sccp) (msgb_bytes bsc_msg)) nat in
        let nat := bsc_mgcp_send_mdcx (con_bsc sccp) (bsc_endp sccp) mgcp_endp nat in
        (MGCP_POLICY_DEFER, nat)
      else if state =? MGCP_ENDP_DLCX then
        (MGCP_POLICY_CONT, bsc_mgcp_dlcx con nat)
      else
        (MGCP_POLICY_DEFER, emit (BscWrite (con_bsc sccp) (msgb_bytes bsc_msg)) nat)
    end
  end.

(** ** Reply forwarder *)

(** [sscanf(str, "%3d %59s\n", code, transaction) != 2] as an option:
    [None] stands for a result different from 0. *)
Definition bsc_mgcp_parse_response (str : list ascii) : option (Z * list ascii) :=
  '(code, s) ← scan_int 3 (skip_space str);
  let '(transaction, _) := scan_word 59 (skip_space s) in
  match transaction with
  | [] => None
  | _ :: _ => Some (code, transaction)
  end.

(** [%u]: [sscanf] converts the numeral as [strtoul] does, to an
    [unsigned long] of 64 bits (a numeral with a minus sign is negated in
    that type, one out of range gives the largest value), and stores it
    into the [unsigned] argument. *)
Definition scan_uint (s : list ascii) : option Z :=
  '(v, _) ← scan_num (unbounded s) s;
  Some (to_uint32 (if Z.abs v <? 2 ^ 64 then v else 2 ^ 64 - 1)).

Definition bsc_mgcp_extract_ci (str : list ascii) : Z :=
  match strstr (txt "I: ") str with
  | None => CI_UNUSED
  | Some res =>
    match scan_lit (txt "I:") res ≫= fun s => scan_uint (skip_space s) with
    | None => CI_UNUSED
    | Some ci => ci
    end
  end.

(** [strcmp(a, b) == 0] for two C strings. *)
Fixpoint streq (a b : list ascii) : bool :=
  match a, b with
  | [], [] => true
  | x :: a', y :: b' => Ascii.eqb x y && streq a' b'
  | _, _ => false
  end.

Definition free_chan_downstream (i : Z) (from : bsc_ref) (nat : bsc_nat) : bsc_nat :=
  let bsc_endp0 := slot_at nat i in
  let nat :=
    if transaction_state bsc_endp0 =? MGCP_ENDP_CRCX then
      match bsc_mgcp_find_con nat i with
      | None => nat
      | Some (_, con) =>
        if Nat.eqb (con_bsc con) from then bsc_mgcp_send_dlcx from (bsc_endp con) nat
        else nat
      end
    else nat in
  mgcp_free_endp i (bsc_mgcp_free_endpoint i nat).

(** The search loop of [bsc_mgcp_forward] from endpoint [i] on, [n]
    iterations being left. *)
Fixpoint find_pending (nat : bsc_nat) (from : bsc_ref) (tid : list ascii)
    (n : Datatypes.nat) (i : Z) : option Z :=
  match n with
  | O => None
  | S n' =>
    let s := slot_at nat i in
    match bsc s with
    | Some b =>
      if Nat.eqb b from then
        match transaction_id s with
        | None => find_pending nat from tid n' (i + 1)
        | Some t =>
          if streq tid t then Some i else find_pending nat from tid n' (i + 1)
        end
      else find_pending nat from tid n' (i + 1)
    | None => find_pending nat from tid n' (i + 1)
    end
  end.

(** [bsc_mgcp_forward] for a message whose layer 2 payload is [msg]. *)
Definition bsc_mgcp_forward (from : bsc_ref) (msg : list ascii) (nat : bsc_nat) : bsc_nat :=
  if Z.of_nat (length msg) >? 2000 then nat
  else
    let str := c_str msg in
    match bsc_mgcp_parse_response str with
    | None => nat
    | Some (code, tid) =>
      match find_pending nat from tid (Z.to_nat (number_endpoints nat - 1)) 1 with
      | None => nat
      | Some i =>
        let endp := endp_at nat i in
        let endp := {| ci := bsc_mgcp_extract_ci str; bts_end_addr := bts_end_addr endp;
                       bts_end_local_port := bts_end_local_port endp;
                       net_end_local_port := net_end_local_port endp |} in
        let nat := set_endp i endp nat in
        if ci endp =? CI_UNUSED then free_chan_downstream i from nat
        else
          let nat := set_slot i {| transaction_id := None; transaction_state := 0;
                                   bsc := bsc (slot_at nat i) |} nat in
          match bsc_mgcp_rewrite msg (Z.of_nat (length msg)) (-1) (source_addr nat)
                  (net_end_local_port endp) with
          | None => nat
          | Some outp => mgcp_queue_for_call_agent outp nat
          end
      end
    end.

(** ** BSC disconnect *)

Definition inc_dropped_calls (b : bsc_connection) : bsc_connection :=
  {| cfg := (fun c => {| cfg_max_endpoints := cfg_max_endpoints c;
                         dropped_calls := dropped_calls c + 1 |}) <$> cfg b;
     number_multiplexes := number_multiplexes b; max_endpoints := max_endpoints b;
     last_endpoint := last_endpoint b; _endpoint_status := _endpoint_status b;
     peer_addr := peer_addr b |}.

(** The loop of [bsc_mgcp_clear_endpoints_for] from endpoint [i] on.  The
    counter is that of the configuration of the BSC, when it has one. *)
Fixpoint clear_endpoints_from (from : bsc_ref) (n : Datatypes.nat) (i : Z)
    (nat : bsc_nat) : bsc_nat :=
  match n with
  | O => nat
  | S n' =>
    let nat :=
      match bsc (slot_at nat i) with
      | Some b =>
        if Nat.eqb b from then
          let nat := with_bscs (alter inc_dropped_calls from (bscs nat)) nat in
          mgcp_free_endp i (bsc_mgcp_free_endpoint i nat)
        else nat
      | None => nat
      end in
    clear_endpoints_from from n' (i + 1) nat
  end.

Definition bsc_mgcp_clear_endpoints_for (from : bsc_ref) (nat : bsc_nat) : bsc_nat :=
  clear_endpoints_from from (Z.to_nat (number_endpoints nat - 1)) 1 nat.

(** ** BSSMAP assignment patcher *)

(** A signalling message: its bytes from [data] to [tail] and the offset of
    the layer 3 header, [None] when [l3h] is NULL. *)
Record l3_msgb := {
  l3_data : list Z;
  l3_l3h : option Datatypes.nat
}.

Definition ntohs_at (data : list Z) (off : Datatypes.nat) : Z :=
  256 * default 0 (data !! off) + default 0 (data !! S off).

(** [memcpy(p, &cic, sizeof(cic))] for [cic = htons(v)]: the high byte of
    [v] first. *)
Definition store_htons (off : Datatypes.nat) (v : Z) (data : list Z) : list Z :=
  <[S off := v mod 256]> (<[off := v / 256]> data).

(** The loop of [bsc_mgcp_assign_patch] over [nat->sccp_connections]: the
    records with positions [i], [i + 1], ... *)
Fixpoint drop_stale_from (endp : Z) (n : Datatypes.nat) (i : sccp_ref)
    (nat : bsc_nat) : bsc_nat :=
  match n with
  | O => nat
  | S n' =>
    let nat :=
      match sccp_list nat !! i with
      | Some mcon => if msc_endp mcon =? endp then bsc_mgcp_dlcx i nat else nat
      | None => nat
      end in
    drop_stale_from endp n' (S i) nat
  end.

Section AssignPatch.

(** [tlv_parse] and the BSSMAP table [gsm0808_att_tlvdef] belong to
    libosmocore.  [tlv_cic b] stands for [TLVP_VAL] of
    [GSM0808_IE_CIRCUIT_IDENTITY_CODE] after parsing the bytes [b]: its
    offset in [b], [None] when the element is not present. *)
Variable tlv_cic : list Z -> option Datatypes.nat.

(** [bsc_mgcp_assign_patch] for the record at position [con] of the list.
    The result is the value returned, the message and the state. *)
Definition bsc_mgcp_assign_patch (con : sccp_ref) (msg : l3_msgb) (nat : bsc_nat)
  : Z * l3_msgb * bsc_nat :=
  match l3_l3h msg with
  | None => (-1, msg, nat)
  | Some l3h =>
    let l3len := Z.of_nat (length (l3_data msg)) - Z.of_nat l3h in
    if l3len <? 3 then (-1, msg, nat)
    else
      match tlv_cic (drop (l3h + 3) (l3_data msg)) with
      | None => (-1, msg, nat)
      | Some off =>
        let val := (l3h + 3 + off)%nat in
        let cic := ntohs_at (l3_data msg) val in
        let '(multiplex, timeslot) := cic_decode cic in
        let endp := mgcp_timeslot_to_endpoint multiplex timeslot in
        if endp >=? number_endpoints nat then (-1, msg, nat)
        else
          let nat := drop_stale_from endp (length (sccp_list nat)) 0 nat in
          match sccp_list nat !! con with
          | None => (-1, msg, nat)
          | Some c =>
            let c := set_msc_endp endp c in
            let nat := with_sccp_list (<[con := c]> (sccp_list nat)) nat in
            match bscs nat !! con_bsc c with
            | None => (-1, msg, nat)
            | Some b =>
              let '(rc, b) := bsc_init_endps_if_needed b in
              let nat := with_bscs (<[con_bsc c := b]> (bscs nat)) nat in
              if negb (rc =? 0) then (-1, msg, nat)
              else
                let '(rc, b, c) := bsc_assign_endpoint b c in
                let nat := with_bscs (<[con_bsc c := b]> (bscs nat)) nat in
                let nat := with_sccp_list (<[con := c]> (sccp_list nat)) nat in
                if negb (rc =? 0) then (-1, msg, nat)
                else
                  let cic := create_cic (bsc_endp c) in
                  (0,
                   {| l3_data := store_htons val cic (l3_data msg);
                      l3_l3h := l3_l3h msg |},
                   nat)
            end
          end
      end
  end.

End AssignPatch.

(** ** The scan of the allocator, as the design describes it *)

(** The slot after endpoint [e]: the next endpoint id, passing over the
    timeslots 31 and 0, and back to slot 1 (multiplex 0, timeslot 1) when
    that id is not below [max_endpoints]. *)
Definition next_slot (max_endpoints e : Z) : Z :=
  let c := if e mod 32 <? 30 then e + 1 else e + 3 in
  if c <? max_endpoints then c else 1.

(** The [n] slots visited after endpoint [e], in order. *)
Fixpoint scan_order (max_endpoints : Z) (n : Datatypes.nat) (e : Z) : list Z :=
  match n with
  | O => []
  | S n' =>
    let e' := next_slot max_endpoints e in
    e' :: scan_order max_endpoints n' e'
  end.

(** A BSC as [bsc_init_endps_if_needed] and [bsc_assign_endpoint] leave it:
    it has no endpoint to give at all, or its status array is allocated for
    its multiplexes and its cursor is 0 or an endpoint of a timeslot in
    1..30. *)
Definition allocator_ready (b : bsc_connection) : Prop :=
  max_endpoints b <= 0
  \/ (0 <= last_endpoint b < 32 * number_multiplexes b
      /\ last_endpoint b mod 32 <= 30
      /\ max_endpoints b <= 32 * number_multiplexes b
      /\ exists status, _endpoint_status b = Some status
           /\ length status = Z.to_nat (32 * number_multiplexes b + 1)).

(** ** Sample states *)

(** A BSC connection as it is before its first assignment: no status array
    yet and the cursor at 0, configured for [m] endpoints. *)
Definition fresh_bsc (m : Z) : bsc_connection :=
  {| cfg := Some {| cfg_max_endpoints := m; dropped_calls := 0 |};
     number_multiplexes := 0; max_endpoints := 0; last_endpoint := 0;
     _endpoint_status := None; peer_addr := Some 167772161 |}.

(** An SCCP connection record of BSC [b] after [bsc_mgcp_init]. *)
Definition unbound_con (b : bsc_ref) : sccp_connections :=
  {| msc_endp := -1; bsc_endp := -1; con_bsc := b |}.

(** A BSC with 60 endpoints after [bsc_init_endps_if_needed]. *)
Definition ready_bsc_60 : bsc_connection :=
  snd (bsc_init_endps_if_needed (fresh_bsc 60)).

(** A parser for messages whose first information element is the circuit
    identity code: tag 1 and two bytes of value. *)
Definition tlv_cic_first (b : list Z) : option Datatypes.nat :=
  match b with
  | 1 :: _ :: _ :: _ => Some 1%nat
  | _ => None
  end.

(** A BSSMAP message of three header bytes and the element of [cic]. *)
Definition assignment_msg (cic : Z) : l3_msgb :=
  {| l3_data := [0; 4; 1; 1; cic / 256; cic mod 256]; l3_l3h := Some O |}.

(** A NAT with a trunk of 32 endpoints, one BSC configured for [m]
    endpoints that has not been assigned to yet, and three SCCP connections
    of that BSC. *)
Definition sample_nat (m : Z) : bsc_nat :=
  {| bsc_endpoints := replicate 33 empty_slot;
     number_endpoints := 32;
     endpoints := replicate 32 zero_endpoint;
     source_addr := txt "10.0.0.1";
     mgcp_ipa := false;
     sccp_list := [unbound_con 0; unbound_con 0; unbound_con 0];
     bscs := [fresh_bsc m];
     sent := [] |}.

(** ** Sequences of assignments *)

(** [msg] is an assignment for the upstream endpoint [endp], which the
    trunk of [nat] has: the checks at the head of [bsc_mgcp_assign_patch]
    pass and the code decodes to [endp]. *)
Definition assignment_for (tlv_cic : list Z -> option Datatypes.nat)
    (nat : bsc_nat) (msg : l3_msgb) (endp : Z) : Prop :=
  exists l3h off,
    l3_l3h msg = Some l3h
    /\ 3 <= Z.of_nat (length (l3_data msg)) - Z.of_nat l3h
    /\ tlv_cic (drop (l3h + 3) (l3_data msg)) = Some off
    /\ (let '(multiplex, timeslot) :=
          cic_decode (ntohs_at (l3_data msg) (l3h + 3 + off)) in
        mgcp_timeslot_to_endpoint multiplex timeslot) = endp
    /\ endp < number_endpoints nat.

(** The values returned by [bsc_mgcp_assign_patch] for a sequence of
    assignments, each for a connection and with its message, and the state
    they leave. *)
Fixpoint run_assignments (tlv_cic : list Z -> option Datatypes.nat)
    (reqs : list (sccp_ref * l3_msgb)) (nat : bsc_nat) : list Z * bsc_nat :=
  match reqs with
  | [] => ([], nat)
  | (con, msg) :: reqs' =>
    let '(rc, _, nat) := bsc_mgcp_assign_patch tlv_cic con msg nat in
    let '(rcs, nat) := run_assignments tlv_cic reqs' nat in
    (rc :: rcs, nat)
  end.

(** ** Operations of the core and the state of the pending slots *)

(** The pending slot as the data model describes it: the transaction id is
    present exactly when the state is not 0, exactly when a BSC is bound. *)
Definition slot_consistent (s : bsc_endpoint) : Prop :=
  (is_Some (transaction_id s) <-> transaction_state s <> 0)
  /\ (transaction_state s <> 0 <-> is_Some (bsc s)).

(** What the code keeps: the id is present exactly when the state is not 0,
    and a slot with an id has its BSC bound.  The BSC may stay bound while
    no transaction is pending. *)
Definition slot_pending_bound (s : bsc_endpoint) : Prop :=
  (is_Some (transaction_id s) <-> transaction_state s <> 0)
  /\ (is_Some (transaction_id s) -> is_Some (bsc s)).

(** Every pending slot of the NAT satisfies [P]. *)
Definition slots_all (P : bsc_endpoint -> Prop) (nat : bsc_nat) : Prop :=
  Forall P (bsc_endpoints nat).

Inductive core_op :=
  | OpPolicy (mgcp_msg : list ascii) (mgcp_length endpoint state : Z) (tid : list ascii)
  | OpForward (from : bsc_ref) (msg : list ascii)
  | OpDlcx (con : sccp_ref)
  | OpFreeEndpoint (i : Z)
  | OpFreeEndpoints
  | OpClearEndpointsFor (from : bsc_ref).

Definition run_op (nat : bsc_nat) (op : core_op) : bsc_nat :=
  match op with
  | OpPolicy mgcp_msg mgcp_length endpoint state tid =>
    snd (bsc_mgcp_policy_cb mgcp_msg mgcp_length endpoint state tid nat)
  | OpForward from msg => bsc_mgcp_forward from msg nat
  | OpDlcx con => bsc_mgcp_dlcx con nat
  | OpFreeEndpoint i => bsc_mgcp_free_endpoint i nat
  | OpFreeEndpoints => bsc_mgcp_free_endpoints nat
  | OpClearEndpointsFor from => bsc_mgcp_clear_endpoints_for from nat
  end.

(** The policy callback is called for a verb: its [state] is not 0. *)
Definition op_verb (op : core_op) : Prop :=
  match op with
  | OpPolicy _ _ _ state _ => state <> 0
  | _ => True
  end.

(** ** A call in progress *)

Definition crcx_msg : list ascii :=
  txt "CRCX 1234 1@mgw MGCP 1.0" ++ [CR; LF] ++ [CR; LF]
  ++ txt "c=IN IP4 1.1.1.1" ++ [CR; LF]
  ++ txt "m=audio 4000 RTP/AVP 8" ++ [CR; LF].

(** The sample NAT after the assignment of circuit 1 to connection 0. *)
Definition assigned_nat : bsc_nat :=
  snd (bsc_mgcp_assign_patch tlv_cic_first 0 (assignment_msg 1) (sample_nat 60)).

(** ... and after the CRCX of the call agent for endpoint 1. *)
Definition pending_nat : bsc_nat :=
  snd (bsc_mgcp_policy_cb crcx_msg (Z.of_nat (length crcx_msg)) 1 MGCP_ENDP_CRCX
         (txt "1234") assigned_nat).

(** The reply of the BSC with a connection identifier, and one without. *)
Definition reply_msg : list ascii :=
  txt "200 1234" ++ [CR; LF] ++ txt "I: 57" ++ [CR; LF].

Definition reply_no_ci_msg : list ascii :=
  txt "200 1234" ++ [CR; LF].

(** The effect of the session teardown on the connection at [con]: the
    status byte of its BSC endpoint is 0 and both its endpoints are -1. *)
Definition torn_down (before after : bsc_nat) (con : sccp_ref) : Prop :=
  exists c c' b,
    sccp_list before !! con = Some c
    /\ sccp_list after !! con = Some c'
    /\ msc_endp c' = -1 /\ bsc_endp c' = -1
    /\ bscs after !! con_bsc c = Some b
    /\ status_at b (bsc_endp c) = 0.

(** The DLCX that [bsc_mgcp_send_dlcx] writes for [endpoint]. *)
Definition dlcx_text (endpoint : Z) : list ascii :=
  txt "DLCX 26 " ++ fmt_x endpoint ++ txt "@mgw MGCP 1.0" ++ [CR; LF]
  ++ txt "Z: noanswer" ++ [CR; LF].

(** Slot [i] waits for the reply to transaction [tid] of BSC [from]. *)
Definition waits_for (nat : bsc_nat) (from : bsc_ref) (tid : list ascii) (i : Z) : Prop :=
  bsc (slot_at nat i) = Some from /\ transaction_id (slot_at nat i) = Some tid.

(** A second verb for endpoint 1 while the CRCX is pending. *)
Definition mdcx_msg : list ascii :=
  txt "MDCX 1235 1@mgw MGCP 1.0" ++ [CR; LF].

(** ** The lines of a message *)

(** The tokens of [s] that end in a line feed, in order; [cur] is the part
    of the current line already read.  What follows the last line feed is
    no token of the loop. *)
Fixpoint lines_from (cur : list ascii) (s : list ascii) : list (list ascii) :=
  match s with
  | [] => []
  | c :: r =>
    if Ascii.eqb c LF then cur :: lines_from [] r
    else lines_from (cur ++ [c]) r
  end.

Definition lf_lines (s : list ascii) : list (list ascii) := lines_from [] s.

(** The loop body applied to a list of lines in turn. *)
Fixpoint rewrite_lines (endpoint : Z) (ip : list ascii) (port : Z)
    (lines : list (list ascii)) (st : rewrite_state) : option rewrite_state :=
  match lines with
  | [] => Some st
  | line :: lines' =>
    st' ← rewrite_line endpoint ip port line st;
    rewrite_lines endpoint ip port lines' st'
  end.

(** The payload type of the last [m=audio] line, [pt] when there is none. *)
Fixpoint last_payload (lines : list (list ascii)) (pt : Z) : Z :=
  match lines with
  | [] => pt
  | line :: lines' =>
    last_payload lines'
      (if starts_with aud_str line then default pt (scan_audio line) else pt)
  end.

(** Whether the last line ends in a carriage return, [cr] when there is no
    line. *)
Fixpoint last_cr (lines : list (list ascii)) (cr : bool) : bool :=
  match lines with
  | [] => cr
  | line :: lines' =>
    last_cr lines' (match last line with Some c => Ascii.eqb c CR | None => false end)
  end.

(** Some [m=audio] line has no [a=fmtp:] line after it. *)
Definition audio_without_fmtp_after (lines : list (list ascii)) : Prop :=
  exists before line after,
    lines = before ++ line :: after
    /\ starts_with aud_str line = true
    /\ Forall (fun l => starts_with fmt_str l = false) after.

(** The rewriter has appended the [a=fmtp] line to what the loop wrote. *)
Definition fmtp_appended (input : list ascii) (length : Z) (endpoint : Z)
    (ip : list ascii) (port : Z) : Prop :=
  exists st outp,
    rewrite_scan input length endpoint ip port = Some st
    /\ bsc_mgcp_rewrite input length endpoint ip port = Some outp
    /\ msgb_bytes outp
       = msgb_bytes (output st)
         ++ take 126 (txt "a=fmtp:" ++ fmt_d (payload st) ++ txt " mode-set=2"
                      ++ eol (cr st)).

(** An SDP body whose [a=fmtp:] line comes before its [m=audio] line. *)
Definition fmtp_first_msg : list ascii :=
  txt "a=fmtp:8 mode-set=2" ++ [CR; LF]
  ++ txt "m=audio 4000 RTP/AVP 8" ++ [CR; LF].

(** ** Endpoints a BSC can be given *)

(** The endpoint ids the allocator may hand out for a limit [max_endpoints]:
    above 0, below the limit, of a timeslot in 1..30. *)
Definition allocatable (max_endpoints v : Z) : Prop :=
  1 <= v < max_endpoints /\ 1 <= v mod 32 <= 30.

(** ** Endpoints bound to a BSC *)

(** The pending slot of endpoint [i] is bound to BSC [from]. *)
Definition bound_to (nat : bsc_nat) (from : bsc_ref) (i : Z) : bool :=
  match bsc (slot_at nat i) with
  | Some b => Nat.eqb b from
  | None => false
  end.

(** How many of the [n] endpoints from [i] on are bound to [from]. *)
Fixpoint count_bound (nat : bsc_nat) (from : bsc_ref) (n : Datatypes.nat) (i : Z)
  : Datatypes.nat :=
  match n with
  | O => O
  | S n' => ((if bound_to nat from i then 1 else 0) + count_bound nat from n' (i + 1))%nat
  end.

(** ** What the rewriter writes for a line *)

(** Whether the line ends in a carriage return. *)
Definition line_cr (line : list ascii) : bool :=
  match last line with
  | Some c => Ascii.eqb c CR
  | None => false
  end.

(** The verb of a line that starts with one of the three verb keywords. *)
Definition line_verb (line : list ascii) : option (list ascii) :=
  if starts_with crcx_str line then Some (txt "CRCX")
  else if starts_with dlcx_str line then Some (txt "DLCX")
  else if starts_with mdcx_str line then Some (txt "MDCX")
  else None.

(** The command line written for verb [op], the second word [word] of the
    line and the endpoint. *)
Definition verb_out (op word : list ascii) (endp : Z) (cr : bool) : list ascii :=
  op ++ txt " " ++ word ++ txt " " ++ fmt_x endp ++ txt "@mgw MGCP 1.0" ++ eol cr.

(** The bytes written for a line without verb: the connection line with the
    address [ip], the audio line with the port [port], any other line as it
    is. *)
Definition line_out (ip : list ascii) (port : Z) (line : list ascii) : list ascii :=
  if starts_with ip_str line then ip_str ++ c_str ip ++ eol (line_cr line)
  else if starts_with aud_str line then
    match scan_audio line with
    | Some pt =>
      take 126 (txt "m=audio " ++ fmt_d port ++ txt " RTP/AVP " ++ fmt_d pt
                ++ eol (line_cr line))
    | None => []
    end
  else line ++ [LF].

(** The [a=fmtp] line appended after the lines, when one is. *)
Definition fmtp_out (lines : list (list ascii)) : list ascii :=
  if existsb (starts_with fmt_str) lines || (last_payload lines (-1) =? -1) then []
  else take 126 (txt "a=fmtp:" ++ fmt_d (last_payload lines (-1))
                 ++ txt " mode-set=2" ++ eol (last_cr lines true)).

(** ** Further sample states and messages *)

(** The MDCX that [bsc_mgcp_send_mdcx] writes for the BSC endpoint [port],
    the source address of the NAT and the local port of the endpoint
    towards the BTS. *)
Definition mdcx_text (port : Z) (source : list ascii) (local_port : Z) : list ascii :=
  txt "MDCX 23 " ++ fmt_x port ++ txt "@mgw MGCP 1.0" ++ [CR; LF]
  ++ txt "Z: noanswer" ++ [CR; LF]
  ++ [CR; LF]
  ++ txt "c=IN IP4 " ++ c_str source ++ [CR; LF]
  ++ txt "m=audio " ++ fmt_d local_port ++ txt " RTP/AVP 255" ++ [CR; LF].

(** A NAT whose BSC has one endpoint to give, after two assignments: the
    second connection holds the circuit of its assignment in [msc_endp] and
    no BSC endpoint. *)
Definition refused_nat : bsc_nat :=
  snd (run_assignments tlv_cic_first
         [(0%nat, assignment_msg 1); (1%nat, assignment_msg 2)] (sample_nat 2)).

(** A verb for endpoint 1 that takes the id of the pending CRCX again. *)
Definition mdcx_same_id_msg : list ascii :=
  txt "MDCX 1234 1@mgw MGCP 1.0" ++ [CR; LF].

(** The reply of a BSC with a session description. *)
Definition reply_sdp_msg : list ascii :=
  txt "200 1234" ++ [CR; LF] ++ txt "I: 57" ++ [CR; LF] ++ [CR; LF]
  ++ txt "c=IN IP4 192.168.1.5" ++ [CR; LF]
  ++ txt "m=audio 4002 RTP/AVP 98" ++ [CR; LF].

(** ** Room of the output message *)

(** [msgb_alloc_headroom(4096, 128, ...)] gives a buffer of 4096 bytes of
    which 128 are headroom; [msgb_put] aborts the program when the bytes
    asked for do not fit behind the tail. *)
Definition msgb_tailroom : Datatypes.nat := 4096 - 128.

(** Nothing has been put or stored beyond the room of the buffer: [buf]
    reaches as far as the last byte put or written, and never shrinks, so
    that a message that fits has fitted at every [msgb_put] before. *)
Definition fits_msgb (m : msgb) : Prop := (length (buf m) <= msgb_tailroom)%nat.

(** The state in which the loop of the rewriter is left, whether at the end
    of the lines or by the return of NULL from inside it. *)
Fixpoint rewrite_reach (endpoint : Z) (ip : list ascii) (port : Z)
    (lines : list (list ascii)) (st : rewrite_state) : rewrite_state :=
  match lines with
  | [] => st
  | line :: lines' =>
    match rewrite_line endpoint ip port line st with
    | None => st
    | Some st' => rewrite_reach endpoint ip port lines' st'
    end
  end.

(** A call of the rewriter that stays within its buffers: the length is
    refused at the head, or the second word of every command line fits the
    buffer of 40 bytes of [patch_mgcp], what the loop has put and stored
    fits the message, and so does the message returned. *)
Definition rewrite_within (input : list ascii) (len endpoint : Z) (ip : list ascii)
    (port : Z) : Prop :=
  4096 - 256 < len
  \/ (let lines := lf_lines (c_str input) in
      Forall (fun l => line_verb l <> None ->
                       forall w, scan_second_word l = Some w -> (length w < 40)%nat) lines
      /\ fits_msgb (output (rewrite_reach endpoint ip port lines rewrite_init))
      /\ forall outp, bsc_mgcp_rewrite input len endpoint ip port = Some outp ->
                      fits_msgb outp).

(** * Properties *)

(** ** Circuit identity codes *)

Lemma land_shiftl_small (m t : Z) :
  0 <= t < 32 -> Z.land (Z.shiftl m 5) t = 0.
Proof.
  intros Ht. apply Z.bits_inj'. intros i Hi.
  rewrite Z.land_spec, Z.bits_0.
  destruct (Z.lt_ge_cases i 5) as [Hlow | Hhigh].
  - rewrite Z.shiftl_spec_low by lia. reflexivity.
  - assert (Z.testbit t i = false) as ->; [| apply andb_false_r].
    destruct (Z.eq_dec t 0) as [-> | Hne]; [apply Z.bits_0 |].
    apply Z.bits_above_log2; [lia |].
    assert (Z.log2 t < 5); [| lia].
    apply Z.log2_lt_pow2; lia.
Qed.

Lemma lor_shiftl_small (m t : Z) :
  0 <= t < 32 -> Z.lor (Z.shiftl m 5) t = 32 * m + t.
Proof.
  intros Ht.
  rewrite <- Z.lxor_lor by (apply land_shiftl_small; exact Ht).
  rewrite <- Z.add_nocarry_lxor by (apply land_shiftl_small; exact Ht).
  rewrite Z.shiftl_mul_pow2 by lia. change (2 ^ 5) with 32. lia.
Qed.

Lemma land_31 (v : Z) : Z.land v 31 = v mod 32.
Proof. change 31 with (Z.ones 5). rewrite Z.land_ones by lia. reflexivity. Qed.

Lemma land_lnot_31_shiftr (v : Z) : Z.shiftr (Z.land v (Z.lnot 31)) 5 = v / 32.
Proof.
  rewrite <- Z.ldiff_land. change 31 with (Z.ones 5).
  rewrite Z.ldiff_ones_r by lia.
  rewrite Z.shiftr_shiftl_l by lia. change (5 - 5) with 0.
  rewrite Z.shiftl_0_r, Z.shiftr_div_pow2 by lia. reflexivity.
Qed.

Lemma cic_encode_small (multiplex timeslot : Z) :
  0 <= multiplex < 2048 -> 0 <= timeslot < 32 ->
  cic_encode multiplex timeslot = 32 * multiplex + timeslot.
Proof.
  intros Hm Ht. unfold cic_encode, to_uint16.
  rewrite land_31, (Z.mod_small timeslot 32) by lia.
  rewrite lor_shiftl_small by lia.
  apply Z.mod_small. lia.
Qed.

Lemma cic_decode_spec (cic : Z) :
  cic_decode cic = ((cic / 32) mod 256, cic mod 32).
Proof.
  unfold cic_decode, to_uint8. rewrite land_31, land_lnot_31_shiftr.
  f_equal. apply Z.mod_small.
  assert (0 <= cic mod 32 < 32) by (apply Z.mod_pos_bound; lia).
  change (2 ^ 8) with 256. lia.
Qed.

Lemma endpoint_timeslot_inverse (endpoint : Z) :
  mgcp_timeslot_to_endpoint (fst (mgcp_endpoint_to_timeslot endpoint))
                            (snd (mgcp_endpoint_to_timeslot endpoint)) = endpoint.
Proof.
  unfold mgcp_timeslot_to_endpoint, mgcp_endpoint_to_timeslot. simpl.
  pose proof (Z.quot_rem' endpoint 32). lia.
Qed.

Lemma timeslot_endpoint_inverse (multiplex timeslot : Z) :
  0 <= multiplex -> 0 <= timeslot < 32 ->
  mgcp_endpoint_to_timeslot (mgcp_timeslot_to_endpoint multiplex timeslot)
  = (multiplex, timeslot).
Proof.
  intros Hm Ht. unfold mgcp_timeslot_to_endpoint, mgcp_endpoint_to_timeslot.
  rewrite Z.quot_div_nonneg, Z.rem_mod_nonneg by lia.
  f_equal.
  - symmetry. apply (Z.div_unique _ 32 multiplex timeslot); lia.
  - symmetry. apply (Z.mod_unique _ 32 multiplex timeslot); lia.
Qed.

(** A multiplex that does not fit the [uint8_t] variable of the decoder is
    not returned: the pair (256, 1) is encoded as the 16-bit code 0x2001 and
    decoded as (0, 1). *)
Lemma cic_roundtrip_fails_at_256 :
  cic_encode 256 1 = 8193 /\ cic_decode (cic_encode 256 1) <> (256, 1).
Proof. split; [reflexivity | vm_compute; discriminate]. Qed.

(** Where the multiplex fits eight bits: for a multiplex in 0..255 and a
    timeslot in 1..30 the decoder of [bsc_mgcp_assign_patch] returns the
    pair that was encoded, [create_cic] of the endpoint of the pair is that
    code, and the pair is found again in its endpoint id; for an endpoint id
    of a timeslot in 1..30, converting it to (multiplex, timeslot) and back
    gives the id. *)
Theorem cic_roundtrip (multiplex timeslot endpoint : Z) :
  0 <= multiplex < 256 -> 1 <= timeslot <= 30 ->
  0 <= endpoint -> 1 <= endpoint mod 32 <= 30 ->
  cic_decode (cic_encode multiplex timeslot) = (multiplex, timeslot)
  /\ create_cic (mgcp_timeslot_to_endpoint multiplex timeslot)
     = cic_encode multiplex timeslot
  /\ mgcp_endpoint_to_timeslot (mgcp_timeslot_to_endpoint multiplex timeslot)
     = (multiplex, timeslot)
  /\ mgcp_timeslot_to_endpoint (fst (mgcp_endpoint_to_timeslot endpoint))
                               (snd (mgcp_endpoint_to_timeslot endpoint)) = endpoint.
Proof.
  intros Hm Ht _ _.
  assert (Hinv := timeslot_endpoint_inverse multiplex timeslot).
  repeat split.
  - rewrite cic_decode_spec, cic_encode_small by lia.
    f_equal.
    + replace ((32 * multiplex + timeslot) / 32) with multiplex
        by (apply (Z.div_unique _ 32 multiplex timeslot); lia).
      apply Z.mod_small. lia.
    + symmetry. apply (Z.mod_unique _ 32 multiplex timeslot); lia.
  - unfold create_cic. rewrite Hinv by lia. reflexivity.
  - apply Hinv; lia.
  - apply endpoint_timeslot_inverse.
Qed.

Lemma cic_roundtrip_witness :
  cic_decode (cic_encode 1 1) = (1, 1)
  /\ create_cic (mgcp_timeslot_to_endpoint 1 1) = cic_encode 1 1
  /\ mgcp_endpoint_to_timeslot (mgcp_timeslot_to_endpoint 1 1) = (1, 1)
  /\ mgcp_timeslot_to_endpoint (fst (mgcp_endpoint_to_timeslot 33))
                               (snd (mgcp_endpoint_to_timeslot 33)) = 33.
Proof. apply (cic_roundtrip 1 1 33); try lia. change (33 mod 32) with 1. lia. Defined.

(** C4: the round trip fails in the code at the circuit 0x2001, multiplex
    256 and timeslot 1, which [create_cic] encodes with the multiplex whole:
    [bsc_mgcp_assign_patch] keeps the multiplex in a [uint8_t], takes the
    circuit for endpoint 1, so that the test against the 32 endpoints of the
    trunk lets the message through, tears down the connection that holds
    endpoint 1 and gives the endpoint to the connection of the message. *)
Theorem cic_multiplex_narrowed :
  cic_encode 256 1 = 8193
  /\ create_cic (mgcp_timeslot_to_endpoint 256 1) = 8193
  /\ cic_decode 8193 = (0, 1)
  /\ number_endpoints assigned_nat = 32
  /\ sccp_list assigned_nat !! 0%nat
     = Some {| msc_endp := 1; bsc_endp := 1; con_bsc := 0 |}
  /\ (let r := bsc_mgcp_assign_patch tlv_cic_first 1 (assignment_msg 8193)
                 assigned_nat in
      fst (fst r) = 0
      /\ sccp_list (snd r) !! 0%nat
         = Some {| msc_endp := -1; bsc_endp := -1; con_bsc := 0 |}
      /\ sccp_list (snd r) !! 1%nat
         = Some {| msc_endp := 1; bsc_endp := 2; con_bsc := 0 |}
      /\ sent (snd r) = sent assigned_nat ++ [BscWrite 0 (dlcx_text 1)]).
Proof. vm_compute. repeat split. Qed.

(** ** Endpoint allocator *)

Lemma zlookup_zinsert_eq {A} (l : list A) (i : Z) (v : A) :
  0 <= i < Z.of_nat (length l) -> zlookup (zinsert i v l) i = Some v.
Proof.
  intros Hi. unfold zlookup, zinsert.
  destruct (0 <=? i) eqn:E; [| lia].
  apply list_lookup_insert_eq. lia.
Qed.

Lemma zlookup_zinsert_ne {A} (l : list A) (i j : Z) (v : A) :
  i <> j -> zlookup (zinsert i v l) j = zlookup l j.
Proof.
  intros Hne. unfold zlookup, zinsert.
  destruct (0 <=? j) eqn:Ej; [| reflexivity].
  destruct (0 <=? i) eqn:Ei; [| reflexivity].
  apply list_lookup_insert_ne. lia.
Qed.

Lemma length_zinsert {A} (l : list A) (i : Z) (v : A) :
  length (zinsert i v l) = length l.
Proof. unfold zinsert. destruct (0 <=? i); [apply length_insert | reflexivity]. Qed.

(** One pass of the cursor of the source from endpoint [32 * m + t] lands on
    the slot after it. *)
Lemma wrap_cursor_next (b : bsc_connection) (m t : Z) :
  max_endpoints b <= 32 * number_multiplexes b ->
  0 <= m < number_multiplexes b -> 0 <= t <= 30 ->
  exists m' t',
    wrap_cursor b m (t + 1) = (m', t', next_slot (max_endpoints b) (32 * m + t))
    /\ next_slot (max_endpoints b) (32 * m + t) = 32 * m' + t'
    /\ 0 <= m' < number_multiplexes b /\ 1 <= t' <= 30.
Proof.
  intros Hmax Hm Ht. unfold wrap_cursor, next_slot, mgcp_timeslot_to_endpoint.
  replace ((32 * m + t) mod 32) with t
    by (apply (Z.mod_unique _ 32 m t); lia).
  destruct (t + 1 =? 0) eqn:E0; [lia |].
  destruct (t + 1 =? 31) eqn:E31.
  - assert (t = 30) as -> by lia. change (30 <? 30) with false. cbv iota.
    destruct (m + 1 >=? number_multiplexes b) eqn:Ew.
    + destruct (1 + 32 * 0 >=? max_endpoints b) eqn:Ee;
      destruct (32 * m + 30 + 3 <? max_endpoints b) eqn:Ec; try lia;
        (exists 0, 1); repeat split; lia.
    + destruct (1 + 32 * (m + 1) >=? max_endpoints b) eqn:Ee;
      destruct (32 * m + 30 + 3 <? max_endpoints b) eqn:Ec; try lia.
      * exists 0, 1. repeat split; lia.
      * exists (m + 1), 1. repeat split; try lia. f_equal. lia.
  - assert ((t <? 30) = true) as -> by lia. cbv iota.
    destruct (m >=? number_multiplexes b) eqn:Ew; [lia |].
    destruct (t + 1 + 32 * m >=? max_endpoints b) eqn:Ee;
    destruct (32 * m + t + 1 <? max_endpoints b) eqn:Ec; try lia.
    + exists 0, 1. repeat split; lia.
    + exists m, (t + 1). repeat split; try lia. f_equal. lia.
Qed.

(** The loop of the source claims the first free slot of the scan. *)
Lemma assign_loop_scan (b : bsc_connection) (n : Datatypes.nat) (m t : Z) :
  max_endpoints b <= 32 * number_multiplexes b ->
  0 <= m < number_multiplexes b -> 0 <= t <= 30 ->
  assign_loop b n m (t + 1)
  = find (fun e => status_at b e =? 0) (scan_order (max_endpoints b) n (32 * m + t)).
Proof.
  intros Hmax. revert m t. induction n as [| n IH]; intros m t Hm Ht; [reflexivity |].
  destruct (wrap_cursor_next b m t Hmax Hm Ht) as (m' & t' & Hw & He & Hm' & Ht').
  cbn [assign_loop scan_order find]. rewrite Hw.
  destruct (status_at b (next_slot (max_endpoints b) (32 * m + t)) =? 0); [reflexivity |].
  rewrite He. apply IH; lia.
Qed.

Lemma next_slot_timeslot (maxe e : Z) :
  0 <= e -> 1 <= (next_slot maxe e) mod 32 <= 30.
Proof.
  intros He. unfold next_slot.
  assert (0 <= e mod 32 < 32) by (apply Z.mod_pos_bound; lia).
  destruct (e mod 32 <? 30) eqn:E.
  - destruct (e + 1 <? maxe); [| change (1 mod 32) with 1; lia].
    replace ((e + 1) mod 32) with (e mod 32 + 1); [lia |].
    apply (Z.mod_unique _ 32 (e / 32)); [lia |].
    pose proof (Z.div_mod e 32). lia.
  - destruct (e + 3 <? maxe); [| change (1 mod 32) with 1; lia].
    destruct (Z.eq_dec (e mod 32) 30) as [E30 | E31].
    + replace ((e + 3) mod 32) with 1; [lia |].
      apply (Z.mod_unique _ 32 (e / 32 + 1)); [lia |].
      pose proof (Z.div_mod e 32). lia.
    + replace ((e + 3) mod 32) with 2; [lia |].
      apply (Z.mod_unique _ 32 (e / 32 + 1)); [lia |].
      pose proof (Z.div_mod e 32). lia.
Qed.

Lemma next_slot_range (maxe e : Z) :
  0 <= e -> 1 <= next_slot maxe e /\ (next_slot maxe e < maxe \/ next_slot maxe e = 1).
Proof.
  intros He. unfold next_slot.
  destruct (e mod 32 <? 30);
    [destruct (e + 1 <? maxe) eqn:E | destruct (e + 3 <? maxe) eqn:E]; lia.
Qed.

Lemma scan_order_slots (maxe : Z) (n : Datatypes.nat) (e : Z) :
  0 <= e ->
  Forall (fun p => 1 <= p /\ 1 <= p mod 32 <= 30 /\ (p < maxe \/ p = 1))
         (scan_order maxe n e).
Proof.
  revert e. induction n as [| n IH]; intros e He; [constructor |].
  cbn [scan_order]. pose proof (next_slot_range maxe e He) as [H1 H2].
  constructor.
  - split; [exact H1 |]. split; [apply next_slot_timeslot; exact He | exact H2].
  - apply IH. lia.
Qed.


Lemma status_at_claimed (b : bsc_connection) (status : list Z) (e i : Z) :
  _endpoint_status b = Some status ->
  status_at (set_last_endpoint e (set_status (zinsert e 1 <$> _endpoint_status b) b)) i
  = if Z.eq_dec i e
    then (if (0 <=? e) && (e <? Z.of_nat (length status)) then 1 else status_at b i)
    else status_at b i.
Proof.
  intros Hs. unfold status_at. cbn. rewrite Hs. cbn.
  destruct (Z.eq_dec i e) as [-> | Hne].
  - destruct ((0 <=? e) && (e <? Z.of_nat (length status))) eqn:E.
    + rewrite zlookup_zinsert_eq by lia. reflexivity.
    + unfold zlookup, zinsert. destruct (0 <=? e) eqn:E0; [| reflexivity].
      rewrite list_insert_ge by lia. reflexivity.
  - rewrite zlookup_zinsert_ne by congruence. reflexivity.
Qed.


(** A count within the limit gives that many zero bytes. *)
Lemma talloc_zero_array_ok (count : Z) :
  0 <= count < 2 ^ 28 ->
  talloc_zero_array count = Some (replicate (Z.to_nat count) 0).
Proof.
  intros H. unfold talloc_zero_array.
  destruct (0 <=? count) eqn:E1; [| lia].
  destruct (count <? 2 ^ 28) eqn:E2; [reflexivity | lia].
Qed.

Lemma talloc_zero_array_Some (count : Z) (l : list Z) :
  talloc_zero_array count = Some l ->
  0 <= count < 2 ^ 28 /\ l = replicate (Z.to_nat count) 0.
Proof.
  unfold talloc_zero_array.
  destruct (0 <=? count) eqn:E1; [| discriminate].
  destruct (count <? 2 ^ 28) eqn:E2; [| discriminate].
  intros [= <-]. split; [lia | reflexivity].
Qed.

Lemma nr_multiplexes_bounds (m : Z) :
  0 <= m -> m <= 32 * bsc_mgcp_nr_multiplexes m < m + 32.
Proof.
  intros Hm. unfold bsc_mgcp_nr_multiplexes.
  rewrite Z.quot_div_nonneg, Z.rem_mod_nonneg by lia.
  pose proof (Z.div_mod m 32 ltac:(lia)) as Hdm.
  pose proof (Z.mod_pos_bound m 32 ltac:(lia)) as Hmod.
  destruct (m mod 32 =? 0) eqn:E; cbn [negb]; lia.
Qed.

(** [bsc_init_endps_if_needed] makes a configured BSC that has not been
    assigned to ready for allocation: it returns 0 for a limit that is not
    negative and leaves room for the extra multiplex below the limit of the
    allocation, and whenever it returns 0 the BSC is ready. *)
Lemma init_allocator_ready (b : bsc_connection) (c : bsc_config) :
  _endpoint_status b = None -> last_endpoint b = 0 -> cfg b = Some c ->
  (0 <= cfg_max_endpoints c < 2 ^ 28 - 32 -> fst (bsc_init_endps_if_needed b) = 0)
  /\ (fst (bsc_init_endps_if_needed b) = 0 ->
      allocator_ready (snd (bsc_init_endps_if_needed b))).
Proof.
  intros Hst Hlast Hcfg. unfold bsc_init_endps_if_needed. rewrite Hst, Hcfg.
  cbn [fst snd]. split.
  - intros Hm.
    pose proof (nr_multiplexes_bounds (cfg_max_endpoints c) ltac:(lia)) as Hnr.
    change (2 ^ 28) with 268435456 in Hm.
    rewrite talloc_zero_array_ok by (change (2 ^ 28) with 268435456; lia).
    reflexivity.
  - destruct (talloc_zero_array _) as [status |] eqn:Ealloc; [intros _ | discriminate].
    apply talloc_zero_array_Some in Ealloc as [Hcount ->].
    destruct (Z.le_gt_cases (cfg_max_endpoints c) 0) as [Hle | Hgt]; [left; exact Hle |].
    pose proof (nr_multiplexes_bounds (cfg_max_endpoints c) ltac:(lia)) as Hnr.
    right. cbn. rewrite Hlast. change (0 mod 32) with 0.
    repeat split; try lia.
    eexists. split; [reflexivity |]. apply length_replicate.
Qed.


(** ** Assignments *)

Lemma cic_decode_range (cic : Z) :
  0 <= fst (cic_decode cic) < 256 /\ 0 <= snd (cic_decode cic) < 32.
Proof.
  rewrite cic_decode_spec. cbn [fst snd].
  split; apply Z.mod_pos_bound; lia.
Qed.

Lemma drop_stale_none (endp : Z) (n : Datatypes.nat) (i : sccp_ref) (nat : bsc_nat) :
  (forall j s, sccp_list nat !! j = Some s -> msc_endp s <> endp) ->
  drop_stale_from endp n i nat = nat.
Proof.
  intros Hno. revert i. induction n as [| n IH]; intros i; [reflexivity |].
  cbn [drop_stale_from].
  destruct (sccp_list nat !! i) as [mcon |] eqn:E; [| apply IH].
  apply Hno in E. destruct (msc_endp mcon =? endp) eqn:E'; [lia | apply IH].
Qed.

(** The patch past its checks, when no connection holds the endpoint. *)
Lemma assign_patch_no_stale (tlv : list Z -> option Datatypes.nat) (con : sccp_ref) (msg : l3_msgb) (nat : bsc_nat)
    (endp : Z) (c : sccp_connections) (b : bsc_connection) :
  assignment_for tlv nat msg endp ->
  (forall j s, sccp_list nat !! j = Some s -> msc_endp s <> endp) ->
  sccp_list nat !! con = Some c ->
  bscs nat !! con_bsc c = Some b ->
  forall b1 rc b2 c2,
  bsc_init_endps_if_needed b = (0, b1) ->
  bsc_assign_endpoint b1 (set_msc_endp endp c) = (rc, b2, c2) ->
  con_bsc c2 = con_bsc c ->
  exists msg',
    bsc_mgcp_assign_patch tlv con msg nat
    = (if rc =? 0 then 0 else -1, msg',
       with_sccp_list (<[con := c2]> (sccp_list nat))
         (with_bscs (<[con_bsc c := b2]> (bscs nat)) nat)).
Proof.
  intros (l3h & off & Hl3 & Hlen & Htlv & Hdec & Hlt) Hno Hcon Hb b1 rc b2 c2 Hinit Hassign Hcb.
  unfold bsc_mgcp_assign_patch. rewrite Hl3.
  destruct (_ <? 3) eqn:E3; [lia |]. rewrite Htlv.
  destruct (cic_decode _) as [multiplex timeslot]. rewrite Hdec.
  destruct (endp >=? number_endpoints nat) eqn:Ege; [lia |].
  rewrite (drop_stale_none endp _ _ nat Hno). rewrite Hcon.
  cbn [with_sccp_list bscs sccp_list set_msc_endp con_bsc]. rewrite Hb, Hinit.
  cbn [Z.eqb negb]. 
  change ({| msc_endp := endp; bsc_endp := bsc_endp c; con_bsc := con_bsc c |}) with (set_msc_endp endp c).
  rewrite Hassign.
  rewrite Hcb.
  cbn [with_sccp_list with_bscs bscs sccp_list].
  rewrite list_insert_insert_eq.
  rewrite list_insert_insert_eq.
  destruct (rc =? 0); cbn [negb]; eexists; reflexivity.
Qed.

(** A BSC with [max_endpoints = 2] has one endpoint to give: the ids the
    allocator accepts are below [max_endpoints] and 0 is not scanned. *)
Lemma fresh_two_endpoints (fb : bsc_connection) (c : bsc_config)
    (con con' : sccp_connections) :
  _endpoint_status fb = None -> last_endpoint fb = 0 ->
  cfg fb = Some c -> cfg_max_endpoints c = 2 ->
  exists b1 b2,
    bsc_init_endps_if_needed fb = (0, b1)
    /\ bsc_assign_endpoint b1 con = (0, b2, set_bsc_endp 1 con)
    /\ bsc_init_endps_if_needed b2 = (0, b2)
    /\ bsc_assign_endpoint b2 con' = (-1, b2, con').
Proof.
  destruct fb as [cf nm me le st pa], c as [m d]. cbn. intros -> -> -> ->.
  do 2 eexists. split; [reflexivity |]. split; [reflexivity |].
  split; reflexivity.
Qed.

(** C3, amended: on a BSC configured with [max_endpoints = 2] that has not
    been assigned to yet, in a NAT none of whose connections is bound, the
    first assignment succeeds and takes endpoint 1 of the BSC, and the
    assignment that follows, for another connection of that BSC and another
    circuit, already finds the allocator exhausted:
    [bsc_mgcp_assign_patch] returns -1. *)
Theorem second_assignment_fails (tlv : list Z -> option Datatypes.nat)
    (nat : bsc_nat) (fb : bsc_connection)
    (c : bsc_config) (con1 con2 : sccp_ref) (c1 c2 : sccp_connections)
    (msg1 msg2 : l3_msgb) (endp1 endp2 : Z) :
  bscs nat !! con_bsc c1 = Some fb ->
  _endpoint_status fb = None -> last_endpoint fb = 0 ->
  cfg fb = Some c -> cfg_max_endpoints c = 2 ->
  (forall j s, sccp_list nat !! j = Some s -> msc_endp s = -1) ->
  sccp_list nat !! con1 = Some c1 ->
  sccp_list nat !! con2 = Some c2 ->
  con_bsc c2 = con_bsc c1 ->
  con1 <> con2 ->
  assignment_for tlv nat msg1 endp1 ->
  assignment_for tlv nat msg2 endp2 ->
  endp1 <> endp2 ->
  exists nat',
    run_assignments tlv [(con1, msg1); (con2, msg2)] nat = ([0; -1], nat')
    /\ bsc_endp <$> sccp_list nat' !! con1 = Some 1.
Proof.
  intros Hb Hst Hle Hcfg Hmax Hunbound Hc1 Hc2 Hsame Hne Hm1 Hm2 Hendp.
  assert (Hpos : forall msg endp, assignment_for tlv nat msg endp -> 0 <= endp).
  { intros msg endp (l3h & off & _ & _ & _ & Hdec & _).
    pose proof (cic_decode_range (ntohs_at (l3_data msg) (l3h + 3 + off))) as Hr.
    destruct (cic_decode _) as [mx ts]. cbn in Hr.
    unfold mgcp_timeslot_to_endpoint in Hdec. lia. }
  destruct (fresh_two_endpoints fb c (set_msc_endp endp1 c1) (set_msc_endp endp2 c2)
              Hst Hle Hcfg Hmax) as (b1 & b2 & Hi1 & Ha1 & Hi2 & Ha2).
  destruct (assign_patch_no_stale tlv con1 msg1 nat endp1 c1 fb Hm1) with
    (b1 := b1) (rc := 0) (b2 := b2) (c2 := set_bsc_endp 1 (set_msc_endp endp1 c1))
    as (msg1' & Hp1); try assumption; try reflexivity.
  { intros j s Hj. apply Hunbound in Hj. apply Hpos in Hm1. lia. }
  set (nat1 := with_sccp_list _ _) in Hp1.
  assert (Hl1 : sccp_list nat1 !! con1 = Some (set_bsc_endp 1 (set_msc_endp endp1 c1))).
  { cbn. apply list_lookup_insert_eq. eapply lookup_lt_Some; eassumption. }
  assert (Hl2 : sccp_list nat1 !! con2 = Some c2).
  { cbn. rewrite list_lookup_insert_ne by congruence. assumption. }
  destruct (assign_patch_no_stale tlv con2 msg2 nat1 endp2 c2 b2) with
    (b1 := b2) (rc := -1) (b2 := b2) (c2 := set_msc_endp endp2 c2)
    as (msg2' & Hp2); try assumption; try reflexivity.
  { intros j s Hj. cbn in Hj.
    destruct (decide (con1 = j)) as [<- | Hj'].
    - rewrite list_lookup_insert_eq in Hj by (eapply lookup_lt_Some; eassumption).
      injection Hj as <-. cbn. congruence.
    - rewrite list_lookup_insert_ne in Hj by assumption.
      apply Hunbound in Hj. apply Hpos in Hm2. lia. }
  { cbn. rewrite Hsame. apply list_lookup_insert_eq. eapply lookup_lt_Some; eassumption. }
  eexists. cbn [run_assignments]. rewrite Hp1. cbn [Z.eqb]. rewrite Hp2.
  cbn [Z.eqb]. split; [reflexivity |].
  cbn. rewrite list_lookup_insert_ne by congruence.
  rewrite list_lookup_insert_eq by (eapply lookup_lt_Some; eassumption).
  reflexivity.
Qed.

Lemma second_assignment_fails_witness :
  exists nat',
    run_assignments tlv_cic_first
      [(0%nat, assignment_msg 1); (1%nat, assignment_msg 2)] (sample_nat 2)
    = ([0; -1], nat')
    /\ bsc_endp <$> sccp_list nat' !! 0%nat = Some 1.
Proof.
  apply (second_assignment_fails tlv_cic_first (sample_nat 2) (fresh_bsc 2)
           {| cfg_max_endpoints := 2; dropped_calls := 0 |}
           0%nat 1%nat (unbound_con 0) (unbound_con 0)
           (assignment_msg 1) (assignment_msg 2) 1 2);
    try reflexivity; try lia.
  - intros [| [| [| j]]] s Hj; cbn in Hj; inversion Hj; reflexivity.
  - exists 0%nat, 1%nat. repeat split; vm_compute; congruence.
  - exists 0%nat, 1%nat. repeat split; vm_compute; congruence.
Defined.

(** C3, as stated: with [max_endpoints = 2] and three assignments for three
    connections and three circuits, the second assignment does not
    succeed. *)
Lemma two_endpoints_second_fails :
  fst (run_assignments tlv_cic_first
         [(0%nat, assignment_msg 1); (1%nat, assignment_msg 2);
          (2%nat, assignment_msg 3)] (sample_nat 2)) = [0; -1; -1]
  /\ fst (run_assignments tlv_cic_first
            [(0%nat, assignment_msg 1); (1%nat, assignment_msg 2);
             (2%nat, assignment_msg 3)] (sample_nat 2)) <> [0; 0; -1].
Proof. split; [reflexivity | vm_compute; discriminate]. Qed.

(** ** The patched message *)

Lemma store_htons_lookup (data : list Z) (off : Datatypes.nat) (v : Z) :
  (off + 2 <= length data)%nat ->
  store_htons off v data !! off = Some (v / 256)
  /\ store_htons off v data !! S off = Some (v mod 256)
  /\ (forall i, i <> off -> i <> S off -> store_htons off v data !! i = data !! i)
  /\ length (store_htons off v data) = length data.
Proof.
  intros Hlen. unfold store_htons. repeat split.
  - rewrite list_lookup_insert_ne by lia. apply list_lookup_insert_eq. lia.
  - apply list_lookup_insert_eq. rewrite length_insert. lia.
  - intros i H1 H2. rewrite !list_lookup_insert_ne by lia. reflexivity.
  - rewrite !length_insert. reflexivity.
Qed.

(** C6: when [bsc_mgcp_assign_patch] returns 0, the message differs from
    the one it was given in the two bytes of the value of the circuit
    identity code element only; they hold [create_cic] of the [bsc_endp] the
    connection now has, high byte first.  The parser is any function whose
    value lies inside the bytes it parsed. *)
Theorem assign_patch_frame (tlv : list Z -> option Datatypes.nat) (con : sccp_ref)
    (msg msg' : l3_msgb) (nat nat' : bsc_nat) :
  (forall b off, tlv b = Some off -> (off + 2 <= length b)%nat) ->
  bsc_mgcp_assign_patch tlv con msg nat = (0, msg', nat') ->
  exists l3h off c',
    l3_l3h msg = Some l3h
    /\ tlv (drop (l3h + 3) (l3_data msg)) = Some off
    /\ sccp_list nat' !! con = Some c'
    /\ l3_data msg' !! (l3h + 3 + off)%nat = Some (create_cic (bsc_endp c') / 256)
    /\ l3_data msg' !! S (l3h + 3 + off) = Some (create_cic (bsc_endp c') mod 256)
    /\ (forall i, i <> (l3h + 3 + off)%nat -> i <> S (l3h + 3 + off) ->
                  l3_data msg' !! i = l3_data msg !! i)
    /\ length (l3_data msg') = length (l3_data msg)
    /\ l3_l3h msg' = l3_l3h msg.
Proof.
  intros Htlv. unfold bsc_mgcp_assign_patch.
  destruct (l3_l3h msg) as [l3h |] eqn:Hl3; [| intros [=]].
  destruct (_ <? 3) eqn:E3; [intros [=] |].
  destruct (tlv _) as [off |] eqn:Hoff; [| intros [=]].
  destruct (cic_decode _) as [multiplex timeslot].
  destruct (_ >=? number_endpoints nat); [intros [=] |].
  set (nat1 := drop_stale_from _ _ _ _).
  destruct (sccp_list nat1 !! con) as [c |] eqn:Hc; [| intros [=]].
  cbn [with_sccp_list bscs sccp_list set_msc_endp con_bsc].
  destruct (bscs nat1 !! con_bsc c) as [b |]; [| intros [=]].
  destruct (bsc_init_endps_if_needed b) as [rc b1].
  destruct (negb (rc =? 0)); [intros [=] |].
  destruct (bsc_assign_endpoint b1 _) as [[rc2 b2] c2].
  destruct (negb (rc2 =? 0)); [intros [=] |].
  intros [= <- <-].
  apply Htlv in Hoff as Hbound. rewrite length_drop in Hbound.
  destruct (store_htons_lookup (l3_data msg) (l3h + 3 + off) (create_cic (bsc_endp c2)))
    as (H1 & H2 & H3 & H4); [lia |].
  exists l3h, off, c2. cbn [l3_data l3_l3h sccp_list with_sccp_list with_bscs].
  repeat split; try assumption.
  rewrite list_lookup_insert_eq; [reflexivity |].
  rewrite length_insert. eapply lookup_lt_Some; eassumption.
Qed.

Lemma tlv_cic_first_bound (b : list Z) (off : Datatypes.nat) :
  tlv_cic_first b = Some off -> (off + 2 <= length b)%nat.
Proof.
  destruct b as [| [| [| |] |] [| ? [| ? ?]]]; cbn; intros [=]; subst; cbn; lia.
Qed.

Lemma assign_patch_frame_witness :
  let msg := assignment_msg 5 in
  let r := bsc_mgcp_assign_patch tlv_cic_first 0%nat msg (sample_nat 60) in
  let msg' := snd (fst r) in
  exists l3h off c',
    l3_l3h msg = Some l3h
    /\ tlv_cic_first (drop (l3h + 3) (l3_data msg)) = Some off
    /\ sccp_list (snd r) !! 0%nat = Some c'
    /\ l3_data msg' !! (l3h + 3 + off)%nat = Some (create_cic (bsc_endp c') / 256)
    /\ l3_data msg' !! S (l3h + 3 + off) = Some (create_cic (bsc_endp c') mod 256)
    /\ (forall i, i <> (l3h + 3 + off)%nat -> i <> S (l3h + 3 + off) ->
                  l3_data msg' !! i = l3_data msg !! i)
    /\ length (l3_data msg') = length (l3_data msg)
    /\ l3_l3h msg' = l3_l3h msg.
Proof.
  apply (assign_patch_frame tlv_cic_first 0%nat (assignment_msg 5) _ (sample_nat 60) _
           tlv_cic_first_bound).
  reflexivity.
Defined.

(** ** Session teardown *)

(** C9: [bsc_mgcp_dlcx] leaves [msc_endp] and [bsc_endp] of the connection
    at -1 on every call and touches no other connection; when [bsc_endp] was
    -1 already, or the BSC has no status array, no status byte changes,
    nothing is sent, and the pending slots and endpoints stay as they
    were. *)
Theorem bsc_mgcp_dlcx_resets (con : sccp_ref) (nat : bsc_nat) (c : sccp_connections) :
  sccp_list nat !! con = Some c ->
  sccp_list (bsc_mgcp_dlcx con nat) !! con
  = Some {| msc_endp := -1; bsc_endp := -1; con_bsc := con_bsc c |}
  /\ (forall j, j <> con ->
        sccp_list (bsc_mgcp_dlcx con nat) !! j = sccp_list nat !! j)
  /\ (bsc_endp c = -1 \/ bscs nat !! con_bsc c ≫= _endpoint_status = None ->
        bscs (bsc_mgcp_dlcx con nat) = bscs nat
        /\ sent (bsc_mgcp_dlcx con nat) = sent nat
        /\ bsc_endpoints (bsc_mgcp_dlcx con nat) = bsc_endpoints nat
        /\ endpoints (bsc_mgcp_dlcx con nat) = endpoints nat).
Proof.
  intros Hc. unfold bsc_mgcp_dlcx. rewrite Hc.
  assert (Hlt := lookup_lt_Some _ _ _ Hc).
  set (nat1 := if negb (bsc_endp c =? -1) then _ else nat).
  assert (Hsccp : sccp_list nat1 = sccp_list nat).
  { unfold nat1. destruct (negb (bsc_endp c =? -1)); [| reflexivity].
    destruct (bscs nat !! con_bsc c) as [b |]; [| reflexivity].
    destruct (_endpoint_status b); reflexivity. }
  cbn [sccp_list with_sccp_list bscs sent bsc_endpoints endpoints]. rewrite Hsccp.
  split; [apply list_lookup_insert_eq; exact Hlt |].
  split; [intros j Hj; apply list_lookup_insert_ne; congruence |].
  intros Hskip. unfold nat1.
  destruct (bsc_endp c =? -1) eqn:E; cbn [negb]; [repeat split |].
  destruct Hskip as [Hm1 | Hnone]; [lia |].
  destruct (bscs nat !! con_bsc c) as [b |]; [| repeat split].
  cbn in Hnone. rewrite Hnone. repeat split.
Qed.

Lemma bsc_mgcp_dlcx_resets_witness :
  (sccp_list assigned_nat !! 0%nat
   = Some {| msc_endp := 1; bsc_endp := 1; con_bsc := 0 |}
   /\ sccp_list (bsc_mgcp_dlcx 0 assigned_nat) !! 0%nat
      = Some {| msc_endp := -1; bsc_endp := -1; con_bsc := 0 |}
   /\ (forall j, j <> 0%nat ->
         sccp_list (bsc_mgcp_dlcx 0 assigned_nat) !! j = sccp_list assigned_nat !! j)
   /\ (1 = -1 \/ bscs assigned_nat !! 0%nat ≫= _endpoint_status = None ->
         bscs (bsc_mgcp_dlcx 0 assigned_nat) = bscs assigned_nat
         /\ sent (bsc_mgcp_dlcx 0 assigned_nat) = sent assigned_nat
         /\ bsc_endpoints (bsc_mgcp_dlcx 0 assigned_nat) = bsc_endpoints assigned_nat
         /\ endpoints (bsc_mgcp_dlcx 0 assigned_nat) = endpoints assigned_nat))
  /\ (sccp_list refused_nat !! 1%nat
      = Some {| msc_endp := 2; bsc_endp := -1; con_bsc := 0 |}
      /\ sccp_list (bsc_mgcp_dlcx 1 refused_nat) !! 1%nat
         = Some {| msc_endp := -1; bsc_endp := -1; con_bsc := 0 |}
      /\ (forall j, j <> 1%nat ->
            sccp_list (bsc_mgcp_dlcx 1 refused_nat) !! j = sccp_list refused_nat !! j)
      /\ (-1 = -1 \/ bscs refused_nat !! 0%nat ≫= _endpoint_status = None ->
            bscs (bsc_mgcp_dlcx 1 refused_nat) = bscs refused_nat
            /\ sent (bsc_mgcp_dlcx 1 refused_nat) = sent refused_nat
            /\ bsc_endpoints (bsc_mgcp_dlcx 1 refused_nat) = bsc_endpoints refused_nat
            /\ endpoints (bsc_mgcp_dlcx 1 refused_nat) = endpoints refused_nat)).
Proof.
  split; (split; [reflexivity |]).
  - apply (bsc_mgcp_dlcx_resets 0%nat assigned_nat
             {| msc_endp := 1; bsc_endp := 1; con_bsc := 0 |}).
    reflexivity.
  - apply (bsc_mgcp_dlcx_resets 1%nat refused_nat
             {| msc_endp := 2; bsc_endp := -1; con_bsc := 0 |}).
    reflexivity.
Defined.

(** ** Pending slots *)

Section SlotInvariant.

Variable P : bsc_endpoint -> Prop.
Hypothesis P_empty : P empty_slot.


Lemma slots_all_set_slot (i : Z) (s : bsc_endpoint) (nat : bsc_nat) :
  P s -> slots_all P nat -> slots_all P (set_slot i s nat).
Proof.
  unfold slots_all, set_slot, zinsert. cbn. intros Hs Hall.
  destruct (0 <=? i); [apply Forall_insert; assumption | assumption].
Qed.

Lemma slots_all_slot_at (i : Z) (nat : bsc_nat) :
  slots_all P nat -> P (slot_at nat i).
Proof.
  unfold slots_all, slot_at, zlookup. intros Hall.
  destruct (0 <=? i); [| exact P_empty].
  destruct (bsc_endpoints nat !! Z.to_nat i) as [s |] eqn:E; [| exact P_empty].
  cbn. eapply Forall_lookup_1; eassumption.
Qed.

Lemma slots_all_free_endpoint (i : Z) (nat : bsc_nat) :
  slots_all P nat -> slots_all P (bsc_mgcp_free_endpoint i nat).
Proof. apply slots_all_set_slot. exact P_empty. Qed.

Lemma slots_all_mgcp_free_endp (i : Z) (nat : bsc_nat) :
  slots_all P nat -> slots_all P (mgcp_free_endp i nat).
Proof. intros H. exact H. Qed.

Lemma slots_all_free_endpoints_from (n : Datatypes.nat) (i : Z) (nat : bsc_nat) :
  slots_all P nat -> slots_all P (free_endpoints_from n i nat).
Proof.
  revert i nat. induction n as [| n IH]; intros i nat Hall; [exact Hall |].
  cbn [free_endpoints_from]. apply IH.
  apply slots_all_mgcp_free_endp, slots_all_free_endpoint. exact Hall.
Qed.

Lemma slots_all_dlcx (con : sccp_ref) (nat : bsc_nat) :
  slots_all P nat -> slots_all P (bsc_mgcp_dlcx con nat).
Proof.
  intros Hall. unfold bsc_mgcp_dlcx.
  destruct (sccp_list nat !! con) as [c |]; [| exact Hall].
  unfold slots_all. cbn [bsc_endpoints with_sccp_list].
  destruct (negb (bsc_endp c =? -1)); [| exact Hall].
  destruct (bscs nat !! con_bsc c) as [b |]; [| exact Hall].
  destruct (_endpoint_status b); [| exact Hall].
  apply slots_all_free_endpoint. exact Hall.
Qed.

Lemma slots_all_free_chan_downstream (i : Z) (from : bsc_ref) (nat : bsc_nat) :
  slots_all P nat -> slots_all P (free_chan_downstream i from nat).
Proof.
  intros Hall. unfold free_chan_downstream.
  apply slots_all_mgcp_free_endp, slots_all_free_endpoint.
  destruct (_ =? MGCP_ENDP_CRCX); [| exact Hall].
  destruct (bsc_mgcp_find_con nat i) as [[? con] |]; [| exact Hall].
  destruct (Nat.eqb _ _); exact Hall.
Qed.

Lemma slots_all_clear_endpoints_from (from : bsc_ref) (n : Datatypes.nat) (i : Z)
    (nat : bsc_nat) :
  slots_all P nat -> slots_all P (clear_endpoints_from from n i nat).
Proof.
  revert i nat. induction n as [| n IH]; intros i nat Hall; [exact Hall |].
  cbn [clear_endpoints_from]. apply IH.
  destruct (bsc (slot_at nat i)) as [b |]; [| exact Hall].
  destruct (Nat.eqb b from); [| exact Hall].
  apply slots_all_mgcp_free_endp, slots_all_free_endpoint. exact Hall.
Qed.

(** The two stores of [bsc_mgcp_forward] and of [bsc_mgcp_policy_cb] into a
    slot keep [P]. *)
Hypothesis P_consumed : forall s,
  P s -> P {| transaction_id := None; transaction_state := 0; bsc := bsc s |}.
Hypothesis P_unbound : forall s,
  P s -> transaction_id s = None ->
  P {| transaction_id := None; transaction_state := transaction_state s; bsc := None |}.
Hypothesis P_pending : forall tid state b,
  state <> 0 ->
  P {| transaction_id := Some tid; transaction_state := state; bsc := Some b |}.

Lemma slots_all_forward (from : bsc_ref) (msg : list ascii) (nat : bsc_nat) :
  slots_all P nat -> slots_all P (bsc_mgcp_forward from msg nat).
Proof.
  intros Hall. unfold bsc_mgcp_forward.
  destruct (_ >? 2000); [exact Hall |].
  destruct (bsc_mgcp_parse_response _) as [[code tid] |]; [| exact Hall].
  destruct (find_pending _ _ _ _ _) as [i |]; [| exact Hall].
  cbn [ci]. destruct (_ =? CI_UNUSED).
  - apply slots_all_free_chan_downstream. exact Hall.
  - match goal with
    | |- context [bsc_mgcp_rewrite _ _ _ (source_addr ?n) _] => set (nat2 := n)
    end.
    assert (slots_all P nat2) as Hall2.
    { apply slots_all_set_slot; [| exact Hall].
      apply P_consumed. apply slots_all_slot_at. exact Hall. }
    destruct (bsc_mgcp_rewrite _ _ _ _ _) as [outp |]; [| exact Hall2].
    unfold mgcp_queue_for_call_agent. destruct (mgcp_ipa _); exact Hall2.
Qed.

Lemma slots_all_policy_cb (mgcp_msg : list ascii) (mgcp_length endpoint state : Z)
    (tid : list ascii) (nat : bsc_nat) :
  state <> 0 ->
  slots_all P nat ->
  slots_all P (snd (bsc_mgcp_policy_cb mgcp_msg mgcp_length endpoint state tid nat)).
Proof.
  intros Hstate Hall. unfold bsc_mgcp_policy_cb.
  set (cleared := match transaction_id (slot_at nat endpoint) with
                  | Some _ => _ | None => _ end).
  assert (P cleared) as Hcl.
  { unfold cleared. pose proof (slots_all_slot_at endpoint nat Hall) as Hs.
    destruct (transaction_id (slot_at nat endpoint)) eqn:E.
    - exact P_empty.
    - apply P_unbound; assumption. }
  pose proof (slots_all_set_slot endpoint cleared nat Hcl Hall) as Hall1.
  set (nat1 := set_slot endpoint cleared nat) in *.
  destruct (bsc_mgcp_find_con nat1 endpoint) as [[con sccp] |].
  2: { destruct (state =? MGCP_ENDP_CRCX); [exact Hall1 |].
       destruct (state =? MGCP_ENDP_DLCX); [exact Hall1 |].
       destruct (state =? MGCP_ENDP_MDCX); exact Hall1. }
  destruct (bsc_mgcp_rewrite _ _ _ _ _) as [bsc_msg |]; [| exact Hall1].
  set (pending := {| transaction_id := Some (c_str tid); transaction_state := state;
                     bsc := Some (con_bsc sccp) |}).
  pose proof (slots_all_set_slot endpoint pending nat1
                (P_pending _ _ _ Hstate) Hall1) as Hall2.
  destruct (state =? MGCP_ENDP_CRCX); [exact Hall2 |].
  destruct (state =? MGCP_ENDP_DLCX); [| exact Hall2].
  cbn [snd]. apply slots_all_dlcx. exact Hall2.
Qed.

Lemma slots_all_run_op (op : core_op) (nat : bsc_nat) :
  op_verb op -> slots_all P nat -> slots_all P (run_op nat op).
Proof.
  destruct op; cbn [run_op op_verb]; intros Hv Hall.
  - apply slots_all_policy_cb; assumption.
  - apply slots_all_forward; assumption.
  - apply slots_all_dlcx; assumption.
  - apply slots_all_free_endpoint; assumption.
  - apply slots_all_free_endpoints_from; assumption.
  - apply slots_all_clear_endpoints_from; assumption.
Qed.

End SlotInvariant.

Lemma slot_pending_bound_empty : slot_pending_bound empty_slot.
Proof.
  split; [split |]; cbn.
  - intros [? [=]].
  - intros H. contradiction H. reflexivity.
  - intros [? [=]].
Qed.

(** C1, amended: after every operation of the core (a policy decision for
    a verb, the forwarding of a reply, a teardown, the release of an
    endpoint, the cleanup for a BSC that went away), in every pending slot
    the transaction id is present exactly when the state is not 0, and a
    slot with a transaction id has its BSC bound. *)
Theorem pending_slots_invariant (ops : list core_op) (nat : bsc_nat) :
  Forall op_verb ops ->
  Forall slot_pending_bound (bsc_endpoints nat) ->
  Forall slot_pending_bound (bsc_endpoints (foldl run_op nat ops)).
Proof.
  intros Hops. revert nat. induction Hops as [| op ops Hop Hops IH]; intros nat Hall.
  - exact Hall.
  - cbn [foldl]. apply IH.
    apply (slots_all_run_op slot_pending_bound slot_pending_bound_empty); try assumption.
    + intros s [[H1 H2] H3]. split; [split |]; cbn.
      * intros [? [=]].
      * intros H. contradiction H. reflexivity.
      * intros [? [=]].
    + intros s [[H1 H2] H3] Hnone. split; [split |]; cbn.
      * intros [? [=]].
      * intros H. apply H2 in H. rewrite Hnone in H. destruct H as [? [=]].
      * intros [? [=]].
    + intros tid state b Hstate. split; [split |]; cbn; eauto.
Qed.

Lemma pending_slots_invariant_witness :
  Forall slot_pending_bound
    (bsc_endpoints
       (foldl run_op assigned_nat
          [OpPolicy crcx_msg (Z.of_nat (length crcx_msg)) 1 MGCP_ENDP_CRCX (txt "1234");
           OpForward 0 reply_msg])).
Proof.
  apply pending_slots_invariant.
  - repeat constructor. cbn. discriminate.
  - change (bsc_endpoints assigned_nat) with (replicate 33 empty_slot).
    apply Forall_replicate. exact slot_pending_bound_empty.
Defined.

(** C1, as stated: forwarding the reply of the BSC clears the id and the
    state of the slot and leaves its BSC bound. *)
Lemma forward_leaves_bsc_bound :
  Forall slot_consistent (bsc_endpoints pending_nat)
  /\ ~ Forall slot_consistent
        (bsc_endpoints (run_op pending_nat (OpForward 0 reply_msg))).
Proof.
  split.
  - change (bsc_endpoints pending_nat)
      with (<[1%nat := {| transaction_id := Some (txt "1234");
                          transaction_state := MGCP_ENDP_CRCX;
                          bsc := Some 0%nat |}]> (replicate 33 empty_slot)).
    apply Forall_insert.
    + apply Forall_replicate. split; split; cbn.
      * intros [? [=]].
      * intros H. contradiction H. reflexivity.
      * intros H. contradiction H. reflexivity.
      * intros [? [=]].
    + split; split; cbn; eauto; discriminate.
  - intros Hall.
    assert (Hslot : bsc_endpoints (run_op pending_nat (OpForward 0 reply_msg)) !! 1%nat
                    = Some {| transaction_id := None; transaction_state := 0;
                              bsc := Some 0%nat |}) by reflexivity.
    destruct (Forall_lookup_1 _ _ _ _ Hall Hslot) as [_ [_ Hbound]].
    apply Hbound; cbn; eauto.
Qed.

(** ** Replies of the BSC *)

Lemma slot_at_set_slot_eq (i : Z) (s : bsc_endpoint) (nat : bsc_nat) :
  s = empty_slot \/ 0 <= i < Z.of_nat (length (bsc_endpoints nat)) ->
  slot_at (set_slot i s nat) i = s.
Proof.
  unfold slot_at, set_slot, zlookup, zinsert. cbn. intros H.
  destruct (0 <=? i) eqn:E0.
  - destruct (Z.lt_ge_cases i (Z.of_nat (length (bsc_endpoints nat)))) as [Hlt | Hge].
    + rewrite list_lookup_insert_eq by lia. reflexivity.
    + destruct H as [-> | H]; [| lia].
      rewrite list_insert_ge by lia. rewrite lookup_ge_None_2 by lia. reflexivity.
  - destruct H as [-> | H]; [reflexivity | lia].
Qed.

(** C2, amended: when a reply of the BSC matches a pending slot, carries no
    connection identifier, the pending verb was CRCX and the connection of
    the endpoint belongs to that BSC, a DLCX for the BSC endpoint of the
    connection is sent to the BSC and the pending slot is freed; the
    connections (their [msc_endp] and [bsc_endp]) and the status bytes of
    the BSCs stay as they were. *)
Theorem forward_no_ci_crcx (from : bsc_ref) (msg : list ascii) (nat : bsc_nat)
    (code : Z) (tid : list ascii) (i : Z) (con : sccp_ref) (c : sccp_connections) :
  Z.of_nat (length msg) <= 2000 ->
  bsc_mgcp_parse_response (c_str msg) = Some (code, tid) ->
  find_pending nat from tid (Z.to_nat (number_endpoints nat - 1)) 1 = Some i ->
  bsc_mgcp_extract_ci (c_str msg) = CI_UNUSED ->
  transaction_state (slot_at nat i) = MGCP_ENDP_CRCX ->
  bsc_mgcp_find_con nat i = Some (con, c) ->
  con_bsc c = from ->
  sent (bsc_mgcp_forward from msg nat)
  = sent nat ++ [BscWrite from (dlcx_text (bsc_endp c))]
  /\ slot_at (bsc_mgcp_forward from msg nat) i = empty_slot
  /\ sccp_list (bsc_mgcp_forward from msg nat) = sccp_list nat
  /\ bscs (bsc_mgcp_forward from msg nat) = bscs nat.
Proof.
  intros Hlen Hparse Hfind Hci Hstate Hcon Hfrom.
  unfold bsc_mgcp_forward.
  destruct (_ >? 2000) eqn:E; [lia |].
  rewrite Hparse, Hfind. cbn [ci]. rewrite Hci. cbn [Z.eqb CI_UNUSED].
  unfold free_chan_downstream.
  set (nat1 := set_endp i _ nat).
  change (slot_at nat1 i) with (slot_at nat i). rewrite Hstate.
  change (bsc_mgcp_find_con nat1 i) with (bsc_mgcp_find_con nat i). rewrite Hcon.
  rewrite Hfrom, Nat.eqb_refl. cbn [Z.eqb MGCP_ENDP_CRCX].
  repeat split.
  apply (slot_at_set_slot_eq i empty_slot). left. reflexivity.
Qed.

Lemma forward_no_ci_crcx_witness :
  let nat' := bsc_mgcp_forward 0 reply_no_ci_msg pending_nat in
  sent nat' = sent pending_nat ++ [BscWrite 0 (dlcx_text 1)]
  /\ slot_at nat' 1 = empty_slot
  /\ sccp_list nat' = sccp_list pending_nat
  /\ bscs nat' = bscs pending_nat.
Proof.
  apply (forward_no_ci_crcx 0%nat reply_no_ci_msg pending_nat 200 (txt "1234") 1 0%nat
           {| msc_endp := 1; bsc_endp := 1; con_bsc := 0 |});
    solve [reflexivity | vm_compute; congruence].
Defined.

(** C2, as stated: the reply without connection identifier to the pending
    CRCX of the sample call does not run the teardown of the session. *)
Lemma forward_no_ci_no_teardown :
  bsc_mgcp_parse_response (c_str reply_no_ci_msg) = Some (200, txt "1234")
  /\ find_pending pending_nat 0 (txt "1234")
       (Z.to_nat (number_endpoints pending_nat - 1)) 1 = Some 1
  /\ bsc_mgcp_extract_ci (c_str reply_no_ci_msg) = CI_UNUSED
  /\ transaction_state (slot_at pending_nat 1) = MGCP_ENDP_CRCX
  /\ ~ torn_down pending_nat (bsc_mgcp_forward 0 reply_no_ci_msg pending_nat) 0.
Proof.
  repeat split; try reflexivity.
  intros (c & c' & b & _ & Hafter & Hmsc & _).
  vm_compute in Hafter. injection Hafter as <-. discriminate Hmsc.
Qed.

(** ** Replaced transactions and duplicate replies *)

Lemma streq_eq (a b : list ascii) : streq a b = true <-> a = b.
Proof.
  revert b. induction a as [| x a IH]; intros [| y b]; cbn; try (split; congruence).
  rewrite andb_true_iff, Ascii.eqb_eq, IH. split.
  - intros [-> ->]. reflexivity.
  - intros [= -> ->]. split; reflexivity.
Qed.

Lemma find_pending_None (nat : bsc_nat) (from : bsc_ref) (tid : list ascii)
    (n : Datatypes.nat) (i : Z) :
  (forall k, i <= k < i + Z.of_nat n -> ~ waits_for nat from tid k) ->
  find_pending nat from tid n i = None.
Proof.
  revert i. induction n as [| n IH]; intros i Hno; [reflexivity |].
  cbn [find_pending].
  assert (Hrec : find_pending nat from tid n (i + 1) = None).
  { apply IH. intros k Hk. apply Hno. lia. }
  specialize (Hno i ltac:(lia)). unfold waits_for in Hno.
  destruct (bsc (slot_at nat i)) as [b |]; [| exact Hrec].
  destruct (Nat.eqb b from) eqn:Eb; [| exact Hrec].
  apply Nat.eqb_eq in Eb as ->.
  destruct (transaction_id (slot_at nat i)) as [t |]; [| exact Hrec].
  destruct (streq tid t) eqn:Et; [| exact Hrec].
  apply streq_eq in Et as ->. contradiction Hno. split; reflexivity.
Qed.

Lemma slot_at_set_slot_ne (i j : Z) (s : bsc_endpoint) (nat : bsc_nat) :
  i <> j -> slot_at (set_slot i s nat) j = slot_at nat j.
Proof.
  intros Hne. unfold slot_at, set_slot. cbn.
  rewrite zlookup_zinsert_ne by assumption. reflexivity.
Qed.

(** The slot just stored: the value stored, or, outside the array, the
    empty slot. *)
Lemma slot_at_set_slot_same (i : Z) (s : bsc_endpoint) (nat : bsc_nat) :
  slot_at (set_slot i s nat) i = s \/ slot_at (set_slot i s nat) i = empty_slot.
Proof.
  unfold slot_at, set_slot, zlookup, zinsert. cbn.
  destruct (0 <=? i) eqn:E0; [| right; reflexivity].
  destruct (Z.lt_ge_cases i (Z.of_nat (length (bsc_endpoints nat)))) as [Hlt | Hge].
  - left. rewrite list_lookup_insert_eq by lia. reflexivity.
  - right. rewrite list_insert_ge by lia. rewrite lookup_ge_None_2 by lia. reflexivity.
Qed.

Lemma find_con_from_msc_endp (endpoint : Z) (l : list sccp_connections)
    (i : sccp_ref) (acc : option (sccp_ref * sccp_connections))
    (con : sccp_ref) (sccp : sccp_connections) :
  find_con_from endpoint l i acc = Some (con, sccp) ->
  acc = Some (con, sccp)
  \/ (l !! (con - i)%nat = Some sccp /\ (i <= con)%nat /\ msc_endp sccp = endpoint).
Proof.
  revert i acc. induction l as [| s l IH]; intros i acc; cbn [find_con_from].
  - intros ->. left. reflexivity.
  - assert (Hshift : forall acc',
              find_con_from endpoint l (S i) acc' = Some (con, sccp) ->
              acc' = Some (con, sccp)
              \/ ((s :: l) !! (con - i)%nat = Some sccp /\ (i <= con)%nat
                  /\ msc_endp sccp = endpoint)).
    { intros acc' H. apply IH in H as [H | (H1 & H2 & H3)]; [left; exact H |].
      right. replace (con - i)%nat with (S (con - S i)) by lia.
      split; [exact H1 |]. split; [lia | exact H3]. }
    destruct (msc_endp s =? -1) eqn:E1; [apply Hshift |].
    destruct (msc_endp s =? endpoint) eqn:E2; cbn [negb]; [| apply Hshift].
    intros H. apply Hshift in H as [[= <- <-] | H]; [| right; exact H].
    right. rewrite Nat.sub_diag. split; [reflexivity |]. split; [lia | lia].
Qed.

Lemma bsc_mgcp_find_con_msc_endp (nat : bsc_nat) (endpoint : Z)
    (con : sccp_ref) (sccp : sccp_connections) :
  bsc_mgcp_find_con nat endpoint = Some (con, sccp) ->
  sccp_list nat !! con = Some sccp /\ msc_endp sccp = endpoint.
Proof.
  unfold bsc_mgcp_find_con. intros H.
  apply find_con_from_msc_endp in H as [[=] | (H1 & _ & H3)].
  rewrite Nat.sub_0_r in H1. split; assumption.
Qed.

(** The slots after a teardown: those before, but for the slot of
    [msc_endp] of the connection, which may have been freed. *)
Lemma slot_at_dlcx (con : sccp_ref) (nat : bsc_nat) (j : Z) :
  slot_at (bsc_mgcp_dlcx con nat) j = slot_at nat j
  \/ (exists c, sccp_list nat !! con = Some c /\ msc_endp c = j
                /\ slot_at (bsc_mgcp_dlcx con nat) j = empty_slot).
Proof.
  unfold bsc_mgcp_dlcx.
  destruct (sccp_list nat !! con) as [c |] eqn:Hc; [| left; reflexivity].
  destruct (negb (bsc_endp c =? -1)); [| left; reflexivity].
  destruct (bscs nat !! con_bsc c) as [b |]; [| left; reflexivity].
  destruct (_endpoint_status b); [| left; reflexivity].
  match goal with
  | |- slot_at (with_sccp_list _ (bsc_mgcp_free_endpoint _ ?n)) _ = _ \/ _ =>
    change (slot_at (with_sccp_list _ (bsc_mgcp_free_endpoint (msc_endp c) n)) j)
      with (slot_at (set_slot (msc_endp c) empty_slot nat) j)
  end.
  destruct (Z.eq_dec (msc_endp c) j) as [Heq | Hne].
  - right. exists c. split; [reflexivity |]. split; [exact Heq |]. subst j.
    destruct (slot_at_set_slot_same (msc_endp c) empty_slot nat) as [H | H]; exact H.
  - left. apply slot_at_set_slot_ne. exact Hne.
Qed.

Lemma slot_at_same_slots (nat nat' : bsc_nat) (j : Z) :
  bsc_endpoints nat' = bsc_endpoints nat -> slot_at nat' j = slot_at nat j.
Proof. unfold slot_at. intros ->. reflexivity. Qed.

(** The slots after the policy callback: only the slot of the endpoint
    changes, and it holds no id or the id of the new transaction. *)
Lemma policy_cb_slots (mgcp_msg : list ascii) (mgcp_length endpoint state : Z)
    (tid : list ascii) (nat : bsc_nat) :
  let nat' := snd (bsc_mgcp_policy_cb mgcp_msg mgcp_length endpoint state tid nat) in
  (forall j, j <> endpoint -> slot_at nat' j = slot_at nat j)
  /\ (transaction_id (slot_at nat' endpoint) = None
      \/ transaction_id (slot_at nat' endpoint) = Some (c_str tid))
  /\ number_endpoints nat' = number_endpoints nat.
Proof.
  unfold bsc_mgcp_policy_cb.
  set (cleared := match transaction_id (slot_at nat endpoint) with
                  | Some _ => _ | None => _ end).
  assert (Hcl : transaction_id cleared = None).
  { unfold cleared. destruct (transaction_id (slot_at nat endpoint)); reflexivity. }
  set (nat1 := set_slot endpoint cleared nat).
  assert (H1 : (forall j, j <> endpoint -> slot_at nat1 j = slot_at nat j)
               /\ (transaction_id (slot_at nat1 endpoint) = None
                   \/ transaction_id (slot_at nat1 endpoint) = Some (c_str tid))
               /\ number_endpoints nat1 = number_endpoints nat).
  { split; [intros j Hj; apply slot_at_set_slot_ne; congruence |].
    split; [| reflexivity]. left.
    destruct (slot_at_set_slot_same endpoint cleared nat) as [H | H];
      fold nat1 in H; rewrite H; [exact Hcl | reflexivity]. }
  destruct (bsc_mgcp_find_con nat1 endpoint) as [[con sccp] |] eqn:Hfind.
  2: { destruct (state =? MGCP_ENDP_CRCX); [exact H1 |].
       destruct (state =? MGCP_ENDP_DLCX); [exact H1 |].
       destruct (state =? MGCP_ENDP_MDCX); exact H1. }
  destruct (bsc_mgcp_rewrite _ _ _ _ _) as [bsc_msg |]; [| exact H1].
  set (pending := {| transaction_id := Some (c_str tid); transaction_state := state;
                     bsc := Some (con_bsc sccp) |}).
  set (nat2 := set_slot endpoint pending nat1).
  destruct H1 as (H1a & H1b & H1c).
  assert (H2 : (forall j, j <> endpoint -> slot_at nat2 j = slot_at nat j)
               /\ (transaction_id (slot_at nat2 endpoint) = None
                   \/ transaction_id (slot_at nat2 endpoint) = Some (c_str tid))
               /\ number_endpoints nat2 = number_endpoints nat).
  { split; [| split; [| exact H1c]].
    - intros j Hj. unfold nat2. rewrite slot_at_set_slot_ne by congruence.
      apply H1a. exact Hj.
    - destruct (slot_at_set_slot_same endpoint pending nat1) as [H | H];
        fold nat2 in H; rewrite H; [right | left]; reflexivity. }
  destruct (state =? MGCP_ENDP_CRCX); [exact H2 |].
  destruct (state =? MGCP_ENDP_DLCX); [| exact H2].
  cbn [snd]. destruct H2 as (H2a & H2b & H2c).
  apply bsc_mgcp_find_con_msc_endp in Hfind as [Hcon Hmsc].
  split; [| split].
  - intros j Hj.
    destruct (slot_at_dlcx con nat2 j) as [H | (c & Hc & Hcj & _)].
    + rewrite H. apply H2a. exact Hj.
    + change (sccp_list nat2) with (sccp_list nat1) in Hc.
      rewrite Hcon in Hc. injection Hc as <-. congruence.
  - destruct (slot_at_dlcx con nat2 endpoint) as [H | (c & _ & _ & H)]; rewrite H.
    + exact H2b.
    + left. reflexivity.
  - unfold bsc_mgcp_dlcx. destruct (sccp_list nat2 !! con) as [c |]; [| exact H2c].
    cbn [number_endpoints with_sccp_list].
    destruct (negb (bsc_endp c =? -1)); [| exact H2c].
    destruct (bscs nat2 !! con_bsc c) as [b |]; [| exact H2c].
    destruct (_endpoint_status b); exact H2c.
Qed.

(** A deferred verb is recorded in the slot of its endpoint. *)
Lemma policy_cb_defer (mgcp_msg : list ascii) (mgcp_length endpoint state : Z)
    (tid : list ascii) (nat : bsc_nat) :
  fst (bsc_mgcp_policy_cb mgcp_msg mgcp_length endpoint state tid nat)
  = MGCP_POLICY_DEFER ->
  0 <= endpoint < Z.of_nat (length (bsc_endpoints nat)) ->
  exists b,
    slot_at (snd (bsc_mgcp_policy_cb mgcp_msg mgcp_length endpoint state tid nat))
            endpoint
    = {| transaction_id := Some (c_str tid); transaction_state := state;
         bsc := Some b |}.
Proof.
  unfold bsc_mgcp_policy_cb. intros Hdefer Hrange.
  set (nat1 := set_slot endpoint _ nat) in *.
  destruct (bsc_mgcp_find_con nat1 endpoint) as [[con sccp] |].
  2: { destruct (state =? MGCP_ENDP_CRCX); [discriminate Hdefer |].
       destruct (state =? MGCP_ENDP_DLCX); [discriminate Hdefer |].
       destruct (state =? MGCP_ENDP_MDCX); discriminate Hdefer. }
  destruct (bsc_mgcp_rewrite _ _ _ _ _) as [bsc_msg |]; [| discriminate Hdefer].
  exists (con_bsc sccp).
  set (pending := {| transaction_id := Some (c_str tid); transaction_state := state;
                     bsc := Some (con_bsc sccp) |}).
  assert (Hslot : slot_at (set_slot endpoint pending nat1) endpoint = pending).
  { apply slot_at_set_slot_eq. right. unfold nat1, set_slot. cbn.
    rewrite length_zinsert. exact Hrange. }
  destruct (state =? MGCP_ENDP_CRCX); [exact Hslot |].
  destruct (state =? MGCP_ENDP_DLCX); [discriminate Hdefer | exact Hslot].
Qed.

Lemma forward_dropped (from : bsc_ref) (msg : list ascii) (nat : bsc_nat)
    (code : Z) (tid : list ascii) :
  bsc_mgcp_parse_response (c_str msg) = Some (code, tid) ->
  (forall j, ~ waits_for nat from tid j) ->
  bsc_mgcp_forward from msg nat = nat.
Proof.
  intros Hparse Hno. unfold bsc_mgcp_forward.
  destruct (_ >? 2000); [reflexivity |].
  rewrite Hparse, find_pending_None; [reflexivity |].
  intros k _. apply Hno.
Qed.

(** The slots after a reply that matched slot [i]: only that slot changes,
    and it holds no transaction id any more. *)
Lemma forward_slots (from : bsc_ref) (msg : list ascii) (nat : bsc_nat)
    (code : Z) (tid : list ascii) (i : Z) :
  Z.of_nat (length msg) <= 2000 ->
  bsc_mgcp_parse_response (c_str msg) = Some (code, tid) ->
  find_pending nat from tid (Z.to_nat (number_endpoints nat - 1)) 1 = Some i ->
  (forall j, j <> i -> slot_at (bsc_mgcp_forward from msg nat) j = slot_at nat j)
  /\ transaction_id (slot_at (bsc_mgcp_forward from msg nat) i) = None.
Proof.
  intros Hlen Hparse Hfind. unfold bsc_mgcp_forward.
  destruct (_ >? 2000) eqn:E; [lia |].
  rewrite Hparse, Hfind. cbn [ci].
  set (nat1 := set_endp i _ nat).
  destruct (_ =? CI_UNUSED).
  - unfold free_chan_downstream.
    match goal with
    | |- context [bsc_mgcp_free_endpoint i ?n] => set (nat2 := n)
    end.
    assert (Hsame : bsc_endpoints nat2 = bsc_endpoints nat).
    { unfold nat2. destruct (_ =? MGCP_ENDP_CRCX); [| reflexivity].
      destruct (bsc_mgcp_find_con nat1 i) as [[? con] |]; [| reflexivity].
      destruct (Nat.eqb _ _); reflexivity. }
    change (mgcp_free_endp i (bsc_mgcp_free_endpoint i nat2))
      with (set_endp i
              {| ci := CI_UNUSED;
                 bts_end_addr := bts_end_addr (endp_at (bsc_mgcp_free_endpoint i nat2) i);
                 bts_end_local_port :=
                   bts_end_local_port (endp_at (bsc_mgcp_free_endpoint i nat2) i);
                 net_end_local_port :=
                   net_end_local_port (endp_at (bsc_mgcp_free_endpoint i nat2) i) |}
              (set_slot i empty_slot nat2)).
    split.
    + intros j Hj.
      rewrite (slot_at_same_slots (set_slot i empty_slot nat2)) by reflexivity.
      rewrite slot_at_set_slot_ne by congruence.
      apply slot_at_same_slots. exact Hsame.
    + rewrite (slot_at_same_slots (set_slot i empty_slot nat2)) by reflexivity.
      destruct (slot_at_set_slot_same i empty_slot nat2) as [H | H];
        rewrite H; reflexivity.
  - match goal with
    | |- context [bsc_mgcp_rewrite _ _ _ (source_addr ?n) _] => set (nat2 := n)
    end.
    assert (H2 : (forall j, j <> i -> slot_at nat2 j = slot_at nat j)
                 /\ transaction_id (slot_at nat2 i) = None).
    { split.
      - intros j Hj. unfold nat2. rewrite slot_at_set_slot_ne by congruence.
        apply slot_at_same_slots. reflexivity.
      - unfold nat2.
        match goal with
        | |- transaction_id (slot_at (set_slot i ?s ?n) i) = None =>
          destruct (slot_at_set_slot_same i s n) as [H | H]; rewrite H; reflexivity
        end. }
    destruct (bsc_mgcp_rewrite _ _ _ _ _) as [outp |]; [| exact H2].
    unfold mgcp_queue_for_call_agent. destruct (mgcp_ipa nat2); exact H2.
Qed.

(** C7, as stated: a second verb for the endpoint that takes the id of the
    pending transaction again is deferred like the first, and the reply
    with that id is then matched and queued for the call agent, not
    dropped. *)
Lemma reused_id_reply_forwarded :
  let r := bsc_mgcp_policy_cb mdcx_same_id_msg (Z.of_nat (length mdcx_same_id_msg)) 1
             MGCP_ENDP_MDCX (txt "1234") pending_nat in
  transaction_id (slot_at pending_nat 1) = Some (txt "1234")
  /\ fst r = MGCP_POLICY_DEFER
  /\ bsc_mgcp_parse_response (c_str reply_msg) = Some (200, txt "1234")
  /\ bsc_mgcp_forward 0 reply_msg (snd r) <> snd r
  /\ sent (bsc_mgcp_forward 0 reply_msg (snd r))
     = sent (snd r) ++ [GwQueue (txt "200 1234" ++ [CR; LF] ++ txt "I: 57" ++ [CR; LF])].
Proof.
  vm_compute. repeat split. intros H. discriminate H.
Qed.

(** C7, amended: for a reply that carries transaction id [tid_old], no
    other endpoint waiting for that id of the same BSC.  When the slot of
    an endpoint holds the id and a verb with another id arrives for the
    endpoint, the policy callback discards the id (the slot holds no id or
    the new one, and the new transaction when the verb is deferred); no
    slot waits for the old id then, and the reply is dropped: forwarding it
    leaves the state as it is.  And when the reply is forwarded and
    consumes the one slot that waits for it, no slot waits for the id any
    more and the same reply, arriving again, is dropped. *)
Theorem stale_and_duplicate_replies_dropped
    (mgcp_msg : list ascii) (mgcp_length endpoint state : Z)
    (tid_new tid_old : list ascii) (nat : bsc_nat) (from : bsc_ref)
    (reply : list ascii) (code : Z) :
  bsc_mgcp_parse_response (c_str reply) = Some (code, tid_old) ->
  (transaction_id (slot_at nat endpoint) = Some tid_old ->
   c_str tid_new <> tid_old ->
   (forall j, j <> endpoint -> ~ waits_for nat from tid_old j) ->
   let r := bsc_mgcp_policy_cb mgcp_msg mgcp_length endpoint state tid_new nat in
   let nat1 := snd r in
   transaction_id (slot_at nat1 endpoint) <> Some tid_old
   /\ (fst r = MGCP_POLICY_DEFER ->
       exists b, slot_at nat1 endpoint
                 = {| transaction_id := Some (c_str tid_new);
                      transaction_state := state; bsc := Some b |})
   /\ (forall j, ~ waits_for nat1 from tid_old j)
   /\ bsc_mgcp_forward from reply nat1 = nat1)
  /\ (Z.of_nat (length reply) <= 2000 ->
      forall i,
      find_pending nat from tid_old (Z.to_nat (number_endpoints nat - 1)) 1 = Some i ->
      (forall j, j <> i -> ~ waits_for nat from tid_old j) ->
      let nat1 := bsc_mgcp_forward from reply nat in
      (forall j, ~ waits_for nat1 from tid_old j)
      /\ bsc_mgcp_forward from reply nat1 = nat1).
Proof.
  intros Hparse. split.
  - intros Hold Hnew Hothers r nat1.
    destruct (policy_cb_slots mgcp_msg mgcp_length endpoint state tid_new nat)
      as (Hframe & Hslot & _).
    fold r nat1 in Hframe, Hslot.
    assert (Hgone : transaction_id (slot_at nat1 endpoint) <> Some tid_old).
    { destruct Hslot as [-> | ->]; congruence. }
    assert (Hno : forall j, ~ waits_for nat1 from tid_old j).
    { intros j [Hb Ht]. destruct (Z.eq_dec j endpoint) as [-> | Hj].
      - contradiction.
      - rewrite Hframe in Hb, Ht by exact Hj. apply (Hothers j Hj). split; assumption. }
    split; [exact Hgone |]. split; [| split; [exact Hno |]].
    + intros Hdefer. apply policy_cb_defer; [exact Hdefer |].
      unfold slot_at, zlookup in Hold.
      destruct (0 <=? endpoint) eqn:E0; [| discriminate Hold].
      destruct (bsc_endpoints nat !! Z.to_nat endpoint) eqn:E; [| discriminate Hold].
      apply lookup_lt_Some in E. lia.
    + apply (forward_dropped from reply nat1 code tid_old Hparse Hno).
  - intros Hlen i Hfind Hothers nat1.
    destruct (forward_slots from reply nat code tid_old i Hlen Hparse Hfind)
      as (Hframe & Hslot).
    fold nat1 in Hframe, Hslot.
    assert (Hno : forall j, ~ waits_for nat1 from tid_old j).
    { intros j [Hb Ht]. destruct (Z.eq_dec j i) as [-> | Hj].
      - congruence.
      - rewrite Hframe in Hb, Ht by exact Hj. apply (Hothers j Hj). split; assumption. }
    split; [exact Hno |].
    apply (forward_dropped from reply nat1 code tid_old Hparse Hno).
Qed.

Lemma pending_nat_other_slots (j : Z) :
  j <> 1 -> ~ waits_for pending_nat 0 (txt "1234") j.
Proof.
  intros Hj [Hb _]. unfold slot_at, zlookup in Hb.
  change (bsc_endpoints pending_nat)
    with (<[1%nat := {| transaction_id := Some (txt "1234");
                        transaction_state := MGCP_ENDP_CRCX;
                        bsc := Some 0%nat |}]> (replicate 33 empty_slot)) in Hb.
  destruct (0 <=? j) eqn:E; [| discriminate Hb].
  rewrite list_lookup_insert_ne in Hb by lia.
  destruct (replicate 33 empty_slot !! Z.to_nat j) as [s |] eqn:Es; [| discriminate Hb].
  apply lookup_replicate in Es as [-> _]. discriminate Hb.
Qed.

Lemma stale_and_duplicate_replies_dropped_witness :
  (let r := bsc_mgcp_policy_cb mdcx_msg (Z.of_nat (length mdcx_msg)) 1
              MGCP_ENDP_MDCX (txt "1235") pending_nat in
   let nat1 := snd r in
   transaction_id (slot_at nat1 1) <> Some (txt "1234")
   /\ (fst r = MGCP_POLICY_DEFER ->
       exists b, slot_at nat1 1
                 = {| transaction_id := Some (c_str (txt "1235"));
                      transaction_state := MGCP_ENDP_MDCX; bsc := Some b |})
   /\ (forall j, ~ waits_for nat1 0 (txt "1234") j)
   /\ bsc_mgcp_forward 0 reply_msg nat1 = nat1)
  /\ (let nat1 := bsc_mgcp_forward 0 reply_msg pending_nat in
      (forall j, ~ waits_for nat1 0 (txt "1234") j)
      /\ bsc_mgcp_forward 0 reply_msg nat1 = nat1).
Proof.
  destruct (stale_and_duplicate_replies_dropped
              mdcx_msg (Z.of_nat (length mdcx_msg)) 1 MGCP_ENDP_MDCX
              (txt "1235") (txt "1234") pending_nat 0%nat reply_msg 200
              eq_refl) as [Hstale Hdup].
  split.
  - apply Hstale.
    + reflexivity.
    + vm_compute. discriminate.
    + exact pending_nat_other_slots.
  - apply (Hdup ltac:(vm_compute; discriminate) 1).
    + reflexivity.
    + exact pending_nat_other_slots.
Defined.

(** ** MGCP rewriter *)

Lemma strsep_lines (s cur : list ascii) :
  match strsep s with
  | (token, Some running) =>
    lines_from cur s = (cur ++ token) :: lf_lines running
    /\ (length running < length s)%nat
  | (_, None) => lines_from cur s = []
  end.
Proof.
  revert cur. induction s as [| c r IH]; intros cur; cbn [strsep lines_from].
  - reflexivity.
  - destruct (Ascii.eqb c LF).
    + rewrite app_nil_r. split; [reflexivity | cbn; lia].
    + specialize (IH (cur ++ [c])). destruct (strsep r) as [token [running |]].
      * destruct IH as [-> Hlen]. rewrite <- app_assoc. split; [reflexivity | cbn; lia].
      * exact IH.
Qed.

(** With more fuel than the input has bytes, the loop over the tokens of
    [strsep] is the loop body applied to the lines of the input. *)
Lemma rewrite_loop_lines (fuel : Datatypes.nat) (endpoint : Z) (ip : list ascii)
    (port : Z) (running : list ascii) (st : rewrite_state) :
  (length running < fuel)%nat ->
  rewrite_loop fuel endpoint ip port running st
  = rewrite_lines endpoint ip port (lf_lines running) st.
Proof.
  revert running st. induction fuel as [| fuel IH]; intros running st Hfuel; [lia |].
  cbn [rewrite_loop]. pose proof (strsep_lines running []) as Hsep.
  destruct (strsep running) as [token [running' |]].
  - destruct Hsep as [Hlines Hlen]. unfold lf_lines. rewrite Hlines.
    cbn [rewrite_lines app].
    destruct (rewrite_line endpoint ip port token st) as [st' |]; [| reflexivity].
    cbn. apply IH. lia.
  - unfold lf_lines. rewrite Hsep. reflexivity.
Qed.

Lemma rewrite_scan_lines (input : list ascii) (len endpoint : Z) (ip : list ascii)
    (port : Z) :
  len <= 4096 - 256 ->
  rewrite_scan input len endpoint ip port
  = rewrite_lines endpoint ip port (lf_lines (c_str input)) rewrite_init.
Proof.
  intros Hlen. unfold rewrite_scan.
  destruct (len >? 4096 - 256) eqn:E; [lia |].
  apply rewrite_loop_lines. lia.
Qed.

Lemma lines_from_no_lf (cur s : list ascii) :
  Forall (fun c => c <> LF) s -> lines_from cur s = [].
Proof.
  intros Hs. revert cur. induction Hs as [| c s Hc Hs IH]; intros cur; [reflexivity |].
  cbn [lines_from]. destruct (Ascii.eqb c LF) eqn:E; [| apply IH].
  apply Ascii.eqb_eq in E. contradiction.
Qed.

Lemma c_str_no_lf (s : list ascii) :
  Forall (fun c => c <> LF) s -> Forall (fun c => c <> LF) (c_str s).
Proof.
  induction 1 as [| c s Hc Hs IH]; cbn [c_str]; [constructor |].
  destruct (Ascii.eqb c NUL); constructor; assumption.
Qed.

Lemma lines_from_trailing (cur p t : list ascii) :
  Forall (fun c => c <> LF) t ->
  lines_from cur (c_str (p ++ t)) = lines_from cur (c_str p).
Proof.
  intros Ht. revert cur. induction p as [| c p IH]; intros cur.
  - cbn [app]. rewrite lines_from_no_lf by (apply c_str_no_lf; exact Ht). reflexivity.
  - cbn [app c_str]. destruct (Ascii.eqb c NUL); [reflexivity |].
    cbn [lines_from]. destruct (Ascii.eqb c LF); [f_equal |]; apply IH.
Qed.

(** C10: the rewriter handles the lines that end in a line feed only.  For
    an input within the length limit, what follows the last line feed (any
    text [t] without line feed behind any text [p]) changes nothing in the
    result: it is the result for [p] alone; and the result for such a text
    alone is the empty message. *)
Theorem rewrite_drops_trailing_segment (p t : list ascii) (len len' endpoint : Z)
    (ip : list ascii) (port : Z) :
  Forall (fun c => c <> LF) t ->
  len <= 4096 - 256 -> len' <= 4096 - 256 ->
  bsc_mgcp_rewrite (p ++ t) len endpoint ip port
  = bsc_mgcp_rewrite p len' endpoint ip port
  /\ bsc_mgcp_rewrite t len endpoint ip port
     = Some {| buf := []; tail := 0; l3h := 0 |}.
Proof.
  intros Ht Hlen Hlen'. unfold bsc_mgcp_rewrite.
  rewrite !rewrite_scan_lines by assumption. unfold lf_lines.
  rewrite lines_from_trailing by exact Ht.
  split; [reflexivity |].
  rewrite lines_from_no_lf by (apply c_str_no_lf; exact Ht). reflexivity.
Qed.

Lemma rewrite_drops_trailing_segment_witness :
  let t := txt "m=audio 4000 RTP/AVP 8" in
  bsc_mgcp_rewrite (mdcx_msg ++ t) (Z.of_nat (length (mdcx_msg ++ t))) 1
    (txt "10.0.0.1") 5000
  = bsc_mgcp_rewrite mdcx_msg (Z.of_nat (length mdcx_msg)) 1 (txt "10.0.0.1") 5000
  /\ bsc_mgcp_rewrite t (Z.of_nat (length (mdcx_msg ++ t))) 1 (txt "10.0.0.1") 5000
     = Some {| buf := []; tail := 0; l3h := 0 |}.
Proof.
  apply (rewrite_drops_trailing_segment mdcx_msg (txt "m=audio 4000 RTP/AVP 8")).
  - repeat (constructor; [discriminate |]). constructor.
  - vm_compute. discriminate.
  - vm_compute. discriminate.
Defined.

Lemma take_pad (k n : Datatypes.nat) (b : list ascii) :
  (k <= n)%nat -> take k (pad n b) = take k (pad k b).
Proof.
  intros Hkn. unfold pad. rewrite !take_app, !take_replicate.
  f_equal. f_equal. lia.
Qed.

Lemma length_pad (n : Datatypes.nat) (b : list ascii) :
  (n <= length (pad n b))%nat.
Proof. unfold pad. rewrite length_app, length_replicate. lia. Qed.

Lemma pad_long (n : Datatypes.nat) (b : list ascii) :
  (n <= length b)%nat -> pad n b = b.
Proof.
  intros H. unfold pad. replace (n - length b)%nat with 0%nat by lia.
  cbn. apply app_nil_r.
Qed.

(** [msgb_put] followed by the copy appends the bytes to the message. *)
Lemma msgb_bytes_put_bytes (src : list ascii) (m : msgb) :
  msgb_bytes (put_bytes src m) = msgb_bytes m ++ src.
Proof.
  unfold put_bytes, write_l3h, put_l3h, msgb_bytes, write_at. cbn [buf tail l3h].
  rewrite Nat.add_0_r.
  set (b := pad (tail m + length src) (buf m)).
  assert (Hb : (tail m + length src <= length b)%nat) by apply length_pad.
  rewrite (pad_long _ b Hb).
  rewrite pad_long.
  2: { rewrite !length_app, length_take, length_drop. lia. }
  rewrite app_assoc, take_app_length'.
  2: { rewrite length_app, length_take. lia. }
  f_equal. unfold b. apply take_pad. lia.
Qed.

Lemma starts_with_head (p : ascii) (ps line : list ascii) :
  starts_with (p :: ps) line = true -> head line = Some p.
Proof.
  destruct line as [| c l]; cbn; [discriminate |].
  intros H. apply andb_true_iff in H as [H _].
  apply Ascii.eqb_eq in H as ->. reflexivity.
Qed.

(** A line of first character [c] starts with no keyword of another first
    character. *)
Ltac other_keywords H :=
  repeat match goal with
  | |- context [starts_with ?k ?line] =>
    lazymatch type of H with
    | head line = Some _ =>
      let E := fresh "E" in
      destruct (starts_with k line) eqn:E;
      [apply starts_with_head in E; rewrite H in E; discriminate E |]
    end
  end.

Lemma rewrite_line_flags (endpoint : Z) (ip : list ascii) (port : Z)
    (line : list ascii) (st st' : rewrite_state) :
  rewrite_line endpoint ip port line st = Some st' ->
  found_fmtp st' = found_fmtp st || starts_with fmt_str line
  /\ payload st'
     = (if starts_with aud_str line then default (payload st) (scan_audio line)
        else payload st)
  /\ cr st' = match last line with Some c => Ascii.eqb c CR | None => false end.
Proof.
  unfold rewrite_line.
  destruct (starts_with crcx_str line) eqn:E1.
  { apply starts_with_head in E1. other_keywords E1.
    intros [= <-]. cbn. rewrite orb_false_r. repeat split. }
  destruct (starts_with dlcx_str line) eqn:E2.
  { apply starts_with_head in E2. other_keywords E2.
    intros [= <-]. cbn. rewrite orb_false_r. repeat split. }
  destruct (starts_with mdcx_str line) eqn:E3.
  { apply starts_with_head in E3. other_keywords E3.
    intros [= <-]. cbn. rewrite orb_false_r. repeat split. }
  destruct (starts_with ip_str line) eqn:E4.
  { apply starts_with_head in E4. other_keywords E4.
    intros [= <-]. cbn. rewrite orb_false_r. repeat split. }
  destruct (starts_with aud_str line) eqn:E5.
  { apply starts_with_head in E5. other_keywords E5.
    destruct (scan_audio line) as [pt |]; [| discriminate].
    intros [= <-]. cbn. rewrite orb_false_r. repeat split. }
  destruct (starts_with fmt_str line) eqn:E6.
  { intros [= <-]. cbn. rewrite orb_true_r. repeat split. }
  intros [= <-]. cbn. rewrite orb_false_r. repeat split.
Qed.

Lemma rewrite_lines_flags (endpoint : Z) (ip : list ascii) (port : Z)
    (lines : list (list ascii)) (st st' : rewrite_state) :
  rewrite_lines endpoint ip port lines st = Some st' ->
  found_fmtp st' = found_fmtp st || existsb (starts_with fmt_str) lines
  /\ payload st' = last_payload lines (payload st)
  /\ cr st' = last_cr lines (cr st).
Proof.
  revert st. induction lines as [| line lines IH]; intros st; cbn [rewrite_lines].
  - intros [= <-]. cbn. rewrite orb_false_r. repeat split.
  - destruct (rewrite_line endpoint ip port line st) as [st1 |] eqn:E; [| discriminate].
    cbn. intros H. apply IH in H as (H1 & H2 & H3).
    apply rewrite_line_flags in E as (E1 & E2 & E3).
    rewrite H1, H2, H3, E1, E2, E3. rewrite orb_assoc. repeat split.
Qed.

(** C8, amended: when the rewriter returns a message, it is what the loop
    wrote for the lines of the input, followed by the line
    [a=fmtp:<payload> mode-set=2] (cut to the 126 characters the buffer of
    [snprintf] holds) when no line starts with [a=fmtp:], before or after
    the [m=audio] lines, and the payload type of the last [m=audio] line is
    not -1; the line ends as the last line of the input does.  When a line
    starts with [a=fmtp:], or there is no [m=audio] line, nothing is
    appended. *)
Theorem rewrite_fmtp_line (input : list ascii) (len endpoint : Z) (ip : list ascii)
    (port : Z) (outp : msgb) :
  bsc_mgcp_rewrite input len endpoint ip port = Some outp ->
  let lines := lf_lines (c_str input) in
  exists st,
    rewrite_scan input len endpoint ip port = Some st
    /\ if existsb (starts_with fmt_str) lines || (last_payload lines (-1) =? -1)
       then outp = output st
       else msgb_bytes outp
            = msgb_bytes (output st)
              ++ take 126 (txt "a=fmtp:" ++ fmt_d (last_payload lines (-1))
                           ++ txt " mode-set=2" ++ eol (last_cr lines true)).
Proof.
  intros H lines. unfold bsc_mgcp_rewrite in H.
  destruct (rewrite_scan input len endpoint ip port) as [st |] eqn:Hscan;
    [| discriminate H].
  exists st. split; [reflexivity |].
  assert (Hlen : len <= 4096 - 256).
  { unfold rewrite_scan in Hscan. destruct (len >? 4096 - 256) eqn:E; [discriminate | lia]. }
  rewrite rewrite_scan_lines in Hscan by exact Hlen.
  apply rewrite_lines_flags in Hscan as (Hf & Hp & Hc). fold lines in Hf, Hp, Hc.
  change (found_fmtp rewrite_init) with false in Hf.
  change (payload rewrite_init) with (-1) in Hp.
  change (cr rewrite_init) with true in Hc.
  cbn [orb] in Hf. cbn [mbind option_bind] in H. rewrite <- Hf, <- Hp, <- Hc.
  destruct (found_fmtp st); cbn [negb andb orb] in H |- *; [congruence |].
  destruct (payload st =? -1); cbn [negb andb orb] in H |- *; [congruence |].
  injection H as <-. apply msgb_bytes_put_bytes.
Qed.

Lemma rewrite_fmtp_line_witness :
  exists outp,
    bsc_mgcp_rewrite crcx_msg (Z.of_nat (length crcx_msg)) 1 (txt "10.0.0.1") 5000
    = Some outp
    /\ let lines := lf_lines (c_str crcx_msg) in
       exists st,
         rewrite_scan crcx_msg (Z.of_nat (length crcx_msg)) 1 (txt "10.0.0.1") 5000
         = Some st
         /\ if existsb (starts_with fmt_str) lines || (last_payload lines (-1) =? -1)
            then outp = output st
            else msgb_bytes outp
                 = msgb_bytes (output st)
                   ++ take 126 (txt "a=fmtp:" ++ fmt_d (last_payload lines (-1))
                                ++ txt " mode-set=2" ++ eol (last_cr lines true)).
Proof.
  eexists. split; [reflexivity |].
  apply (rewrite_fmtp_line crcx_msg (Z.of_nat (length crcx_msg)) 1 (txt "10.0.0.1") 5000).
  reflexivity.
Defined.

(** C8, as stated: an [a=fmtp:] line in front of the [m=audio] line, and
    none after it; the rewriter appends nothing. *)
Lemma fmtp_before_audio_not_appended :
  audio_without_fmtp_after (lf_lines (c_str fmtp_first_msg))
  /\ ~ fmtp_appended fmtp_first_msg (Z.of_nat (length fmtp_first_msg)) 1
         (txt "10.0.0.1") 5000.
Proof.
  split.
  - exists [txt "a=fmtp:8 mode-set=2" ++ [CR]], (txt "m=audio 4000 RTP/AVP 8" ++ [CR]), [].
    split; [reflexivity |]. split; [reflexivity | constructor].
  - intros (st & outp & Hs & Hr & Hb).
    vm_compute in Hs. injection Hs as <-.
    vm_compute in Hr. injection Hr as <-.
    vm_compute in Hb. discriminate Hb.
Qed.

(** The payload type is the [int] that [sscanf] stored: 4294967295 is
    read as -1 and written as such, and no [a=fmtp] line follows it. *)
Lemma payload_read_as_int :
  msgb_bytes
    <$> bsc_mgcp_rewrite (txt "m=audio 4000 RTP/AVP 4294967295" ++ [CR; LF]) 33 1
          (txt "10.0.0.1") 5000
  = Some (txt "m=audio 5000 RTP/AVP -1" ++ [CR; LF]).
Proof. vm_compute. reflexivity. Qed.

(** * Further properties of the code *)

(** ** Allocator *)

(** X1: for a limit that is not negative, [bsc_mgcp_nr_multiplexes] is the
    number of multiplexes of 32 endpoints needed for it, rounded up. *)
Theorem bsc_mgcp_nr_multiplexes_ceil (m : Z) :
  0 <= m ->
  m <= 32 * bsc_mgcp_nr_multiplexes m < m + 32.
Proof.
  intros Hm. unfold bsc_mgcp_nr_multiplexes.
  rewrite Z.quot_div_nonneg, Z.rem_mod_nonneg by lia.
  pose proof (Z.div_mod m 32 ltac:(lia)).
  pose proof (Z.mod_pos_bound m 32 ltac:(lia)).
  destruct (m mod 32 =? 0) eqn:E; cbn [negb]; lia.
Qed.

Lemma bsc_mgcp_nr_multiplexes_ceil_witness :
  60 <= 32 * bsc_mgcp_nr_multiplexes 60 < 60 + 32.
Proof. apply bsc_mgcp_nr_multiplexes_ceil. lia. Defined.

(** X2: [bsc_init_endps_if_needed] returns -1, 0 or 1: -1 exactly for a
    connection without status array and without configuration, which it
    leaves as it is, and 0 exactly when the connection has a status array
    afterwards; an array that exists is never replaced, and after a result
    of 0 a second call changes nothing.  For a configured connection
    without array the two limits are taken from the configuration before
    the allocation of 32 bytes per multiplex and one more is tried; the
    result is 1, with no array, exactly when that count is negative or not
    below the limit of the allocator, and otherwise the array holds that
    many zero bytes. *)
Theorem bsc_init_endps_if_needed_once (b : bsc_connection) :
  let r := bsc_init_endps_if_needed b in
  (fst r = 0 \/ fst r = 1 \/ fst r = -1)
  /\ (fst r = -1 <-> _endpoint_status b = None /\ cfg b = None)
  /\ (fst r = 0 <-> is_Some (_endpoint_status (snd r)))
  /\ (fst r = -1 \/ is_Some (_endpoint_status b) -> snd r = b)
  /\ (fst r = 0 -> bsc_init_endps_if_needed (snd r) = (0, snd r))
  /\ (_endpoint_status b = None ->
      forall c, cfg b = Some c ->
      let count := 32 * bsc_mgcp_nr_multiplexes (cfg_max_endpoints c) + 1 in
      number_multiplexes (snd r) = bsc_mgcp_nr_multiplexes (cfg_max_endpoints c)
      /\ max_endpoints (snd r) = cfg_max_endpoints c
      /\ last_endpoint (snd r) = last_endpoint b
      /\ cfg (snd r) = cfg b /\ peer_addr (snd r) = peer_addr b
      /\ (fst r = 1 <-> count < 0 \/ 2 ^ 28 <= count)
      /\ _endpoint_status (snd r)
         = if fst r =? 0 then Some (replicate (Z.to_nat count) 0) else None).
Proof.
  unfold bsc_init_endps_if_needed.
  destruct (_endpoint_status b) as [status |] eqn:Hst;
    [| destruct (cfg b) as [c |] eqn:Hcfg].
  3: cbn [fst snd]; rewrite ?Hst, ?Hcfg.
  1: cbn [fst snd]; rewrite ?Hst.
  2: { set (count := 32 * bsc_mgcp_nr_multiplexes (cfg_max_endpoints c) + 1).
       unfold talloc_zero_array.
       destruct (Z.leb_spec 0 count) as [H0 | H0];
         [destruct (Z.ltb_spec count (2 ^ 28)) as [H1 | H1] |];
         cbn [andb fst snd _endpoint_status number_multiplexes max_endpoints
              last_endpoint cfg peer_addr Z.eqb].
       all: repeat match goal with
            | |- _ /\ _ => split
            | |- _ <-> _ => split
            | |- _ -> _ => intro
            | |- let _ := _ in _ => intro
            | H : _ /\ _ |- _ => destruct H
            | H : _ \/ _ |- _ => destruct H
            | H : is_Some None |- _ => destruct H as [? H]
            | H : Some _ = Some _ |- _ => injection H as <-
            end; try discriminate; try congruence; try lia; eauto. }
  all: repeat match goal with
       | |- _ /\ _ => split
       | |- _ <-> _ => split
       | |- _ -> _ => intro
       | |- let _ := _ in _ => intro
       | H : _ /\ _ |- _ => destruct H
       | H : _ \/ _ |- _ => destruct H
       | H : is_Some None |- _ => destruct H as [? H]
       | H : Some _ = Some _ |- _ => injection H as <-
       end; try discriminate; try congruence; try lia; eauto.
Qed.

(** ** Allocation never gives out an endpoint in use *)

Lemma assign_loop_free (b : bsc_connection) (n : Datatypes.nat) (m t e : Z) :
  assign_loop b n m t = Some e -> status_at b e = 0.
Proof.
  revert m t. induction n as [| n IH]; intros m t; cbn [assign_loop]; [intros [=] |].
  destruct (wrap_cursor b m t) as [[m' t'] e'].
  destruct (status_at b e' =? 0) eqn:E; [intros [= <-]; lia | apply IH].
Qed.

(** An endpoint claimed on a ready BSC lies inside the status array. *)
Lemma assign_loop_ready_range (b : bsc_connection) (status : list Z) (e : Z) :
  0 <= last_endpoint b < 32 * number_multiplexes b ->
  last_endpoint b mod 32 <= 30 ->
  max_endpoints b <= 32 * number_multiplexes b ->
  length status = Z.to_nat (32 * number_multiplexes b + 1) ->
  assign_loop b (Z.to_nat (max_endpoints b))
    (Z.quot (last_endpoint b) 32) (Z.rem (last_endpoint b) 32 + 1) = Some e ->
  0 <= e < Z.of_nat (length status) /\ e mod 32 <= 30
  /\ e < 32 * number_multiplexes b.
Proof.
  intros Hlast Hts Hmax Hlen Hloop.
  assert (0 <= last_endpoint b mod 32 < 32) as Hmod by (apply Z.mod_pos_bound; lia).
  pose proof (Z.div_mod (last_endpoint b) 32 ltac:(lia)) as Hdm.
  rewrite Z.quot_div_nonneg, Z.rem_mod_nonneg in Hloop by lia.
  rewrite assign_loop_scan in Hloop
    by (try split; try lia; apply Z.div_lt_upper_bound; lia).
  apply find_some in Hloop as [Hin _].
  pose proof (scan_order_slots (max_endpoints b) (Z.to_nat (max_endpoints b))
                (32 * (last_endpoint b / 32) + last_endpoint b mod 32)
                ltac:(lia)) as Hall.
  rewrite Forall_forall in Hall.
  apply list_elem_of_In, Hall in Hin as (H1 & H2 & H3). lia.
Qed.

(** A successful allocation on a ready BSC: the byte was 0 and is 1, no
    other byte changes, and the BSC stays ready. *)
Lemma assign_ready_step (b b' : bsc_connection) (con c' : sccp_connections) :
  allocator_ready b ->
  bsc_assign_endpoint b con = (0, b', c') ->
  status_at b (bsc_endp c') = 0
  /\ status_at b' (bsc_endp c') = 1
  /\ (forall i, i <> bsc_endp c' -> status_at b' i = status_at b i)
  /\ allocator_ready b'.
Proof.
  intros Hready. unfold bsc_assign_endpoint, mgcp_endpoint_to_timeslot.
  destruct (assign_loop b _ _ _) as [e |] eqn:Hloop; [| intros [=]].
  intros [= <- <-].
  destruct Hready as [Hnone | (Hlast & Hts & Hmax & status & Hst & Hlen)].
  { replace (Z.to_nat (max_endpoints b)) with O in Hloop by lia. discriminate Hloop. }
  destruct (assign_loop_ready_range b status e Hlast Hts Hmax Hlen Hloop)
    as (Hr & Hm & Hlt).
  cbn [bsc_endp set_bsc_endp].
  split; [apply assign_loop_free in Hloop; exact Hloop |]. split; [| split].
  - rewrite (status_at_claimed b status e e Hst).
    destruct (Z.eq_dec e e) as [_ | ?]; [| congruence].
    assert ((0 <=? e) && (e <? Z.of_nat (length status)) = true) as ->;
      [apply andb_true_iff; split; lia | reflexivity].
  - intros i Hi. rewrite (status_at_claimed b status e i Hst).
    destruct (Z.eq_dec i e); [congruence | reflexivity].
  - right. cbn. repeat split; try lia.
    exists (zinsert e 1 status). rewrite Hst. split; [reflexivity |].
    rewrite length_zinsert. exact Hlen.
Qed.

(** X4: two allocations in a row on a BSC that is ready for allocation,
    both successful, give two different endpoints; both status bytes are 1
    afterwards. *)
Theorem bsc_assign_endpoint_twice (b b1 b2 : bsc_connection)
    (con1 con2 c1 c2 : sccp_connections) :
  allocator_ready b ->
  bsc_assign_endpoint b con1 = (0, b1, c1) ->
  bsc_assign_endpoint b1 con2 = (0, b2, c2) ->
  bsc_endp c1 <> bsc_endp c2
  /\ status_at b2 (bsc_endp c1) = 1 /\ status_at b2 (bsc_endp c2) = 1.
Proof.
  intros Hready H1 H2.
  destruct (assign_ready_step b b1 con1 c1 Hready H1) as (_ & Hs1 & _ & Hready1).
  destruct (assign_ready_step b1 b2 con2 c2 Hready1 H2) as (Hfree & Hs2 & Hframe & _).
  assert (Hne : bsc_endp c1 <> bsc_endp c2) by (intros Heq; rewrite Heq in Hs1; lia).
  split; [exact Hne |]. split; [| exact Hs2].
  rewrite Hframe by exact Hne. exact Hs1.
Qed.

Lemma bsc_assign_endpoint_twice_witness :
  let r1 := bsc_assign_endpoint ready_bsc_60 (unbound_con 0) in
  let r2 := bsc_assign_endpoint (snd (fst r1)) (unbound_con 0) in
  bsc_endp (snd r1) <> bsc_endp (snd r2)
  /\ status_at (snd (fst r2)) (bsc_endp (snd r1)) = 1
  /\ status_at (snd (fst r2)) (bsc_endp (snd r2)) = 1.
Proof.
  intros r1 r2.
  apply (bsc_assign_endpoint_twice ready_bsc_60 (snd (fst r1)) (snd (fst r2))
           (unbound_con 0) (unbound_con 0) (snd r1) (snd r2)).
  - right. repeat split; try (vm_compute; congruence).
    eexists. split; reflexivity.
  - reflexivity.
  - reflexivity.
Defined.

(** Below an allocatable endpoint the scan does not wrap and does not pass
    it. *)
Lemma next_slot_below (maxe e v : Z) :
  0 <= e -> e mod 32 <= 30 -> allocatable maxe v -> e < v ->
  e < next_slot maxe e <= v.
Proof.
  intros He Hts [Hv Hvts] Hlt. unfold next_slot.
  pose proof (Z.div_mod e 32 ltac:(lia)). pose proof (Z.div_mod v 32 ltac:(lia)).
  pose proof (Z.mod_pos_bound e 32 ltac:(lia)).
  destruct (e mod 32 <? 30) eqn:E.
  - destruct (e + 1 <? maxe) eqn:E'; lia.
  - assert (e + 3 <= v) by lia.
    destruct (e + 3 <? maxe) eqn:E'; lia.
Qed.

Lemma scan_reaches_up (maxe : Z) (n : Datatypes.nat) (e v : Z) :
  0 <= e -> e mod 32 <= 30 -> allocatable maxe v -> e < v ->
  v - e <= Z.of_nat n ->
  In v (scan_order maxe n e).
Proof.
  revert e. induction n as [| n IH]; intros e He Hts Hv Hlt Hn;
    [unfold allocatable in Hv; lia |].
  cbn [scan_order].
  pose proof (next_slot_below maxe e v He Hts Hv Hlt) as Hnext.
  pose proof (next_slot_timeslot maxe e He) as Hts'.
  destruct (Z.eq_dec (next_slot maxe e) v) as [Heq | Hne]; [left; exact Heq |].
  right. apply IH; try assumption; lia.
Qed.

Lemma scan_reaches_wrap (maxe : Z) (n : Datatypes.nat) (e v : Z) :
  0 <= e -> e mod 32 <= 30 -> allocatable maxe v -> v <= e ->
  Z.max 1 (maxe - e) + (v - 1) <= Z.of_nat n ->
  In v (scan_order maxe n e).
Proof.
  revert e. induction n as [| n IH]; intros e He Hts Hv Hle Hn;
    [unfold allocatable in Hv; lia |].
  cbn [scan_order].
  pose proof (next_slot_timeslot maxe e He) as Hts'.
  pose proof (next_slot_range maxe e He) as [Hpos _].
  assert (Hcases : next_slot maxe e = 1 \/ (e < next_slot maxe e < maxe)).
  { unfold next_slot. destruct (e mod 32 <? 30);
      [destruct (e + 1 <? maxe) eqn:E | destruct (e + 3 <? maxe) eqn:E]; lia. }
  destruct (Z.eq_dec (next_slot maxe e) v) as [Heq | Hne]; [left; exact Heq |].
  right. destruct Hcases as [H1 | Hup].
  - rewrite H1 in *. pose proof Hv as [Hv1 Hvts].
    apply scan_reaches_up; try assumption; lia.
  - apply IH; try assumption; lia.
Qed.

(** A scan of [maxe] slots from a cursor visits every allocatable
    endpoint. *)
Lemma scan_order_complete (maxe e v : Z) :
  0 <= e -> e mod 32 <= 30 -> allocatable maxe v ->
  In v (scan_order maxe (Z.to_nat maxe) e).
Proof.
  intros He Hts Hv. pose proof Hv as [Hv1 _].
  destruct (Z.lt_ge_cases e v) as [Hlt | Hge].
  - apply scan_reaches_up; try assumption. lia.
  - apply scan_reaches_wrap; try assumption; lia.
Qed.

(** X5: on a BSC that is ready for allocation, [bsc_assign_endpoint]
    succeeds whenever some endpoint below [max_endpoints] of a timeslot in
    1..30 has status byte 0; with at least one such endpoint id
    ([max_endpoints >= 2]) it returns -1 exactly when every one of them is
    in use. *)
Theorem bsc_assign_endpoint_complete (b : bsc_connection) (con : sccp_connections) :
  allocator_ready b ->
  ((exists v, allocatable (max_endpoints b) v /\ status_at b v = 0) ->
   fst (fst (bsc_assign_endpoint b con)) = 0)
  /\ (2 <= max_endpoints b ->
      (fst (fst (bsc_assign_endpoint b con)) = -1
       <-> forall v, allocatable (max_endpoints b) v -> status_at b v <> 0)).
Proof.
  intros Hready.
  assert (Hloop : 1 <= max_endpoints b ->
                  bsc_assign_endpoint b con
                  = match find (fun e => status_at b e =? 0)
                            (scan_order (max_endpoints b) (Z.to_nat (max_endpoints b))
                               (last_endpoint b)) with
                    | Some e => (0, set_last_endpoint e
                                      (set_status (zinsert e 1 <$> _endpoint_status b) b),
                                 set_bsc_endp e con)
                    | None => (-1, b, con)
                    end
                  /\ 0 <= last_endpoint b /\ last_endpoint b mod 32 <= 30).
  { intros Hmax1.
    destruct Hready as [Hnone | (Hlast & Hts & Hmax & _)]; [lia |].
    assert (0 <= last_endpoint b mod 32 < 32) by (apply Z.mod_pos_bound; lia).
    pose proof (Z.div_mod (last_endpoint b) 32 ltac:(lia)).
    unfold bsc_assign_endpoint, mgcp_endpoint_to_timeslot.
    rewrite Z.quot_div_nonneg, Z.rem_mod_nonneg by lia.
    rewrite assign_loop_scan
      by (try split; try lia; apply Z.div_lt_upper_bound; lia).
    replace (32 * (last_endpoint b / 32) + last_endpoint b mod 32)
      with (last_endpoint b) by lia.
    split; [reflexivity | lia]. }
  split.
  - intros (v & Hv & Hfree). pose proof Hv as [[Hv1 Hv2] _].
    destruct (Hloop ltac:(lia)) as (-> & He & Hts).
    destruct (find _ _) as [e |] eqn:Hfind; [reflexivity |].
    pose proof (find_none _ _ Hfind v
                  (scan_order_complete _ _ v He Hts Hv)) as Hf.
    cbn in Hf. lia.
  - intros Hmax2. destruct (Hloop ltac:(lia)) as (-> & He & Hts). split.
    + destruct (find _ _) as [e |] eqn:Hfind; [cbn; intros [=] |].
      intros _ v Hv Hfree.
      pose proof (find_none _ _ Hfind v
                    (scan_order_complete _ _ v He Hts Hv)) as Hf.
      cbn in Hf. lia.
    + intros Hall.
      destruct (find _ _) as [e |] eqn:Hfind; [| reflexivity].
      exfalso. apply find_some in Hfind as [Hin Hfree].
      pose proof (scan_order_slots (max_endpoints b) (Z.to_nat (max_endpoints b))
                    (last_endpoint b) He) as Hslots.
      rewrite Forall_forall in Hslots.
      apply list_elem_of_In, Hslots in Hin as (H1 & H2 & H3).
      apply (Hall e); [| lia].
      split; [| exact H2]. destruct H3 as [H3 | ->]; lia.
Qed.

Lemma bsc_assign_endpoint_complete_witness :
  ((exists v, allocatable (max_endpoints ready_bsc_60) v
              /\ status_at ready_bsc_60 v = 0) ->
   fst (fst (bsc_assign_endpoint ready_bsc_60 (unbound_con 0))) = 0)
  /\ (2 <= max_endpoints ready_bsc_60 ->
      (fst (fst (bsc_assign_endpoint ready_bsc_60 (unbound_con 0))) = -1
       <-> forall v, allocatable (max_endpoints ready_bsc_60) v
                     -> status_at ready_bsc_60 v <> 0)).
Proof.
  apply (bsc_assign_endpoint_complete ready_bsc_60 (unbound_con 0)).
  right. repeat split; try (vm_compute; congruence).
  eexists. split; reflexivity.
Defined.

(** ** The patch and the list of connections *)

Lemma sccp_list_dlcx (con : sccp_ref) (nat : bsc_nat) :
  sccp_list (bsc_mgcp_dlcx con nat)
  = match sccp_list nat !! con with
    | Some c => <[con := bsc_mgcp_init c]> (sccp_list nat)
    | None => sccp_list nat
    end.
Proof.
  unfold bsc_mgcp_dlcx. destruct (sccp_list nat !! con) as [c |]; [| reflexivity].
  cbn [sccp_list with_sccp_list].
  destruct (negb (bsc_endp c =? -1)); [| reflexivity].
  destruct (bscs nat !! con_bsc c) as [b |]; [| reflexivity].
  destruct (_endpoint_status b); reflexivity.
Qed.

Lemma number_endpoints_dlcx (con : sccp_ref) (nat : bsc_nat) :
  number_endpoints (bsc_mgcp_dlcx con nat) = number_endpoints nat.
Proof.
  unfold bsc_mgcp_dlcx. destruct (sccp_list nat !! con) as [c |]; [| reflexivity].
  cbn [number_endpoints with_sccp_list].
  destruct (negb (bsc_endp c =? -1)); [| reflexivity].
  destruct (bscs nat !! con_bsc c) as [b |]; [| reflexivity].
  destruct (_endpoint_status b); reflexivity.
Qed.

(** The loop over the connections leaves none of them on the endpoint, and
    every connection on its BSC. *)
Lemma drop_stale_clears (endp : Z) (n : Datatypes.nat) (i : sccp_ref) (nat : bsc_nat) :
  endp <> -1 ->
  (forall j s, (j < i)%nat -> sccp_list nat !! j = Some s -> msc_endp s <> endp) ->
  (length (sccp_list nat) <= i + n)%nat ->
  (forall j s, sccp_list (drop_stale_from endp n i nat) !! j = Some s ->
               msc_endp s <> endp)
  /\ (forall j s, sccp_list nat !! j = Some s ->
        exists s', sccp_list (drop_stale_from endp n i nat) !! j = Some s'
                   /\ con_bsc s' = con_bsc s)
  /\ number_endpoints (drop_stale_from endp n i nat) = number_endpoints nat.
Proof.
  intros Hendp. revert i nat. induction n as [| n IH]; intros i nat Hdone Hlen.
  - cbn [drop_stale_from]. split; [| split; [eauto | reflexivity]].
    intros j s Hj. apply (Hdone j s); [| exact Hj].
    apply lookup_lt_Some in Hj. lia.
  - cbn [drop_stale_from].
    set (nat1 := match sccp_list nat !! i with
                 | Some mcon => if msc_endp mcon =? endp then bsc_mgcp_dlcx i nat else nat
                 | None => nat
                 end).
    assert (H1 : (forall j s, (j < S i)%nat -> sccp_list nat1 !! j = Some s ->
                              msc_endp s <> endp)
                 /\ (forall j s, sccp_list nat !! j = Some s ->
                       exists s', sccp_list nat1 !! j = Some s'
                                  /\ con_bsc s' = con_bsc s)
                 /\ length (sccp_list nat1) = length (sccp_list nat)
                 /\ number_endpoints nat1 = number_endpoints nat).
    { unfold nat1. destruct (sccp_list nat !! i) as [mcon |] eqn:Hi.
      - destruct (msc_endp mcon =? endp) eqn:E.
        + rewrite sccp_list_dlcx, Hi, number_endpoints_dlcx, length_insert.
          split; [| split; [| split; reflexivity]].
          * intros j s Hj Hs. destruct (decide (i = j)) as [<- | Hij].
            -- rewrite list_lookup_insert_eq in Hs by (eapply lookup_lt_Some; eassumption).
               injection Hs as <-. cbn. congruence.
            -- rewrite list_lookup_insert_ne in Hs by exact Hij.
               apply (Hdone j s); [lia | exact Hs].
          * intros j s Hs. destruct (decide (i = j)) as [<- | Hij].
            -- rewrite list_lookup_insert_eq by (eapply lookup_lt_Some; eassumption).
               rewrite Hi in Hs. injection Hs as <-. eexists. split; reflexivity.
            -- rewrite list_lookup_insert_ne by exact Hij. eauto.
        + split; [| split; [eauto | split; reflexivity]].
          intros j s Hj Hs. destruct (decide (i = j)) as [<- | Hij].
          * rewrite Hi in Hs. injection Hs as <-. lia.
          * apply (Hdone j s); [lia | exact Hs].
      - split; [| split; [eauto | split; reflexivity]].
        intros j s Hj Hs. destruct (decide (i = j)) as [<- | Hij].
        + rewrite Hi in Hs. discriminate Hs.
        + apply (Hdone j s); [lia | exact Hs]. }
    destruct H1 as (Hdone1 & Hbsc1 & Hlen1 & Hnum1).
    destruct (IH (S i) nat1 Hdone1 ltac:(lia)) as (Hall & Hbsc & Hnum).
    split; [exact Hall |]. split; [| congruence].
    intros j s Hs. apply Hbsc1 in Hs as (s1 & Hs1 & Hb1).
    apply Hbsc in Hs1 as (s2 & Hs2 & Hb2). exists s2. split; [exact Hs2 | congruence].
Qed.

Lemma assignment_for_nonneg (tlv : list Z -> option Datatypes.nat) (nat : bsc_nat)
    (msg : l3_msgb) (endp : Z) :
  assignment_for tlv nat msg endp -> 0 <= endp.
Proof.
  intros (l3h & off & _ & _ & _ & Hdec & _).
  pose proof (cic_decode_range (ntohs_at (l3_data msg) (l3h + 3 + off))) as Hr.
  destruct (cic_decode _) as [mx ts]. cbn in Hr.
  unfold mgcp_timeslot_to_endpoint in Hdec. lia.
Qed.

Lemma bsc_assign_endpoint_con (b : bsc_connection) (c : sccp_connections) :
  msc_endp (snd (bsc_assign_endpoint b c)) = msc_endp c
  /\ con_bsc (snd (bsc_assign_endpoint b c)) = con_bsc c.
Proof.
  unfold bsc_assign_endpoint.
  destruct (mgcp_endpoint_to_timeslot (last_endpoint b)) as [m t].
  destruct (assign_loop b _ m (t + 1)); split; reflexivity.
Qed.

(** X6: once the checks at the head of [bsc_mgcp_assign_patch] have passed,
    whatever the function returns, the connection holds the endpoint of the
    message in [msc_endp] and no other connection of the list does: the
    connections that held it have been torn down. *)
Theorem assign_patch_msc_endp_unique (tlv : list Z -> option Datatypes.nat)
    (con : sccp_ref) (msg : l3_msgb) (nat : bsc_nat) (endp : Z)
    (c : sccp_connections) :
  assignment_for tlv nat msg endp ->
  sccp_list nat !! con = Some c ->
  let nat' := snd (bsc_mgcp_assign_patch tlv con msg nat) in
  exists c',
    sccp_list nat' !! con = Some c'
    /\ msc_endp c' = endp /\ con_bsc c' = con_bsc c
    /\ forall j s, sccp_list nat' !! j = Some s -> msc_endp s = endp -> j = con.
Proof.
  intros Hmsg Hcon nat'. pose proof (assignment_for_nonneg _ _ _ _ Hmsg) as Hpos.
  destruct Hmsg as (l3h & off & Hl3 & Hlen & Htlv & Hdec & Hlt).
  unfold nat', bsc_mgcp_assign_patch. rewrite Hl3.
  destruct (_ <? 3) eqn:E3; [lia |]. rewrite Htlv.
  destruct (cic_decode _) as [multiplex timeslot]. rewrite Hdec.
  destruct (endp >=? number_endpoints nat) eqn:Ege; [lia |].
  destruct (drop_stale_clears endp (length (sccp_list nat)) 0 nat ltac:(lia)
              ltac:(intros; lia) ltac:(lia)) as (Hall & Hbsc & _).
  set (nat1 := drop_stale_from endp _ 0 nat) in *.
  destruct (Hbsc con c Hcon) as (c1 & Hc1 & Hb1). rewrite Hc1.
  assert (Hlt1 := lookup_lt_Some _ _ _ Hc1).
  assert (Hdone : forall (l : list sccp_connections) (cx : sccp_connections),
             (forall j s, l !! j = Some s -> j <> con -> msc_endp s <> endp) ->
             (con < length l)%nat ->
             msc_endp cx = endp -> con_bsc cx = con_bsc c ->
             exists c', <[con := cx]> l !! con = Some c'
                        /\ msc_endp c' = endp /\ con_bsc c' = con_bsc c
                        /\ forall j s, <[con := cx]> l !! j = Some s ->
                                       msc_endp s = endp -> j = con).
  { intros l cx Hl Hlen' Hm Hb. exists cx.
    split; [apply list_lookup_insert_eq; exact Hlen' |]. split; [exact Hm |].
    split; [exact Hb |]. intros j s Hj Hs.
    destruct (decide (con = j)) as [<- | Hne]; [reflexivity |].
    rewrite list_lookup_insert_ne in Hj by exact Hne.
    exfalso. apply (Hl j s Hj); congruence. }
  assert (Hothers : forall j s, sccp_list nat1 !! j = Some s -> j <> con ->
                                msc_endp s <> endp) by (intros j s Hj _; eauto).
  cbn [with_sccp_list bscs sccp_list set_msc_endp con_bsc].
  destruct (bscs nat1 !! con_bsc c1) as [b |].
  2: { cbn [snd sccp_list]. apply Hdone; try assumption; reflexivity. }
  destruct (bsc_init_endps_if_needed b) as [rc b1].
  destruct (negb (rc =? 0)).
  { cbn [snd sccp_list with_bscs]. apply Hdone; try assumption; reflexivity. }
  pose proof (bsc_assign_endpoint_con b1
                {| msc_endp := endp; bsc_endp := bsc_endp c1; con_bsc := con_bsc c1 |})
    as [Hm2 Hb2].
  destruct (bsc_assign_endpoint b1 _) as [[rc2 b2] c2]. cbn [snd msc_endp con_bsc] in Hm2, Hb2.
  assert (Hfinal : exists c',
             <[con := c2]> (<[con := {| msc_endp := endp; bsc_endp := bsc_endp c1;
                                        con_bsc := con_bsc c1 |}]> (sccp_list nat1))
               !! con = Some c'
             /\ msc_endp c' = endp /\ con_bsc c' = con_bsc c
             /\ forall j s,
                 <[con := c2]> (<[con := {| msc_endp := endp; bsc_endp := bsc_endp c1;
                                            con_bsc := con_bsc c1 |}]> (sccp_list nat1))
                   !! j = Some s -> msc_endp s = endp -> j = con).
  { rewrite list_insert_insert_eq. apply Hdone; try assumption; congruence. }
  destruct (negb (rc2 =? 0)); exact Hfinal.
Qed.

Lemma assign_patch_msc_endp_unique_witness :
  let nat' := snd (bsc_mgcp_assign_patch tlv_cic_first 1%nat (assignment_msg 1)
                     assigned_nat) in
  exists c',
    sccp_list nat' !! 1%nat = Some c'
    /\ msc_endp c' = 1 /\ con_bsc c' = con_bsc (unbound_con 0)
    /\ forall j s, sccp_list nat' !! j = Some s -> msc_endp s = 1 -> j = 1%nat.
Proof.
  apply (assign_patch_msc_endp_unique tlv_cic_first 1%nat (assignment_msg 1)
           assigned_nat 1 (unbound_con 0)).
  - exists 0%nat, 1%nat. repeat split; vm_compute; congruence.
  - reflexivity.
Defined.

(** X7: [bsc_mgcp_assign_patch] returns 0 or -1; when it returns -1 the
    message is the one it was given; and a message that does not pass the
    checks at its head (no layer 3 header, fewer than three bytes of layer
    3, no circuit identity code, an endpoint the trunk does not have) leaves
    the state as it is as well. *)
Theorem assign_patch_rejects (tlv : list Z -> option Datatypes.nat)
    (con : sccp_ref) (msg : l3_msgb) (nat : bsc_nat) :
  let r := bsc_mgcp_assign_patch tlv con msg nat in
  (fst (fst r) = 0 \/ fst (fst r) = -1)
  /\ (fst (fst r) = -1 -> snd (fst r) = msg)
  /\ ((forall endp, ~ assignment_for tlv nat msg endp) -> r = (-1, msg, nat)).
Proof.
  unfold bsc_mgcp_assign_patch.
  destruct (l3_l3h msg) as [l3h |] eqn:Hl3; [| cbn; auto].
  destruct (_ <? 3) eqn:E3; [cbn; auto |].
  destruct (tlv _) as [off |] eqn:Hoff; [| cbn; auto].
  destruct (cic_decode _) as [multiplex timeslot] eqn:Hdec.
  destruct (_ >=? number_endpoints nat) eqn:Ege; [cbn; auto |].
  assert (Hfor : assignment_for tlv nat msg
                   (mgcp_timeslot_to_endpoint multiplex timeslot)).
  { exists l3h, off. rewrite Hdec. repeat split; try assumption; lia. }
  set (nat1 := drop_stale_from _ _ _ _).
  destruct (sccp_list nat1 !! con) as [c |];
    [| cbn; repeat split; auto; intros H; destruct (H _ Hfor)].
  cbn [with_sccp_list bscs sccp_list set_msc_endp con_bsc].
  destruct (bscs nat1 !! con_bsc c) as [b |];
    [| cbn; repeat split; auto; intros H; destruct (H _ Hfor)].
  destruct (bsc_init_endps_if_needed b) as [rc b1].
  destruct (negb (rc =? 0));
    [cbn; repeat split; auto; intros H; destruct (H _ Hfor) |].
  destruct (bsc_assign_endpoint b1 _) as [[rc2 b2] c2].
  destruct (negb (rc2 =? 0)); cbn; repeat split; auto;
    try (intros H; destruct (H _ Hfor)); intros [=].
Qed.

(** ** Releasing endpoints *)

Lemma endp_at_set_endp_ne (i j : Z) (e : mgcp_endpoint) (nat : bsc_nat) :
  i <> j -> endp_at (set_endp i e nat) j = endp_at nat j.
Proof.
  intros Hne. unfold endp_at, set_endp. cbn.
  rewrite zlookup_zinsert_ne by assumption. reflexivity.
Qed.

(** The connection identifier of the endpoint just released: unused. *)
Lemma ci_mgcp_free_endp (i : Z) (nat : bsc_nat) :
  ci (endp_at (mgcp_free_endp i nat) i) = CI_UNUSED.
Proof.
  unfold mgcp_free_endp, endp_at, set_endp, zlookup, zinsert. cbn.
  destruct (0 <=? i) eqn:E0; [| reflexivity].
  destruct (Z.lt_ge_cases i (Z.of_nat (length (endpoints nat)))) as [Hlt | Hge].
  - rewrite list_lookup_insert_eq by lia. reflexivity.
  - rewrite list_insert_ge by lia. rewrite lookup_ge_None_2 by lia. reflexivity.
Qed.

Lemma free_endpoints_from_spec (n : Datatypes.nat) (i0 : Z) (nat : bsc_nat) :
  let nat' := free_endpoints_from n i0 nat in
  (forall i, i0 <= i < i0 + Z.of_nat n ->
     slot_at nat' i = empty_slot /\ ci (endp_at nat' i) = CI_UNUSED)
  /\ (forall i, ~ (i0 <= i < i0 + Z.of_nat n) ->
        slot_at nat' i = slot_at nat i /\ endp_at nat' i = endp_at nat i)
  /\ sccp_list nat' = sccp_list nat /\ bscs nat' = bscs nat /\ sent nat' = sent nat
  /\ number_endpoints nat' = number_endpoints nat.
Proof.
  revert i0 nat. induction n as [| n IH]; intros i0 nat; cbn [free_endpoints_from].
  - repeat split; intros; lia.
  - set (nat1 := mgcp_free_endp i0 (bsc_mgcp_free_endpoint i0 nat)).
    destruct (IH (i0 + 1) nat1) as (Hin & Hout & Hs & Hb & Hsent & Hnum).
    assert (Hslot1 : slot_at nat1 i0 = empty_slot).
    { unfold nat1. rewrite (slot_at_same_slots (bsc_mgcp_free_endpoint i0 nat))
        by reflexivity.
      apply (slot_at_set_slot_eq i0 empty_slot). left. reflexivity. }
    assert (Hci1 : ci (endp_at nat1 i0) = CI_UNUSED) by apply ci_mgcp_free_endp.
    assert (Hother : forall i, i <> i0 ->
               slot_at nat1 i = slot_at nat i /\ endp_at nat1 i = endp_at nat i).
    { intros i Hi. split.
      - unfold nat1. rewrite (slot_at_same_slots (bsc_mgcp_free_endpoint i0 nat))
          by reflexivity.
        apply slot_at_set_slot_ne. congruence.
      - unfold nat1, mgcp_free_endp. rewrite endp_at_set_endp_ne by congruence.
        reflexivity. }
    split; [| split; [| repeat split; assumption]].
    + intros i Hi. destruct (Z.eq_dec i i0) as [-> | Hne].
      * destruct (Hout i0 ltac:(lia)) as [-> ->]. split; assumption.
      * apply Hin. lia.
    + intros i Hi. destruct (Hout i ltac:(lia)) as [-> ->].
      apply Hother. lia.
Qed.

(** X8: after [bsc_mgcp_free_endpoints] the pending slot of every endpoint
    from 1 to [number_endpoints - 1] is empty, whatever it held; slot 0 and
    the slots past the table, the connections, the status arrays of the
    BSCs and what was sent are untouched (no DLCX goes out). *)
Theorem bsc_mgcp_free_endpoints_all (nat : bsc_nat) :
  let nat' := bsc_mgcp_free_endpoints nat in
  (forall i, 1 <= i < number_endpoints nat -> slot_at nat' i = empty_slot)
  /\ (forall i, i < 1 \/ number_endpoints nat <= i -> slot_at nat' i = slot_at nat i)
  /\ sccp_list nat' = sccp_list nat /\ bscs nat' = bscs nat /\ sent nat' = sent nat.
Proof.
  unfold bsc_mgcp_free_endpoints.
  destruct (free_endpoints_from_spec (Z.to_nat (number_endpoints nat - 1)) 1 nat)
    as (Hin & Hout & Hs & Hb & Hsent & _).
  split; [| split; [| repeat split; assumption]].
  - intros i Hi. apply Hin. lia.
  - intros i Hi. apply Hout. lia.
Qed.

(** ** Teardown of a bound connection *)

Lemma status_at_cleared (b : bsc_connection) (status : list Z) (e i : Z) :
  _endpoint_status b = Some status ->
  status_at (set_status (Some (zinsert e 0 status)) b) i
  = if Z.eq_dec i e
    then (if (0 <=? e) && (e <? Z.of_nat (length status)) then 0 else status_at b i)
    else status_at b i.
Proof.
  intros Hs. unfold status_at. cbn. rewrite Hs. cbn.
  destruct (Z.eq_dec i e) as [-> | Hne].
  - destruct ((0 <=? e) && (e <? Z.of_nat (length status))) eqn:E.
    + rewrite zlookup_zinsert_eq by lia. reflexivity.
    + unfold zlookup, zinsert. destruct (0 <=? e) eqn:E0; [| reflexivity].
      rewrite list_insert_ge by lia. reflexivity.
  - rewrite zlookup_zinsert_ne by congruence. reflexivity.
Qed.

(** X9: [bsc_mgcp_dlcx] on a connection with a BSC endpoint, the BSC having
    its status array: the status byte of the endpoint becomes 0 and no other
    byte changes, the cursor of the allocator stays where it is, one DLCX
    for the endpoint is written to the BSC of the connection, the pending
    slot of [msc_endp] is freed and no other slot changes; the endpoints of
    the trunk are not released. *)
Theorem bsc_mgcp_dlcx_bound (con : sccp_ref) (nat : bsc_nat) (c : sccp_connections)
    (b : bsc_connection) (status : list Z) :
  sccp_list nat !! con = Some c ->
  bsc_endp c <> -1 ->
  bscs nat !! con_bsc c = Some b ->
  _endpoint_status b = Some status ->
  0 <= bsc_endp c < Z.of_nat (length status) ->
  let nat' := bsc_mgcp_dlcx con nat in
  sent nat' = sent nat ++ [BscWrite (con_bsc c) (dlcx_text (bsc_endp c))]
  /\ (exists b',
        bscs nat' = <[con_bsc c := b']> (bscs nat)
        /\ status_at b' (bsc_endp c) = 0
        /\ (forall i, i <> bsc_endp c -> status_at b' i = status_at b i)
        /\ last_endpoint b' = last_endpoint b /\ max_endpoints b' = max_endpoints b
        /\ number_multiplexes b' = number_multiplexes b /\ cfg b' = cfg b)
  /\ slot_at nat' (msc_endp c) = empty_slot
  /\ (forall j, j <> msc_endp c -> slot_at nat' j = slot_at nat j)
  /\ endpoints nat' = endpoints nat.
Proof.
  intros Hc Hbound Hb Hst Hrange nat'. unfold nat', bsc_mgcp_dlcx.
  rewrite Hc. destruct (bsc_endp c =? -1) eqn:E; [lia |]. cbn [negb].
  rewrite Hb, Hst.
  cbn [sent bscs endpoints with_sccp_list with_bscs bsc_mgcp_send_dlcx emit
       bsc_mgcp_free_endpoint set_slot with_bsc_endpoints].
  split; [reflexivity |]. split; [| split; [| split; [| reflexivity]]].
  - eexists. split; [reflexivity |]. split; [| split; [| repeat split]].
    + rewrite (status_at_cleared b status _ _ Hst).
      destruct (Z.eq_dec (bsc_endp c) (bsc_endp c)) as [_ | ?]; [| congruence].
      assert ((0 <=? bsc_endp c) && (bsc_endp c <? Z.of_nat (length status)) = true)
        as ->; [apply andb_true_iff; split; lia | reflexivity].
    + intros i Hi. rewrite (status_at_cleared b status _ _ Hst).
      destruct (Z.eq_dec i (bsc_endp c)); [congruence | reflexivity].
  - match goal with
    | |- slot_at ?n _ = _ =>
      rewrite (slot_at_same_slots (set_slot (msc_endp c) empty_slot nat) n)
        by reflexivity
    end.
    apply (slot_at_set_slot_eq (msc_endp c) empty_slot). left. reflexivity.
  - intros j Hj.
    match goal with
    | |- slot_at ?n _ = _ =>
      rewrite (slot_at_same_slots (set_slot (msc_endp c) empty_slot nat) n)
        by reflexivity
    end.
    apply slot_at_set_slot_ne. congruence.
Qed.

Lemma bsc_mgcp_dlcx_bound_witness :
  let nat' := bsc_mgcp_dlcx 0 assigned_nat in
  sent nat' = sent assigned_nat ++ [BscWrite 0 (dlcx_text 1)]
  /\ (exists b',
        bscs nat' = <[0%nat := b']> (bscs assigned_nat)
        /\ status_at b' 1 = 0
        /\ (forall i, i <> 1 ->
              status_at b' i
              = status_at (snd (fst (bsc_assign_endpoint ready_bsc_60 (unbound_con 0)))) i)
        /\ last_endpoint b' = 1 /\ max_endpoints b' = 60
        /\ number_multiplexes b' = 2
        /\ cfg b' = Some {| cfg_max_endpoints := 60; dropped_calls := 0 |})
  /\ slot_at nat' 1 = empty_slot
  /\ (forall j, j <> 1 -> slot_at nat' j = slot_at assigned_nat j)
  /\ endpoints nat' = endpoints assigned_nat.
Proof.
  apply (bsc_mgcp_dlcx_bound 0%nat assigned_nat
           {| msc_endp := 1; bsc_endp := 1; con_bsc := 0 |}
           (snd (fst (bsc_assign_endpoint ready_bsc_60 (unbound_con 0))))
           (<[1%nat := 1]> (replicate 65 0)));
    solve [reflexivity | vm_compute; split; congruence | vm_compute; congruence].
Defined.

(** ** Lookup of the connection of an endpoint *)

Lemma find_con_from_last (endpoint : Z) (l : list sccp_connections) (i : sccp_ref)
    (acc : option (sccp_ref * sccp_connections)) :
  (find_con_from endpoint l i acc = acc
   /\ forall k s, l !! k = Some s -> msc_endp s = endpoint -> endpoint = -1)
  \/ (exists k sccp,
        find_con_from endpoint l i acc = Some ((i + k)%nat, sccp)
        /\ l !! k = Some sccp /\ msc_endp sccp = endpoint /\ endpoint <> -1
        /\ forall k' s, (k < k')%nat -> l !! k' = Some s -> msc_endp s <> endpoint).
Proof.
  revert i acc. induction l as [| s l IH]; intros i acc; cbn [find_con_from].
  - left. split; [reflexivity |]. intros k s [=].
  - assert (Hskip : (msc_endp s = endpoint -> endpoint = -1) ->
              (find_con_from endpoint l (S i) acc = acc
               /\ forall k s0, (s :: l) !! k = Some s0 -> msc_endp s0 = endpoint ->
                               endpoint = -1)
              \/ (exists k sccp,
                    find_con_from endpoint l (S i) acc = Some ((i + k)%nat, sccp)
                    /\ (s :: l) !! k = Some sccp /\ msc_endp sccp = endpoint
                    /\ endpoint <> -1
                    /\ forall k' s0, (k < k')%nat -> (s :: l) !! k' = Some s0 ->
                                     msc_endp s0 <> endpoint)).
    { intros Hs. destruct (IH (S i) acc) as [[Hr Hno] | (k & sccp & Hr & Hk & Hm & Hne & Hlast)].
      - left. split; [exact Hr |]. intros [| k] s0; cbn.
        + intros [= <-]. exact Hs.
        + apply Hno.
      - right. exists (S k), sccp. rewrite Hr. split; [f_equal; f_equal; lia |].
        split; [exact Hk |]. split; [exact Hm |]. split; [exact Hne |].
        intros [| k'] s0 Hlt; [lia |]. cbn. apply Hlast. lia. }
    destruct (msc_endp s =? -1) eqn:E1; [apply Hskip; lia |].
    destruct (msc_endp s =? endpoint) eqn:E2; cbn [negb]; [| apply Hskip; lia].
    right.
    destruct (IH (S i) (Some (i, s))) as [[Hr Hno] | (k & sccp & Hr & Hk & Hm & Hne & Hlast)].
    + exists 0%nat, s. rewrite Hr. split; [f_equal; f_equal; lia |].
      split; [reflexivity |]. split; [lia |]. split; [lia |].
      intros [| k'] s0 Hlt; [lia |]. cbn. intros Hk' Hm. specialize (Hno _ _ Hk' Hm). lia.
    + exists (S k), sccp. rewrite Hr. split; [f_equal; f_equal; lia |].
      split; [exact Hk |]. split; [exact Hm |]. split; [exact Hne |].
      intros [| k'] s0 Hlt; [lia |]. cbn. apply Hlast. lia.
Qed.

(** X10: [bsc_mgcp_find_con] returns the last connection of the list whose
    [msc_endp] is the endpoint asked for, and none when no connection has
    it; an endpoint of -1 never finds a connection. *)
Theorem bsc_mgcp_find_con_last (nat : bsc_nat) (endpoint : Z) :
  match bsc_mgcp_find_con nat endpoint with
  | Some (con, sccp) =>
    sccp_list nat !! con = Some sccp /\ msc_endp sccp = endpoint /\ endpoint <> -1
    /\ forall j s, (con < j)%nat -> sccp_list nat !! j = Some s -> msc_endp s <> endpoint
  | None =>
    endpoint = -1 \/ forall j s, sccp_list nat !! j = Some s -> msc_endp s <> endpoint
  end.
Proof.
  unfold bsc_mgcp_find_con.
  destruct (find_con_from_last endpoint (sccp_list nat) 0 None)
    as [[-> Hno] | (k & sccp & -> & Hk & Hm & Hne & Hlast)].
  - destruct (Z.eq_dec endpoint (-1)) as [-> | Hne]; [left; reflexivity |].
    right. intros j s Hj Hm. apply Hne. exact (Hno _ _ Hj Hm).
  - cbn. repeat split; assumption.
Qed.

(** ** Verdicts of the policy callback *)

Lemma find_con_set_slot (i : Z) (s : bsc_endpoint) (nat : bsc_nat) (endpoint : Z) :
  bsc_mgcp_find_con (set_slot i s nat) endpoint = bsc_mgcp_find_con nat endpoint.
Proof. reflexivity. Qed.

(** X11: the verdict of [bsc_mgcp_policy_cb].  The message is rejected
    exactly when it is a CRCX for an endpoint no connection has; it is
    deferred exactly when a connection has the endpoint, the message could
    be rewritten and the verb is not DLCX; everything else continues
    locally.  Without a connection nothing is sent and neither the
    connections nor the BSCs change. *)
Theorem bsc_mgcp_policy_cb_verdict (mgcp_msg : list ascii) (mgcp_length endpoint state : Z)
    (tid : list ascii) (nat : bsc_nat) :
  let r := bsc_mgcp_policy_cb mgcp_msg mgcp_length endpoint state tid nat in
  (fst r = MGCP_POLICY_REJECT
   <-> bsc_mgcp_find_con nat endpoint = None /\ state = MGCP_ENDP_CRCX)
  /\ (fst r = MGCP_POLICY_DEFER
      <-> exists con sccp,
            bsc_mgcp_find_con nat endpoint = Some (con, sccp)
            /\ bsc_mgcp_rewrite mgcp_msg mgcp_length (bsc_endp sccp) (source_addr nat)
                 (bts_end_local_port (endp_at nat endpoint)) <> None
            /\ state <> MGCP_ENDP_DLCX)
  /\ (bsc_mgcp_find_con nat endpoint = None ->
      sent (snd r) = sent nat /\ sccp_list (snd r) = sccp_list nat
      /\ bscs (snd r) = bscs nat /\ endpoints (snd r) = endpoints nat).
Proof.
  unfold bsc_mgcp_policy_cb.
  set (cleared := match transaction_id (slot_at nat endpoint) with
                  | Some _ => _ | None => _ end).
  rewrite (find_con_set_slot endpoint cleared nat endpoint).
  change (source_addr (set_slot endpoint cleared nat)) with (source_addr nat).
  destruct (bsc_mgcp_find_con nat endpoint) as [[con sccp] |].
  - destruct (bsc_mgcp_rewrite mgcp_msg mgcp_length (bsc_endp sccp) (source_addr nat)
                (bts_end_local_port (endp_at nat endpoint))) as [bsc_msg |] eqn:Erw.
    + unfold MGCP_ENDP_CRCX, MGCP_ENDP_DLCX, MGCP_ENDP_MDCX.
      destruct (state =? 1) eqn:E1; [| destruct (state =? 2) eqn:E2]; cbn [fst snd].
      * split; [split; [discriminate | intros [[=] _]] |].
        split; [| intros [=]].
        split; [| reflexivity]. intros _. exists con, sccp.
        rewrite Erw. repeat split; [discriminate | lia].
      * split; [split; [discriminate | intros [[=] _]] |].
        split; [| intros [=]].
        split; [discriminate |]. intros (con' & sccp' & [= <- <-] & _ & Hne). lia.
      * split; [split; [discriminate | intros [[=] _]] |].
        split; [| intros [=]].
        split; [| reflexivity]. intros _. exists con, sccp.
        rewrite Erw. repeat split; [discriminate | lia].
    + cbn [fst snd]. split; [split; [discriminate | intros [[=] _]] |].
      split; [| intros [=]].
      split; [discriminate |]. intros (con' & sccp' & [= <- <-] & Hrw & _).
      rewrite Erw in Hrw. congruence.
  - unfold MGCP_ENDP_CRCX, MGCP_ENDP_DLCX, MGCP_ENDP_MDCX.
    destruct (state =? 1) eqn:E1; [| destruct (state =? 2) eqn:E2;
                                     [| destruct (state =? 3) eqn:E3]]; cbn [fst snd].
    all: split;
      [split | split; [split; [discriminate | intros (? & ? & [=] & _)]
                      | intros _; repeat split]].
    all: try (intros H; discriminate H).
    all: try (intros [_ H]; unfold MGCP_ENDP_CRCX in H; lia).
    all: try (intros _; split; [reflexivity | unfold MGCP_ENDP_CRCX; lia]).
    all: intros _; reflexivity.
Qed.

(** What [bsc_mgcp_dlcx] sends: the DLCX for the BSC endpoint of the
    connection, when there is one and the BSC has its status array. *)
Lemma sent_dlcx (con : sccp_ref) (nat : bsc_nat) (c : sccp_connections) :
  sccp_list nat !! con = Some c ->
  sent (bsc_mgcp_dlcx con nat)
  = sent nat
    ++ match bscs nat !! con_bsc c ≫= _endpoint_status with
       | Some _ =>
         if bsc_endp c =? -1 then [] else [BscWrite (con_bsc c) (dlcx_text (bsc_endp c))]
       | None => []
       end.
Proof.
  intros Hc. unfold bsc_mgcp_dlcx. rewrite Hc.
  destruct (bsc_endp c =? -1); cbn [negb].
  - destruct (bscs nat !! con_bsc c ≫= _endpoint_status); cbn [sent with_sccp_list];
      rewrite app_nil_r; reflexivity.
  - destruct (bscs nat !! con_bsc c) as [b |]; cbn [mbind option_bind];
      [| cbn [sent with_sccp_list]; rewrite app_nil_r; reflexivity].
    destruct (_endpoint_status b); [reflexivity |].
    cbn [sent with_sccp_list]. rewrite app_nil_r. reflexivity.
Qed.

(** X12: what [bsc_mgcp_policy_cb] sends.  Every message goes to the BSC of
    the connection that has the endpoint, none to the call agent: for a
    CRCX the rewritten message followed by the MDCX for the BSC endpoint of
    the connection, with the source address of the NAT and the local port
    of the endpoint towards the BTS; for a DLCX the DLCX of the teardown
    alone, and that only when the connection has a BSC endpoint and the BSC
    its status array; for any other verb the rewritten message alone; and
    nothing when the message cannot be rewritten. *)
Theorem bsc_mgcp_policy_cb_sends (mgcp_msg : list ascii) (mgcp_length endpoint state : Z)
    (tid : list ascii) (nat : bsc_nat) (con : sccp_ref) (sccp : sccp_connections) :
  bsc_mgcp_find_con nat endpoint = Some (con, sccp) ->
  let r := bsc_mgcp_policy_cb mgcp_msg mgcp_length endpoint state tid nat in
  let to := con_bsc sccp in
  let local_port := bts_end_local_port (endp_at nat endpoint) in
  match bsc_mgcp_rewrite mgcp_msg mgcp_length (bsc_endp sccp) (source_addr nat)
          local_port with
  | None => sent (snd r) = sent nat
  | Some bsc_msg =>
    if state =? MGCP_ENDP_CRCX then
      sent (snd r)
      = sent nat
        ++ [BscWrite to (msgb_bytes bsc_msg);
            BscWrite to (mdcx_text (bsc_endp sccp) (source_addr nat) local_port)]
    else if state =? MGCP_ENDP_DLCX then
      sent (snd r)
      = sent nat
        ++ match bscs nat !! to ≫= _endpoint_status with
           | Some _ =>
             if bsc_endp sccp =? -1 then []
             else [BscWrite to (dlcx_text (bsc_endp sccp))]
           | None => []
           end
    else sent (snd r) = sent nat ++ [BscWrite to (msgb_bytes bsc_msg)]
  end.
Proof.
  intros Hfind r to local_port. unfold r, bsc_mgcp_policy_cb.
  set (cleared := match transaction_id (slot_at nat endpoint) with
                  | Some _ => _ | None => _ end).
  rewrite (find_con_set_slot endpoint cleared nat endpoint), Hfind.
  change (source_addr (set_slot endpoint cleared nat)) with (source_addr nat).
  fold local_port.
  destruct (bsc_mgcp_rewrite _ _ _ _ _) as [bsc_msg |]; [| reflexivity].
  destruct (state =? MGCP_ENDP_CRCX); [| destruct (state =? MGCP_ENDP_DLCX)].
  - cbn [snd sent bsc_mgcp_send_mdcx emit source_addr set_endp with_endpoints set_slot
         with_bsc_endpoints].
    rewrite <- app_assoc. cbn [app]. do 3 f_equal. unfold mdcx_text.
    destruct (_ ≫= peer_addr); reflexivity.
  - cbn [snd]. apply bsc_mgcp_find_con_msc_endp in Hfind as [Hc _].
    match goal with
    | |- context [bsc_mgcp_dlcx con ?n] => rewrite (sent_dlcx con n sccp Hc)
    end.
    reflexivity.
  - reflexivity.
Qed.

Lemma bsc_mgcp_policy_cb_sends_witness :
  let r := bsc_mgcp_policy_cb crcx_msg (Z.of_nat (length crcx_msg)) 1 MGCP_ENDP_CRCX
             (txt "1234") assigned_nat in
  sent (snd r)
  = sent assigned_nat
    ++ [BscWrite 0
          (txt "CRCX 1234 1@mgw MGCP 1.0" ++ [CR; LF] ++ [CR; LF]
           ++ txt "c=IN IP4 10.0.0.1" ++ [CR; LF]
           ++ txt "m=audio 0 RTP/AVP 8" ++ [CR; LF]
           ++ txt "a=fmtp:8 mode-set=2" ++ [CR; LF]);
        BscWrite 0
          (txt "MDCX 23 1@mgw MGCP 1.0" ++ [CR; LF]
           ++ txt "Z: noanswer" ++ [CR; LF] ++ [CR; LF]
           ++ txt "c=IN IP4 10.0.0.1" ++ [CR; LF]
           ++ txt "m=audio 0 RTP/AVP 255" ++ [CR; LF])].
Proof.
  exact (bsc_mgcp_policy_cb_sends crcx_msg (Z.of_nat (length crcx_msg)) 1 MGCP_ENDP_CRCX
           (txt "1234") assigned_nat 0%nat
           {| msc_endp := 1; bsc_endp := 1; con_bsc := 0 |} eq_refl).
Defined.

(** ** Replies of a BSC *)

(** The search of [bsc_mgcp_forward] finds the first endpoint that waits
    for the transaction. *)
Lemma find_pending_first (nat : bsc_nat) (from : bsc_ref) (tid : list ascii)
    (n : Datatypes.nat) (i0 i : Z) :
  find_pending nat from tid n i0 = Some i
  <-> i0 <= i < i0 + Z.of_nat n /\ waits_for nat from tid i
      /\ forall k, i0 <= k < i -> ~ waits_for nat from tid k.
Proof.
  revert i0. induction n as [| n IH]; intros i0; cbn [find_pending].
  - split; [discriminate | intros [? _]; lia].
  - assert (Hskip : ~ waits_for nat from tid i0 ->
              find_pending nat from tid n (i0 + 1) = Some i
              <-> i0 <= i < i0 + Z.of_nat (S n) /\ waits_for nat from tid i
                  /\ forall k, i0 <= k < i -> ~ waits_for nat from tid k).
    { intros Hno. rewrite IH. split.
      - intros (Hr & Hw & Hfirst). split; [lia |]. split; [exact Hw |].
        intros k Hk. destruct (Z.eq_dec k i0) as [-> | Hne]; [exact Hno |].
        apply Hfirst. lia.
      - intros (Hr & Hw & Hfirst).
        assert (i <> i0) by (intros ->; contradiction).
        split; [lia |]. split; [exact Hw |]. intros k Hk. apply Hfirst. lia. }
    unfold waits_for in Hskip at 1.
    destruct (bsc (slot_at nat i0)) as [b |] eqn:Eb;
      [| apply Hskip; intros [[=] _]].
    destruct (Nat.eqb b from) eqn:Ebf;
      [| apply Hskip; intros [[= ->] _]; rewrite Nat.eqb_refl in Ebf; discriminate].
    apply Nat.eqb_eq in Ebf as ->.
    destruct (transaction_id (slot_at nat i0)) as [t |] eqn:Et;
      [| apply Hskip; intros [_ [=]]].
    destruct (streq tid t) eqn:Es.
    + apply streq_eq in Es. subst t. split.
      * intros [= <-]. split; [lia |]. split; [split; assumption |]. intros k Hk. lia.
      * intros (Hr & Hw & Hfirst). f_equal.
        destruct (Z.eq_dec i i0) as [-> | Hne]; [reflexivity |].
        exfalso. apply (Hfirst i0); [lia | split; assumption].
    + apply Hskip. intros [_ [= Heq]].
      assert (streq tid t = true) by (apply streq_eq; congruence). congruence.
Qed.

(** The reply that matched slot [i] and carries a connection identifier. *)
Lemma forward_with_ci (from : bsc_ref) (msg : list ascii) (nat : bsc_nat)
    (code : Z) (tid : list ascii) (i : Z) :
  Z.of_nat (length msg) <= 2000 ->
  bsc_mgcp_parse_response (c_str msg) = Some (code, tid) ->
  find_pending nat from tid (Z.to_nat (number_endpoints nat - 1)) 1 = Some i ->
  bsc_mgcp_extract_ci (c_str msg) <> CI_UNUSED ->
  let nat' := bsc_mgcp_forward from msg nat in
  slot_at nat' i
  = {| transaction_id := None; transaction_state := 0; bsc := Some from |}
  /\ (forall j, j <> i -> slot_at nat' j = slot_at nat j /\ endp_at nat' j = endp_at nat j)
  /\ (0 <= i < Z.of_nat (length (endpoints nat)) ->
      endp_at nat' i
      = {| ci := bsc_mgcp_extract_ci (c_str msg);
           bts_end_addr := bts_end_addr (endp_at nat i);
           bts_end_local_port := bts_end_local_port (endp_at nat i);
           net_end_local_port := net_end_local_port (endp_at nat i) |})
  /\ sent nat'
     = sent nat
       ++ match bsc_mgcp_rewrite msg (Z.of_nat (length msg)) (-1) (source_addr nat)
                  (net_end_local_port (endp_at nat i)) with
          | Some outp =>
            [if mgcp_ipa nat then MscSend (msgb_bytes outp) else GwQueue (msgb_bytes outp)]
          | None => []
          end.
Proof.
  intros Hlen Hparse Hfind Hci nat'. unfold nat', bsc_mgcp_forward.
  destruct (_ >? 2000) eqn:E; [lia |].
  rewrite Hparse, Hfind. cbn [ci net_end_local_port].
  destruct (_ =? CI_UNUSED) eqn:Eci; [lia |].
  apply find_pending_first in Hfind as (Hr & [Hb Ht] & _).
  set (e := {| ci := bsc_mgcp_extract_ci (c_str msg);
               bts_end_addr := _; bts_end_local_port := _; net_end_local_port := _ |}).
  set (nat1 := set_endp i e nat).
  assert (Hslot1 : forall j, slot_at nat1 j = slot_at nat j) by reflexivity.
  rewrite Hslot1, Hb.
  set (s := {| transaction_id := None; transaction_state := 0; bsc := Some from |}).
  set (nat2 := set_slot i s nat1).
  assert (Hin : 0 <= i < Z.of_nat (length (bsc_endpoints nat))).
  { unfold slot_at, zlookup in Hb. destruct (0 <=? i) eqn:E0; [| discriminate Hb].
    destruct (bsc_endpoints nat !! Z.to_nat i) eqn:El; [| discriminate Hb].
    apply lookup_lt_Some in El. lia. }
  assert (H2 : slot_at nat2 i = s
               /\ (forall j, j <> i ->
                     slot_at nat2 j = slot_at nat j /\ endp_at nat2 j = endp_at nat j)
               /\ (0 <= i < Z.of_nat (length (endpoints nat)) -> endp_at nat2 i = e)
               /\ sent nat2 = sent nat /\ mgcp_ipa nat2 = mgcp_ipa nat).
  { split; [apply slot_at_set_slot_eq; right; exact Hin |].
    split; [| split; [| split; reflexivity]].
    - intros j Hj. split.
      + unfold nat2. rewrite slot_at_set_slot_ne by congruence. apply Hslot1.
      + unfold endp_at, nat2, nat1, set_slot, set_endp. cbn.
        rewrite zlookup_zinsert_ne by congruence. reflexivity.
    - intros Hi. unfold endp_at, nat2, nat1, set_slot, set_endp. cbn.
      rewrite zlookup_zinsert_eq by exact Hi. reflexivity. }
  change (source_addr nat2) with (source_addr nat).
  destruct H2 as (Hs & Ho & He & Hsent & Hipa).
  destruct (bsc_mgcp_rewrite _ _ _ _ _) as [outp |].
  - unfold mgcp_queue_for_call_agent. rewrite Hipa.
    destruct (mgcp_ipa nat); cbn [emit sent slot_at endp_at bsc_endpoints endpoints];
      (split; [exact Hs |]; split; [exact Ho |]; split; [exact He |]);
      rewrite Hsent; reflexivity.
  - split; [exact Hs |]. split; [exact Ho |]. split; [exact He |].
    rewrite Hsent, app_nil_r. reflexivity.
Qed.

Lemma sent_free_chan_downstream (i : Z) (from : bsc_ref) (nat : bsc_nat) :
  sent (free_chan_downstream i from nat) = sent nat
  \/ exists ep, sent (free_chan_downstream i from nat)
                = sent nat ++ [BscWrite from (dlcx_text ep)].
Proof.
  unfold free_chan_downstream.
  destruct (_ =? MGCP_ENDP_CRCX); [| left; reflexivity].
  destruct (bsc_mgcp_find_con nat i) as [[con c] |]; [| left; reflexivity].
  destruct (Nat.eqb (con_bsc c) from); [| left; reflexivity].
  right. exists (bsc_endp c). reflexivity.
Qed.

Lemma frame_free_chan_downstream (i : Z) (from : bsc_ref) (nat : bsc_nat) :
  sccp_list (free_chan_downstream i from nat) = sccp_list nat
  /\ bscs (free_chan_downstream i from nat) = bscs nat.
Proof.
  unfold free_chan_downstream.
  destruct (_ =? MGCP_ENDP_CRCX); [| split; reflexivity].
  destruct (bsc_mgcp_find_con nat i) as [[con c] |]; [| split; reflexivity].
  destruct (Nat.eqb (con_bsc c) from); split; reflexivity.
Qed.

(** X13: what a reply can do.  [bsc_mgcp_forward] never changes a
    connection or a BSC (no status byte is cleared); it sends at most one
    message: a DLCX back to the replying BSC, only when the reply carries
    no connection identifier, or the rewritten reply to the call agent,
    only when it carries one.  A reply of more than 2000 bytes, or one
    whose first line does not parse, changes nothing at all. *)
Theorem bsc_mgcp_forward_frame (from : bsc_ref) (msg : list ascii) (nat : bsc_nat) :
  let nat' := bsc_mgcp_forward from msg nat in
  sccp_list nat' = sccp_list nat /\ bscs nat' = bscs nat
  /\ (sent nat' = sent nat
      \/ (exists ep, sent nat' = sent nat ++ [BscWrite from (dlcx_text ep)]
                     /\ bsc_mgcp_extract_ci (c_str msg) = CI_UNUSED)
      \/ (exists m, sent nat'
                    = sent nat ++ [if mgcp_ipa nat then MscSend m else GwQueue m]
                    /\ bsc_mgcp_extract_ci (c_str msg) <> CI_UNUSED))
  /\ (2000 < Z.of_nat (length msg) \/ bsc_mgcp_parse_response (c_str msg) = None ->
      nat' = nat).
Proof.
  unfold bsc_mgcp_forward.
  destruct (_ >? 2000) eqn:E.
  { repeat split; try reflexivity. left. reflexivity. }
  destruct (bsc_mgcp_parse_response (c_str msg)) as [[code tid] |] eqn:Hparse.
  2: { repeat split; try reflexivity. left. reflexivity. }
  destruct (find_pending nat from tid _ 1) as [i |] eqn:Hfind.
  2: { repeat split; try reflexivity. left. reflexivity. }
  cbn [ci net_end_local_port].
  set (nat1 := set_endp i _ nat).
  destruct (_ =? CI_UNUSED) eqn:Eci.
  - destruct (frame_free_chan_downstream i from nat1) as [-> ->].
    split; [reflexivity |]. split; [reflexivity |]. split; [| intros [? | [=]]; lia].
    destruct (sent_free_chan_downstream i from nat1) as [-> | [ep ->]].
    + left. reflexivity.
    + right. left. exists ep. split; [reflexivity | lia].
  - set (nat2 := set_slot i _ nat1).
    destruct (bsc_mgcp_rewrite _ _ _ _ _) as [outp |].
    + split; [unfold mgcp_queue_for_call_agent; destruct (mgcp_ipa nat2); reflexivity |].
      split; [unfold mgcp_queue_for_call_agent; destruct (mgcp_ipa nat2); reflexivity |].
      split; [| intros [? | [=]]; lia].
      right. right. exists (msgb_bytes outp). split; [| lia].
      unfold mgcp_queue_for_call_agent.
      change (mgcp_ipa nat2) with (mgcp_ipa nat).
      destruct (mgcp_ipa nat); reflexivity.
    + split; [reflexivity |]. split; [reflexivity |].
      split; [left; reflexivity | intros [? | [=]]; lia].
Qed.

(** X14: a reply with a connection identifier.  The reply goes to the
    first endpoint (from 1 up) that waits for its transaction id from the
    replying BSC: the identifier is stored in that endpoint, the slot loses
    its id and state but keeps the BSC, no other slot or endpoint changes,
    and the reply, rewritten with the address of the NAT and the network
    port of the endpoint, is queued for the call agent (over the IPA link
    when [mgcp_ipa] is set) unless the rewrite fails. *)
Theorem bsc_mgcp_forward_reply (from : bsc_ref) (msg : list ascii) (nat : bsc_nat)
    (code : Z) (tid : list ascii) (i : Z) :
  Z.of_nat (length msg) <= 2000 ->
  bsc_mgcp_parse_response (c_str msg) = Some (code, tid) ->
  1 <= i < number_endpoints nat ->
  waits_for nat from tid i ->
  (forall k, 1 <= k < i -> ~ waits_for nat from tid k) ->
  bsc_mgcp_extract_ci (c_str msg) <> CI_UNUSED ->
  let nat' := bsc_mgcp_forward from msg nat in
  slot_at nat' i
  = {| transaction_id := None; transaction_state := 0; bsc := Some from |}
  /\ (forall j, j <> i -> slot_at nat' j = slot_at nat j /\ endp_at nat' j = endp_at nat j)
  /\ (0 <= i < Z.of_nat (length (endpoints nat)) ->
      endp_at nat' i
      = {| ci := bsc_mgcp_extract_ci (c_str msg);
           bts_end_addr := bts_end_addr (endp_at nat i);
           bts_end_local_port := bts_end_local_port (endp_at nat i);
           net_end_local_port := net_end_local_port (endp_at nat i) |})
  /\ sent nat'
     = sent nat
       ++ match bsc_mgcp_rewrite msg (Z.of_nat (length msg)) (-1) (source_addr nat)
                  (net_end_local_port (endp_at nat i)) with
          | Some outp =>
            [if mgcp_ipa nat then MscSend (msgb_bytes outp) else GwQueue (msgb_bytes outp)]
          | None => []
          end.
Proof.
  intros Hlen Hparse Hi Hw Hfirst Hci.
  apply (forward_with_ci from msg nat code tid i Hlen Hparse); [| exact Hci].
  apply find_pending_first. split; [lia |]. split; assumption.
Qed.

Lemma bsc_mgcp_forward_reply_witness :
  let nat' := bsc_mgcp_forward 0 reply_msg pending_nat in
  slot_at nat' 1
  = {| transaction_id := None; transaction_state := 0; bsc := Some 0%nat |}
  /\ (forall j, j <> 1 ->
        slot_at nat' j = slot_at pending_nat j /\ endp_at nat' j = endp_at pending_nat j)
  /\ (0 <= 1 < Z.of_nat (length (endpoints pending_nat)) ->
      endp_at nat' 1
      = {| ci := 57;
           bts_end_addr := bts_end_addr (endp_at pending_nat 1);
           bts_end_local_port := bts_end_local_port (endp_at pending_nat 1);
           net_end_local_port := net_end_local_port (endp_at pending_nat 1) |})
  /\ sent nat'
     = sent pending_nat
       ++ match bsc_mgcp_rewrite reply_msg (Z.of_nat (length reply_msg)) (-1)
                  (source_addr pending_nat)
                  (net_end_local_port (endp_at pending_nat 1)) with
          | Some outp =>
            [if mgcp_ipa pending_nat then MscSend (msgb_bytes outp)
             else GwQueue (msgb_bytes outp)]
          | None => []
          end.
Proof.
  apply (bsc_mgcp_forward_reply 0%nat reply_msg pending_nat 200 (txt "1234") 1).
  - vm_compute. discriminate.
  - reflexivity.
  - vm_compute. split; [discriminate | reflexivity].
  - split; reflexivity.
  - intros k Hk. lia.
  - vm_compute. discriminate.
Defined.

(** ** A request and its reply *)

(** The state a deferred request leaves behind. *)
Lemma policy_cb_pending (mgcp_msg : list ascii) (mgcp_length endpoint state : Z)
    (tid : list ascii) (nat : bsc_nat) (con : sccp_ref) (sccp : sccp_connections) :
  bsc_mgcp_find_con nat endpoint = Some (con, sccp) ->
  fst (bsc_mgcp_policy_cb mgcp_msg mgcp_length endpoint state tid nat)
  = MGCP_POLICY_DEFER ->
  0 <= endpoint < Z.of_nat (length (bsc_endpoints nat)) ->
  let nat1 := snd (bsc_mgcp_policy_cb mgcp_msg mgcp_length endpoint state tid nat) in
  slot_at nat1 endpoint
  = {| transaction_id := Some (c_str tid); transaction_state := state;
       bsc := Some (con_bsc sccp) |}
  /\ (forall j, j <> endpoint -> slot_at nat1 j = slot_at nat j)
  /\ net_end_local_port (endp_at nat1 endpoint) = net_end_local_port (endp_at nat endpoint)
  /\ source_addr nat1 = source_addr nat /\ mgcp_ipa nat1 = mgcp_ipa nat
  /\ number_endpoints nat1 = number_endpoints nat.
Proof.
  intros Hfind Hdefer Hrange nat1.
  pose proof (policy_cb_slots mgcp_msg mgcp_length endpoint state tid nat)
    as (Hother & _ & Hnum).
  fold nat1 in Hother, Hnum.
  assert (Hgoal : slot_at nat1 endpoint
                  = {| transaction_id := Some (c_str tid); transaction_state := state;
                       bsc := Some (con_bsc sccp) |}
                  /\ net_end_local_port (endp_at nat1 endpoint)
                     = net_end_local_port (endp_at nat endpoint)
                  /\ source_addr nat1 = source_addr nat /\ mgcp_ipa nat1 = mgcp_ipa nat).
  2: { destruct Hgoal as (H1 & H2 & H3 & H4). repeat split; assumption. }
  revert Hdefer. unfold nat1, bsc_mgcp_policy_cb.
  set (cleared := match transaction_id (slot_at nat endpoint) with
                  | Some _ => _ | None => _ end).
  change (bsc_mgcp_find_con (set_slot endpoint cleared nat) endpoint)
    with (bsc_mgcp_find_con nat endpoint).
  rewrite Hfind.
  destruct (bsc_mgcp_rewrite _ _ _ _ _) as [bsc_msg |]; [| discriminate].
  set (s := {| transaction_id := Some (c_str tid); transaction_state := state;
               bsc := Some (con_bsc sccp) |}).
  set (nat2 := set_slot endpoint s (set_slot endpoint cleared nat)).
  assert (Hs : slot_at nat2 endpoint = s).
  { apply slot_at_set_slot_eq. right. unfold set_slot. cbn.
    rewrite length_zinsert. exact Hrange. }
  destruct (state =? MGCP_ENDP_CRCX); [| destruct (state =? MGCP_ENDP_DLCX)];
    cbn [fst snd]; intros Hdefer; try discriminate Hdefer.
  - split; [exact Hs |]. split; [| split; reflexivity].
    unfold endp_at, set_endp. cbn.
    destruct (Z.lt_ge_cases endpoint (Z.of_nat (length (endpoints nat)))) as [Hlt | Hge].
    + rewrite zlookup_zinsert_eq by (cbn; lia). cbn.
      destruct (_ ≫= peer_addr); reflexivity.
    + unfold zlookup, zinsert. destruct (0 <=? endpoint); [| reflexivity].
      rewrite list_insert_ge by (cbn; lia). reflexivity.
  - split; [exact Hs |]. repeat split.
Qed.

(** X15: a deferred request and its reply.  After [bsc_mgcp_policy_cb] has
    deferred a request for an endpoint of the pending table, a reply of the
    BSC of the connection that carries the transaction id of the request
    and a connection identifier is matched to that endpoint, provided no
    endpoint below it waits for the same id from that BSC: the slot gives
    up the id, no other slot changes, and the rewritten reply is queued for
    the call agent. *)
Theorem policy_then_reply (mgcp_msg : list ascii) (mgcp_length endpoint state : Z)
    (tid : list ascii) (nat : bsc_nat) (con : sccp_ref) (sccp : sccp_connections)
    (reply : list ascii) (code : Z) :
  bsc_mgcp_find_con nat endpoint = Some (con, sccp) ->
  fst (bsc_mgcp_policy_cb mgcp_msg mgcp_length endpoint state tid nat)
  = MGCP_POLICY_DEFER ->
  1 <= endpoint < number_endpoints nat ->
  endpoint < Z.of_nat (length (bsc_endpoints nat)) ->
  Z.of_nat (length reply) <= 2000 ->
  bsc_mgcp_parse_response (c_str reply) = Some (code, c_str tid) ->
  (forall k, 1 <= k < endpoint -> ~ waits_for nat (con_bsc sccp) (c_str tid) k) ->
  bsc_mgcp_extract_ci (c_str reply) <> CI_UNUSED ->
  let nat1 := snd (bsc_mgcp_policy_cb mgcp_msg mgcp_length endpoint state tid nat) in
  let nat2 := bsc_mgcp_forward (con_bsc sccp) reply nat1 in
  slot_at nat2 endpoint
  = {| transaction_id := None; transaction_state := 0; bsc := Some (con_bsc sccp) |}
  /\ (forall j, j <> endpoint -> slot_at nat2 j = slot_at nat j)
  /\ sent nat2
     = sent nat1
       ++ match bsc_mgcp_rewrite reply (Z.of_nat (length reply)) (-1) (source_addr nat)
                  (net_end_local_port (endp_at nat endpoint)) with
          | Some outp =>
            [if mgcp_ipa nat then MscSend (msgb_bytes outp) else GwQueue (msgb_bytes outp)]
          | None => []
          end.
Proof.
  intros Hfind Hdefer Hend Hlen Hrlen Hparse Hfirst Hci nat1 nat2.
  destruct (policy_cb_pending mgcp_msg mgcp_length endpoint state tid nat con sccp
              Hfind Hdefer ltac:(lia)) as (Hslot & Hother & Hport & Hsrc & Hipa & Hnum).
  fold nat1 in Hslot, Hother, Hport, Hsrc, Hipa, Hnum.
  assert (Hpend : find_pending nat1 (con_bsc sccp) (c_str tid)
                    (Z.to_nat (number_endpoints nat1 - 1)) 1 = Some endpoint).
  { apply find_pending_first. split; [lia |]. split.
    - split; rewrite Hslot; reflexivity.
    - intros k Hk [Hb Ht]. apply (Hfirst k Hk).
      rewrite Hother in Hb, Ht by lia. split; assumption. }
  destruct (forward_with_ci (con_bsc sccp) reply nat1 code (c_str tid) endpoint
              Hrlen Hparse Hpend Hci) as (H1 & H2 & _ & H4).
  fold nat2 in H1, H2, H4.
  split; [exact H1 |]. split.
  - intros j Hj. destruct (H2 j Hj) as [-> _]. apply Hother. exact Hj.
  - rewrite H4, Hsrc, Hport, Hipa. reflexivity.
Qed.

Lemma policy_then_reply_witness :
  let nat1 := snd (bsc_mgcp_policy_cb crcx_msg (Z.of_nat (length crcx_msg)) 1
                     MGCP_ENDP_CRCX (txt "1234") assigned_nat) in
  let nat2 := bsc_mgcp_forward 0 reply_msg nat1 in
  slot_at nat2 1
  = {| transaction_id := None; transaction_state := 0; bsc := Some 0%nat |}
  /\ (forall j, j <> 1 -> slot_at nat2 j = slot_at assigned_nat j)
  /\ sent nat2
     = sent nat1
       ++ match bsc_mgcp_rewrite reply_msg (Z.of_nat (length reply_msg)) (-1)
                  (source_addr assigned_nat)
                  (net_end_local_port (endp_at assigned_nat 1)) with
          | Some outp =>
            [if mgcp_ipa assigned_nat then MscSend (msgb_bytes outp)
             else GwQueue (msgb_bytes outp)]
          | None => []
          end.
Proof.
  apply (policy_then_reply crcx_msg (Z.of_nat (length crcx_msg)) 1 MGCP_ENDP_CRCX
           (txt "1234") assigned_nat 0%nat
           {| msc_endp := 1; bsc_endp := 1; con_bsc := 0 |} reply_msg 200).
  - reflexivity.
  - vm_compute. reflexivity.
  - vm_compute. split; [discriminate | reflexivity].
  - vm_compute. reflexivity.
  - vm_compute. discriminate.
  - reflexivity.
  - intros k Hk. lia.
  - vm_compute. discriminate.
Defined.

(** ** The end of a call *)

Lemma find_con_from_none (endpoint : Z) (l : list sccp_connections) (i : sccp_ref) :
  (forall k s, l !! k = Some s -> msc_endp s = endpoint -> endpoint = -1) ->
  find_con_from endpoint l i None = None.
Proof.
  intros Hno.
  destruct (find_con_from_last endpoint l i None)
    as [[H _] | (k & s & _ & Hk & Hm & Hne & _)]; [exact H |].
  contradiction Hne. exact (Hno k s Hk Hm).
Qed.

(** X16: the DLCX of the call agent ends the call.  When exactly one
    connection has the endpoint and the DLCX can be rewritten, the callback
    continues locally, the connection gives up both its endpoints, and
    every later CRCX for the endpoint is rejected until a new assignment
    binds it. *)
Theorem dlcx_then_crcx_rejected (mgcp_msg : list ascii) (mgcp_length endpoint : Z)
    (tid : list ascii) (nat : bsc_nat) (con : sccp_ref) (sccp : sccp_connections) :
  bsc_mgcp_find_con nat endpoint = Some (con, sccp) ->
  (forall j s, j <> con -> sccp_list nat !! j = Some s -> msc_endp s <> endpoint) ->
  bsc_mgcp_rewrite mgcp_msg mgcp_length (bsc_endp sccp) (source_addr nat)
    (bts_end_local_port (endp_at nat endpoint)) <> None ->
  let r := bsc_mgcp_policy_cb mgcp_msg mgcp_length endpoint MGCP_ENDP_DLCX tid nat in
  fst r = MGCP_POLICY_CONT
  /\ sccp_list (snd r) !! con
     = Some {| msc_endp := -1; bsc_endp := -1; con_bsc := con_bsc sccp |}
  /\ bsc_mgcp_find_con (snd r) endpoint = None
  /\ forall msg' len' tid',
       fst (bsc_mgcp_policy_cb msg' len' endpoint MGCP_ENDP_CRCX tid' (snd r))
       = MGCP_POLICY_REJECT.
Proof.
  intros Hfind Huniq Hrw r.
  assert (Hr : fst r = MGCP_POLICY_CONT
               /\ sccp_list (snd r) = <[con := bsc_mgcp_init sccp]> (sccp_list nat)).
  { unfold r, bsc_mgcp_policy_cb.
    set (cleared := match transaction_id (slot_at nat endpoint) with
                    | Some _ => _ | None => _ end).
    change (bsc_mgcp_find_con (set_slot endpoint cleared nat) endpoint)
      with (bsc_mgcp_find_con nat endpoint).
    rewrite Hfind.
    change (source_addr (set_slot endpoint cleared nat)) with (source_addr nat).
    destruct (bsc_mgcp_rewrite _ _ _ _ _) as [bsc_msg |]; [| congruence].
    change (MGCP_ENDP_DLCX =? MGCP_ENDP_CRCX) with false.
    change (MGCP_ENDP_DLCX =? MGCP_ENDP_DLCX) with true.
    cbn [fst snd]. split; [reflexivity |].
    apply bsc_mgcp_find_con_msc_endp in Hfind as [Hc _].
    match goal with
    | |- sccp_list (bsc_mgcp_dlcx con ?n) = _ =>
      rewrite (sccp_list_dlcx con n);
        change (sccp_list n) with (sccp_list nat); rewrite Hc; reflexivity
    end. }
  destruct Hr as [Hv Hl].
  pose proof (bsc_mgcp_find_con_msc_endp _ _ _ _ Hfind) as [Hc Hm].
  assert (Hlt := lookup_lt_Some _ _ _ Hc).
  assert (Hnone : bsc_mgcp_find_con (snd r) endpoint = None).
  { unfold bsc_mgcp_find_con. rewrite Hl. apply find_con_from_none.
    intros k s Hk Hms. destruct (Nat.eq_dec k con) as [-> | Hne].
    - rewrite list_lookup_insert_eq in Hk by exact Hlt.
      injection Hk as <-. cbn in Hms. congruence.
    - rewrite list_lookup_insert_ne in Hk by congruence.
      contradiction (Huniq k s Hne Hk). }
  split; [exact Hv |]. split.
  - rewrite Hl. apply list_lookup_insert_eq. exact Hlt.
  - split; [exact Hnone |]. intros msg' len' tid'.
    unfold bsc_mgcp_policy_cb.
    set (cleared := match transaction_id (slot_at (snd r) endpoint) with
                    | Some _ => _ | None => _ end).
    change (bsc_mgcp_find_con (set_slot endpoint cleared (snd r)) endpoint)
      with (bsc_mgcp_find_con (snd r) endpoint).
    rewrite Hnone. reflexivity.
Qed.

Lemma dlcx_then_crcx_rejected_witness :
  let r := bsc_mgcp_policy_cb (txt "DLCX 1236 1@mgw MGCP 1.0" ++ [CR; LF]) 26 1
             MGCP_ENDP_DLCX (txt "1236") assigned_nat in
  fst r = MGCP_POLICY_CONT
  /\ sccp_list (snd r) !! 0%nat
     = Some {| msc_endp := -1; bsc_endp := -1; con_bsc := 0 |}
  /\ bsc_mgcp_find_con (snd r) 1 = None
  /\ forall msg' len' tid',
       fst (bsc_mgcp_policy_cb msg' len' 1 MGCP_ENDP_CRCX tid' (snd r))
       = MGCP_POLICY_REJECT.
Proof.
  apply (dlcx_then_crcx_rejected (txt "DLCX 1236 1@mgw MGCP 1.0" ++ [CR; LF]) 26 1
           (txt "1236") assigned_nat 0%nat
           {| msc_endp := 1; bsc_endp := 1; con_bsc := 0 |}).
  - reflexivity.
  - intros [| [| [| j]]] s Hj; vm_compute; intros [= <-]; try discriminate.
    contradiction Hj. reflexivity.
  - vm_compute. discriminate.
Defined.

(** ** A BSC goes away *)

Lemma count_bound_ext (nat nat' : bsc_nat) (from : bsc_ref) (n : Datatypes.nat) (i : Z) :
  (forall j, i <= j -> slot_at nat' j = slot_at nat j) ->
  count_bound nat' from n i = count_bound nat from n i.
Proof.
  revert i. induction n as [| n IH]; intros i Hext; [reflexivity |].
  cbn [count_bound]. unfold bound_to. rewrite Hext by lia.
  rewrite IH; [reflexivity |]. intros j Hj. apply Hext. lia.
Qed.

Lemma iter_alter_lookup {A} (f : A -> A) (from b : Datatypes.nat) (k : Datatypes.nat)
    (l : list A) :
  Nat.iter k (alter f from) l !! b
  = if Nat.eq_dec b from then Nat.iter k f <$> l !! from else l !! b.
Proof.
  induction k as [| k IH]; [cbn [Nat.iter nat_rect] | rewrite !Nat.iter_succ].
  - destruct (Nat.eq_dec b from) as [-> |]; [| reflexivity].
    destruct (l !! from); reflexivity.
  - rewrite list_lookup_alter. destruct (Nat.eq_dec b from) as [-> | Hne].
    + rewrite decide_True by reflexivity. rewrite IH.
      destruct (Nat.eq_dec from from); [| congruence].
      destruct (l !! from); reflexivity.
    + rewrite decide_False by congruence. rewrite IH.
      destruct (Nat.eq_dec b from); [congruence | reflexivity].
Qed.

Lemma clear_endpoints_from_spec (from : bsc_ref) (n : Datatypes.nat) (i0 : Z)
    (nat : bsc_nat) :
  let nat' := clear_endpoints_from from n i0 nat in
  (forall i, i0 <= i < i0 + Z.of_nat n -> bound_to nat from i = true ->
     slot_at nat' i = empty_slot)
  /\ (forall i, ~ (i0 <= i < i0 + Z.of_nat n /\ bound_to nat from i = true) ->
        slot_at nat' i = slot_at nat i)
  /\ sccp_list nat' = sccp_list nat /\ sent nat' = sent nat
  /\ bscs nat'
     = Nat.iter (count_bound nat from n i0) (alter inc_dropped_calls from) (bscs nat).
Proof.
  revert i0 nat. induction n as [| n IH]; intros i0 nat;
    cbn [clear_endpoints_from count_bound].
  - repeat split. intros i Hi. lia.
  - set (nat1 := match bsc (slot_at nat i0) with Some _ => _ | None => _ end).
    assert (H1 : (bound_to nat from i0 = true -> slot_at nat1 i0 = empty_slot)
                 /\ (bound_to nat from i0 = false -> slot_at nat1 i0 = slot_at nat i0)
                 /\ (forall j, j <> i0 -> slot_at nat1 j = slot_at nat j)
                 /\ sccp_list nat1 = sccp_list nat /\ sent nat1 = sent nat
                 /\ bscs nat1
                    = Nat.iter (if bound_to nat from i0 then 1 else 0)
                        (alter inc_dropped_calls from) (bscs nat)).
    { unfold nat1, bound_to.
      destruct (bsc (slot_at nat i0)) as [b |]; [| repeat split; discriminate].
      destruct (Nat.eqb b from); [| repeat split; discriminate].
      split; [intros _ | split; [discriminate | split; [| repeat split]]].
      - match goal with
        | |- slot_at (mgcp_free_endp _ ?m) _ = _ =>
          rewrite (slot_at_same_slots m) by reflexivity
        end.
        unfold bsc_mgcp_free_endpoint.
        match goal with
        | |- slot_at (set_slot _ _ ?m) _ = _ =>
          rewrite (slot_at_same_slots (set_slot i0 empty_slot nat)) by reflexivity
        end.
        apply (slot_at_set_slot_eq i0 empty_slot). left. reflexivity.
      - intros j Hj.
        match goal with
        | |- slot_at (mgcp_free_endp _ ?m) _ = _ =>
          rewrite (slot_at_same_slots m) by reflexivity
        end.
        unfold bsc_mgcp_free_endpoint.
        match goal with
        | |- slot_at (set_slot _ _ ?m) _ = _ =>
          rewrite (slot_at_same_slots (set_slot i0 empty_slot nat)) by reflexivity
        end.
        apply slot_at_set_slot_ne. congruence. }
    destruct H1 as (Hb1 & Hb0 & Hother & Hs1 & Hsent1 & Hbscs1).
    destruct (IH (i0 + 1) nat1) as (Hin & Hout & Hs & Hsent & Hbscs).
    assert (Hsame : forall j, i0 + 1 <= j -> bound_to nat1 from j = bound_to nat from j).
    { intros j Hj. unfold bound_to. rewrite Hother by lia. reflexivity. }
    split; [| split; [| split; [| split]]].
    + intros i Hi Hb. destruct (Z.eq_dec i i0) as [-> | Hne].
      * rewrite Hout by lia. apply Hb1. exact Hb.
      * apply Hin; [lia |]. rewrite Hsame by lia. exact Hb.
    + intros i Hi. destruct (Z.eq_dec i i0) as [-> | Hne].
      * rewrite Hout by lia. apply Hb0.
        destruct (bound_to nat from i0) eqn:E; [| reflexivity].
        contradiction Hi. split; [lia | reflexivity].
      * rewrite Hout.
        -- apply Hother. exact Hne.
        -- intros [Hr Hb]. apply Hi. split; [lia |]. rewrite <- Hsame by lia. exact Hb.
    + rewrite Hs. exact Hs1.
    + rewrite Hsent. exact Hsent1.
    + rewrite Hbscs, Hbscs1.
      rewrite (count_bound_ext nat nat1) by (intros j Hj; apply Hother; lia).
      rewrite Nat.add_comm. symmetry. apply Nat.iter_add.
Qed.

Lemma iter_inc_dropped_calls (k : Datatypes.nat) (bc : bsc_connection) :
  Nat.iter k inc_dropped_calls bc
  = {| cfg := (fun c => {| cfg_max_endpoints := cfg_max_endpoints c;
                           dropped_calls := dropped_calls c + Z.of_nat k |})
              <$> cfg bc;
       number_multiplexes := number_multiplexes bc;
       max_endpoints := max_endpoints bc;
       last_endpoint := last_endpoint bc;
       _endpoint_status := _endpoint_status bc;
       peer_addr := peer_addr bc |}.
Proof.
  induction k as [| k IHk].
  - cbn [Nat.iter nat_rect]. destruct bc as [[[m d] |] ? ? ? ? ?]; cbn; [| reflexivity].
    rewrite Z.add_0_r. reflexivity.
  - rewrite Nat.iter_succ, IHk. unfold inc_dropped_calls. cbn -[Z.of_nat].
    destruct (cfg bc) as [c |]; cbn -[Z.of_nat]; [| reflexivity].
    do 3 f_equal. lia.
Qed.

(** X17: [bsc_mgcp_clear_endpoints_for] empties the pending slot of every
    endpoint from 1 to [number_endpoints - 1] that is bound to the BSC and
    leaves every other slot as it was; it sends nothing, changes no
    connection, and no BSC loses or gains a status byte: the endpoints of
    the BSC stay allocated. *)
Theorem bsc_mgcp_clear_endpoints_for_slots (from : bsc_ref) (nat : bsc_nat) :
  let nat' := bsc_mgcp_clear_endpoints_for from nat in
  (forall i, 1 <= i < number_endpoints nat -> bsc (slot_at nat i) = Some from ->
     slot_at nat' i = empty_slot)
  /\ (forall i, ~ (1 <= i < number_endpoints nat /\ bsc (slot_at nat i) = Some from) ->
        slot_at nat' i = slot_at nat i)
  /\ sccp_list nat' = sccp_list nat /\ sent nat' = sent nat
  /\ (forall b, _endpoint_status <$> bscs nat' !! b = _endpoint_status <$> bscs nat !! b).
Proof.
  unfold bsc_mgcp_clear_endpoints_for.
  destruct (clear_endpoints_from_spec from (Z.to_nat (number_endpoints nat - 1)) 1 nat)
    as (Hin & Hout & Hs & Hsent & Hbscs).
  assert (Hbound : forall i, bound_to nat from i = true <-> bsc (slot_at nat i) = Some from).
  { intros i. unfold bound_to. destruct (bsc (slot_at nat i)) as [b |].
    - rewrite Nat.eqb_eq. split; congruence.
    - split; discriminate. }
  split; [| split; [| split; [| split]]]; try assumption.
  - intros i Hi Hb. apply Hin; [lia | apply Hbound; exact Hb].
  - intros i Hi. apply Hout. intros [Hr Hb]. apply Hi. split; [lia |].
    apply Hbound. exact Hb.
  - intros b. rewrite Hbscs, iter_alter_lookup.
    destruct (Nat.eq_dec b from) as [-> |]; [| reflexivity].
    destruct (bscs nat !! from) as [bc |]; [| reflexivity]. cbn.
    rewrite iter_inc_dropped_calls. reflexivity.
Qed.

(** X18: the dropped-calls counter.  [bsc_mgcp_clear_endpoints_for] adds to
    the counter of the configuration of the BSC the number of endpoints
    from 1 to [number_endpoints - 1] whose slot was bound to it, and
    changes nothing else of the connection of the BSC: its allocator state
    is kept; without a configuration nothing is counted. *)
Theorem bsc_mgcp_clear_endpoints_for_counter (from : bsc_ref) (nat : bsc_nat)
    (bc : bsc_connection) :
  bscs nat !! from = Some bc ->
  let nat' := bsc_mgcp_clear_endpoints_for from nat in
  let dropped := count_bound nat from (Z.to_nat (number_endpoints nat - 1)) 1 in
  bscs nat' !! from
  = Some {| cfg := (fun c => {| cfg_max_endpoints := cfg_max_endpoints c;
                                dropped_calls := dropped_calls c + Z.of_nat dropped |})
                   <$> cfg bc;
            number_multiplexes := number_multiplexes bc;
            max_endpoints := max_endpoints bc;
            last_endpoint := last_endpoint bc;
            _endpoint_status := _endpoint_status bc;
            peer_addr := peer_addr bc |}.
Proof.
  intros Hbc. unfold bsc_mgcp_clear_endpoints_for.
  destruct (clear_endpoints_from_spec from (Z.to_nat (number_endpoints nat - 1)) 1 nat)
    as (_ & _ & _ & _ & Hbscs).
  cbv zeta. rewrite Hbscs, iter_alter_lookup, Hbc.
  destruct (Nat.eq_dec from from); [| congruence]. cbn [fmap option_fmap option_map].
  rewrite iter_inc_dropped_calls. reflexivity.
Qed.

Lemma bsc_mgcp_clear_endpoints_for_counter_witness :
  let nat' := bsc_mgcp_clear_endpoints_for 0 pending_nat in
  bscs nat' !! 0%nat
  = Some {| cfg := Some {| cfg_max_endpoints := 60; dropped_calls := 1 |};
            number_multiplexes := 2;
            max_endpoints := 60;
            last_endpoint := 1;
            _endpoint_status := Some (<[1%nat := 1]> (replicate 65 0));
            peer_addr := peer_addr (fresh_bsc 60) |}.
Proof.
  exact (bsc_mgcp_clear_endpoints_for_counter 0%nat pending_nat
           (snd (fst (bsc_assign_endpoint ready_bsc_60 (unbound_con 0)))) eq_refl).
Defined.

(** ** The status line of a reply *)

Lemma skip_space_split (s : list ascii) :
  exists sp, s = sp ++ skip_space s /\ Forall (fun c => isspace c = true) sp.
Proof.
  induction s as [| c r (sp & Hr & Hsp)]; [exists []; split; [reflexivity | constructor] |].
  cbn [skip_space]. destruct (isspace c) eqn:E.
  - exists (c :: sp). split; [cbn; f_equal; exact Hr | constructor; assumption].
  - exists []. split; [reflexivity | constructor].
Qed.

Lemma scan_word_split (w : Datatypes.nat) (s word rest : list ascii) :
  scan_word w s = (word, rest) ->
  s = word ++ rest /\ (length word <= w)%nat
  /\ Forall (fun c => isspace c = false) word.
Proof.
  revert s word rest. induction w as [| w IH]; intros s word rest; cbn [scan_word].
  - intros [= <- <-]. repeat split; [cbn; lia | constructor].
  - destruct s as [| c r]; [intros [= <- <-]; repeat split; [cbn; lia | constructor] |].
    destruct (isspace c) eqn:E; [intros [= <- <-]; repeat split; [cbn; lia | constructor] |].
    destruct (scan_word w r) as [word' rest'] eqn:Er. intros [= <- <-].
    destruct (IH _ _ _ Er) as (-> & Hl & Hf).
    repeat split; [cbn; lia | constructor; assumption].
Qed.

Lemma digit_val_range (c : ascii) : isdigit c = true -> 0 <= digit_val c <= 9.
Proof.
  unfold isdigit, digit_val. intros H. apply andb_true_iff in H as [H1 H2].
  apply Nat.leb_le in H1, H2. lia.
Qed.

Lemma scan_digits_split (w : Datatypes.nat) (acc : Z) (s : list ascii) (v : Z)
    (n : Datatypes.nat) (rest : list ascii) :
  scan_digits w acc s = (v, n, rest) ->
  0 <= acc ->
  (n <= w)%nat /\ acc * 10 ^ Z.of_nat n <= v < (acc + 1) * 10 ^ Z.of_nat n
  /\ exists ds, s = ds ++ rest /\ length ds = n.
Proof.
  revert acc s v n rest. induction w as [| w IH]; intros acc s v n rest; cbn [scan_digits].
  - intros [= <- <- <-] Hacc. split; [lia |]. split; [cbn; lia |].
    exists []. split; reflexivity.
  - destruct s as [| c r].
    { intros [= <- <- <-] Hacc. split; [lia |]. split; [cbn; lia |].
      exists []. split; reflexivity. }
    destruct (isdigit c) eqn:E.
    2: { intros [= <- <- <-] Hacc. split; [lia |]. split; [cbn; lia |].
         exists []. split; reflexivity. }
    destruct (scan_digits w (10 * acc + digit_val c) r) as [[v' n'] rest'] eqn:Er.
    intros [= <- <- <-] Hacc.
    pose proof (digit_val_range c E) as Hd.
    destruct (IH _ _ _ _ _ Er ltac:(lia)) as (Hn & Hv & ds & -> & Hds).
    split; [lia |]. split.
    + rewrite Nat2Z.inj_succ, Z.pow_succ_r by lia.
      assert (0 < 10 ^ Z.of_nat n') by (apply Z.pow_pos_nonneg; lia). nia.
    + exists (c :: ds). split; [reflexivity | cbn; f_equal; exact Hds].
Qed.

Lemma scan_num_split (w : Datatypes.nat) (s : list ascii) (v : Z) (rest : list ascii) :
  scan_num w s = Some (v, rest) ->
  exists num, s = num ++ rest /\ (1 <= length num <= w)%nat
              /\ - 10 ^ Z.of_nat (w - 1) < v < 10 ^ Z.of_nat w.
Proof.
  unfold scan_num.
  assert (Hplain : forall w' s' neg,
             (let '(v0, n, rest0) := scan_digits w' 0 s' in
              match n with
              | O => None
              | S _ => Some (if neg : bool then - v0 else v0, rest0)
              end) = Some (v, rest) ->
             exists ds, s' = ds ++ rest /\ (1 <= length ds <= w')%nat
                        /\ (if neg then - 10 ^ Z.of_nat w' < v <= 0
                            else 0 <= v < 10 ^ Z.of_nat w')).
  { intros w' s' neg. destruct (scan_digits w' 0 s') as [[v0 n] rest0] eqn:Ed.
    destruct n as [| n]; [discriminate |]. intros [= <- <-].
    destruct (scan_digits_split _ _ _ _ _ _ Ed ltac:(lia)) as (Hn & Hv & ds & -> & Hds).
    exists ds. split; [reflexivity |]. split; [lia |].
    assert (10 ^ Z.of_nat (S n) <= 10 ^ Z.of_nat w') by (apply Z.pow_le_mono_r; lia).
    destruct neg; lia. }
  assert (Hmono : forall a b : Datatypes.nat, (a <= b)%nat -> 10 ^ Z.of_nat a <= 10 ^ Z.of_nat b).
  { intros a b Hab. apply Z.pow_le_mono_r; lia. }
  assert (Hnosign : (let '(v0, n, rest0) := scan_digits w 0 s in
                     match n with
                     | O => None
                     | S _ => Some (v0, rest0)
                     end) = Some (v, rest) ->
                    exists num, s = num ++ rest /\ (1 <= length num <= w)%nat
                                /\ - 10 ^ Z.of_nat (w - 1) < v < 10 ^ Z.of_nat w).
  { intros H. destruct (Hplain w s false H) as (ds & -> & Hl & Hv).
    exists ds. split; [reflexivity |]. split; [lia |].
    assert (0 < 10 ^ Z.of_nat (w - 1)) by (apply Z.pow_pos_nonneg; lia). lia. }
  destruct w as [| w]; [exact Hnosign |].
  destruct s as [| c r]; [exact Hnosign |].
  destruct (Ascii.eqb c "-") eqn:Em; [| destruct (Ascii.eqb c "+") eqn:Ep;
                                        [| exact Hnosign]].
  - intros H. destruct (Hplain w r true H) as (ds & -> & Hl & Hv).
    exists (c :: ds). split; [reflexivity |]. split; [cbn; lia |].
    replace (S w - 1)%nat with w by lia.
    assert (0 < 10 ^ Z.of_nat (S w)) by (apply Z.pow_pos_nonneg; lia). lia.
  - intros H. destruct (Hplain w r false H) as (ds & -> & Hl & Hv).
    exists (c :: ds). split; [reflexivity |]. split; [cbn; lia |].
    replace (S w - 1)%nat with w by lia.
    pose proof (Hmono w (S w) ltac:(lia)).
    assert (0 < 10 ^ Z.of_nat w) by (apply Z.pow_pos_nonneg; lia). lia.
Qed.

Lemma to_int32_small (v : Z) :
  - 2 ^ 31 <= v < 2 ^ 31 ->
  to_int32 (Z.max (- 2 ^ 63) (Z.min v (2 ^ 63 - 1))) = v.
Proof.
  intros Hv. unfold to_int32.
  rewrite Z.min_l, Z.max_r by lia.
  rewrite Z.mod_small by lia. lia.
Qed.

(** With a field width of at most nine characters the value read by [%d]
    is the value of the numeral. *)
Lemma scan_int_split (w : Datatypes.nat) (s : list ascii) (v : Z) (rest : list ascii) :
  (w <= 9)%nat ->
  scan_int w s = Some (v, rest) ->
  scan_num w s = Some (v, rest).
Proof.
  intros Hw. unfold scan_int.
  destruct (scan_num w s) as [[v0 rest0] |] eqn:E; [| discriminate].
  cbn [mbind option_bind]. intros [= <- <-].
  destruct (scan_num_split _ _ _ _ E) as (_ & _ & _ & Hv).
  assert (10 ^ Z.of_nat w <= 10 ^ 9) by (apply Z.pow_le_mono_r; lia).
  assert (10 ^ Z.of_nat (w - 1) <= 10 ^ 9) by (apply Z.pow_le_mono_r; lia).
  rewrite to_int32_small by lia. reflexivity.
Qed.

(** X19: what [bsc_mgcp_parse_response] accepts.  A parsed status line is
    white space, a numeral of one to three characters (sign included),
    white space that may be empty, and the transaction id; the id is not
    empty, has at most 59 characters, none of them white space, so that it
    fits the buffer of 60 with its closing NUL, and the code lies between
    -99 and 999. *)
Theorem bsc_mgcp_parse_response_shape (str : list ascii) (code : Z) (tid : list ascii) :
  bsc_mgcp_parse_response str = Some (code, tid) ->
  -99 <= code <= 999
  /\ tid <> [] /\ (length tid <= 59)%nat /\ Forall (fun c => isspace c = false) tid
  /\ exists sp1 num sp2 rest,
       str = sp1 ++ num ++ sp2 ++ tid ++ rest
       /\ Forall (fun c => isspace c = true) sp1
       /\ Forall (fun c => isspace c = true) sp2
       /\ (1 <= length num <= 3)%nat.
Proof.
  unfold bsc_mgcp_parse_response. intros H.
  destruct (scan_int 3 (skip_space str)) as [[v s] |] eqn:Ei; [| discriminate H].
  cbn [mbind option_bind] in H.
  destruct (scan_word 59 (skip_space s)) as [word rest] eqn:Ew.
  destruct word as [| c word]; [discriminate H |]. injection H as <- <-.
  apply scan_int_split in Ei; [| lia].
  destruct (scan_num_split _ _ _ _ Ei) as (num & Hnum & Hl & Hv).
  destruct (scan_word_split _ _ _ _ Ew) as (Hword & Hwl & Hwf).
  destruct (skip_space_split str) as (sp1 & Hs1 & Hf1).
  destruct (skip_space_split s) as (sp2 & Hs2 & Hf2).
  change (10 ^ Z.of_nat 3) with 1000 in Hv. change (10 ^ Z.of_nat (3 - 1)) with 100 in Hv.
  split; [lia |]. split; [discriminate |]. split; [exact Hwl |]. split; [exact Hwf |].
  exists sp1, num, sp2, rest. split; [| repeat split; assumption || lia].
  rewrite Hs1 at 1. rewrite Hnum. rewrite Hs2 at 1. rewrite Hword. reflexivity.
Qed.

Lemma bsc_mgcp_parse_response_shape_witness :
  -99 <= 200 <= 999
  /\ txt "1234" <> [] /\ (length (txt "1234") <= 59)%nat
  /\ Forall (fun c => isspace c = false) (txt "1234")
  /\ exists sp1 num sp2 rest,
       c_str reply_msg = sp1 ++ num ++ sp2 ++ txt "1234" ++ rest
       /\ Forall (fun c => isspace c = true) sp1
       /\ Forall (fun c => isspace c = true) sp2
       /\ (1 <= length num <= 3)%nat.
Proof.
  exact (bsc_mgcp_parse_response_shape (c_str reply_msg) 200 (txt "1234") eq_refl).
Defined.

Lemma skip_space_spaces (sp s : list ascii) :
  Forall (fun c => isspace c = true) sp -> skip_space (sp ++ s) = skip_space s.
Proof.
  induction 1 as [| c sp Hc Hsp IH]; [reflexivity |].
  cbn [app skip_space]. rewrite Hc. exact IH.
Qed.

Lemma scan_word_word (w : Datatypes.nat) (word rest : list ascii) :
  Forall (fun c => isspace c = false) word ->
  (length word <= w)%nat ->
  match rest with [] => True | c :: _ => isspace c = true end ->
  scan_word w (word ++ rest) = (word, rest).
Proof.
  intros Hword. revert w. induction Hword as [| c word Hc Hword IH]; intros w Hl Hrest.
  - cbn [app]. destruct w as [| w]; [reflexivity |]. cbn [scan_word].
    destruct rest as [| c r]; [reflexivity |]. rewrite Hrest. reflexivity.
  - destruct w as [| w]; [cbn in Hl; lia |]. cbn [app scan_word]. rewrite Hc.
    rewrite IH; [reflexivity | cbn in Hl; lia | exact Hrest].
Qed.

(** X20: a well-formed status line is read back.  Three digits, white
    space, and an id of at most 59 characters without white space that is
    followed by white space or the end of the text: the code is the value
    of the digits and the id is returned whole. *)
Theorem bsc_mgcp_parse_response_status_line (a b c : ascii) (sp tid rest : list ascii) :
  isdigit a = true -> isdigit b = true -> isdigit c = true ->
  Forall (fun x => isspace x = true) sp ->
  tid <> [] -> (length tid <= 59)%nat -> Forall (fun x => isspace x = false) tid ->
  match rest with [] => True | x :: _ => isspace x = true end ->
  bsc_mgcp_parse_response ([a; b; c] ++ sp ++ tid ++ rest)
  = Some (100 * digit_val a + 10 * digit_val b + digit_val c, tid).
Proof.
  intros Ha Hb Hc Hsp Hne Hl Htid Hrest. unfold bsc_mgcp_parse_response.
  assert (Hnsp : forall x, isdigit x = true -> isspace x = false).
  { intros x. unfold isdigit, isspace. cbv zeta.
    rewrite andb_true_iff, !Nat.leb_le. intros [H1 H2].
    apply orb_false_iff. split; [apply Nat.eqb_neq; lia |].
    apply andb_false_iff. right. apply Nat.leb_gt. lia. }
  assert (Hnsign : forall x, isdigit x = true ->
                     Ascii.eqb x "-" = false /\ Ascii.eqb x "+" = false).
  { intros x Hx. split; apply Ascii.eqb_neq; intros ->; discriminate Hx. }
  cbn [app skip_space]. rewrite (Hnsp a Ha).
  unfold scan_int, scan_num. destruct (Hnsign a Ha) as [-> ->].
  cbn [scan_digits]. rewrite Ha, Hb, Hc. cbn [mbind option_bind].
  pose proof (digit_val_range a Ha). pose proof (digit_val_range b Hb).
  pose proof (digit_val_range c Hc).
  rewrite to_int32_small by lia.
  rewrite skip_space_spaces by exact Hsp.
  assert (Hskip : skip_space (tid ++ rest) = tid ++ rest).
  { destruct Htid as [| x tid Hx Htid]; [congruence |].
    cbn [app skip_space]. rewrite Hx. reflexivity. }
  rewrite Hskip, scan_word_word by assumption.
  destruct tid as [| x tid]; [congruence |]. do 2 f_equal. lia.
Qed.

Lemma bsc_mgcp_parse_response_status_line_witness :
  bsc_mgcp_parse_response (txt "200" ++ txt " " ++ txt "1234" ++ [CR; LF])
  = Some (100 * digit_val "2" + 10 * digit_val "0" + digit_val "0", txt "1234").
Proof.
  apply (bsc_mgcp_parse_response_status_line "2" "0" "0" (txt " ") (txt "1234") [CR; LF]);
    try reflexivity.
  - repeat constructor.
  - discriminate.
  - cbn. lia.
  - repeat constructor.
Defined.

(** ** The rewriter, line by line *)

(** The loop body fails on an [m=audio] line that does not parse, and on
    nothing else. *)
Lemma rewrite_line_None (endpoint : Z) (ip : list ascii) (port : Z)
    (line : list ascii) (st : rewrite_state) :
  rewrite_line endpoint ip port line st = None
  <-> starts_with aud_str line = true /\ scan_audio line = None.
Proof.
  unfold rewrite_line.
  destruct (starts_with aud_str line) eqn:E5.
  - pose proof (starts_with_head _ _ _ E5) as Hh.
    other_keywords Hh.
    destruct (scan_audio line);
      [split; [discriminate | intros [_ [=]]]
      | split; [intros _; split; reflexivity | reflexivity]].
  - destruct (starts_with crcx_str line); [split; [discriminate | intros [[=] _]] |].
    destruct (starts_with dlcx_str line); [split; [discriminate | intros [[=] _]] |].
    destruct (starts_with mdcx_str line); [split; [discriminate | intros [[=] _]] |].
    destruct (starts_with ip_str line); [split; [discriminate | intros [[=] _]] |].
    destruct (starts_with fmt_str line); split; try discriminate; intros [[=] _].
Qed.

Lemma rewrite_lines_None (endpoint : Z) (ip : list ascii) (port : Z)
    (lines : list (list ascii)) (st : rewrite_state) :
  rewrite_lines endpoint ip port lines st = None
  <-> Exists (fun l => starts_with aud_str l = true /\ scan_audio l = None) lines.
Proof.
  revert st. induction lines as [| line lines IH]; intros st; cbn [rewrite_lines].
  - split; [discriminate | intros H; inversion H].
  - destruct (rewrite_line endpoint ip port line st) as [st1 |] eqn:E.
    + cbn [mbind option_bind]. rewrite IH. split.
      * intros H. apply Exists_cons_tl. exact H.
      * intros H. apply Exists_cons in H as [H | H]; [| exact H].
        apply (rewrite_line_None endpoint ip port line st) in H. congruence.
    + cbn [mbind option_bind]. split; [| reflexivity].
      intros _. apply Exists_cons_hd. apply (rewrite_line_None endpoint ip port line st).
      exact E.
Qed.

(** X21: when [bsc_mgcp_rewrite] gives no message.  For a call that stays
    within its buffers it returns NULL for a length above 4096 - 256 and
    for an input one of whose lines (ended by a line feed, before the first
    NUL) starts with the audio keyword and does not read as an audio line;
    for every other input it returns a message, whatever the endpoint, the
    address and the port. *)
Theorem bsc_mgcp_rewrite_fails (input : list ascii) (len endpoint : Z) (ip : list ascii)
    (port : Z) :
  rewrite_within input len endpoint ip port ->
  bsc_mgcp_rewrite input len endpoint ip port = None
  <-> 4096 - 256 < len
      \/ Exists (fun l => starts_with aud_str l = true /\ scan_audio l = None)
           (lf_lines (c_str input)).
Proof.
  intros _. unfold bsc_mgcp_rewrite.
  destruct (Z.le_gt_cases len (4096 - 256)) as [Hle | Hgt].
  - rewrite rewrite_scan_lines by exact Hle.
    rewrite <- (rewrite_lines_None endpoint ip port _ rewrite_init).
    destruct (rewrite_lines endpoint ip port _ rewrite_init) as [st |].
    + cbn [mbind option_bind].
      destruct (negb (found_fmtp st) && negb (payload st =? -1));
        split; try discriminate; intros [? | [=]]; lia.
    + split; [right | ]; reflexivity.
  - unfold rewrite_scan. destruct (len >? 4096 - 256) eqn:E; [| lia].
    split; [left; lia | reflexivity].
Qed.

Lemma bsc_mgcp_rewrite_fails_witness :
  let input := txt "c=IN IP4 1.1.1.1" ++ [CR; LF] ++ txt "m=audio 4000 RTP 8" ++ [CR; LF] in
  rewrite_within input (Z.of_nat (length input)) 1 (txt "10.0.0.1") 4002
  /\ bsc_mgcp_rewrite input (Z.of_nat (length input)) 1 (txt "10.0.0.1") 4002 = None.
Proof.
  intros input.
  assert (Hin : rewrite_within input (Z.of_nat (length input)) 1 (txt "10.0.0.1") 4002).
  { right. split; [| split].
    - assert (Hv : forall l, line_verb l = None ->
                   line_verb l <> None ->
                   forall w, scan_second_word l = Some w -> (length w < 40)%nat)
        by (intros l Hl Hn; contradiction).
      vm_compute lf_lines.
      repeat (constructor; [apply Hv; vm_compute; reflexivity |]).
      constructor.
    - apply Nat.leb_le. vm_compute. reflexivity.
    - intros outp H. vm_compute in H. discriminate H. }
  split; [exact Hin |].
  refine (proj2 (bsc_mgcp_rewrite_fails input (Z.of_nat (length input)) 1
                   (txt "10.0.0.1") 4002 Hin) _).
  right. apply Exists_cons_tl, Exists_cons_hd.
  split; vm_compute; reflexivity.
Defined.

(** *** Bytes of the output *)

Lemma write_at_long (off : Datatypes.nat) (src b : list ascii) :
  (off + length src <= length b)%nat ->
  write_at off src b = take off b ++ src ++ drop (off + length src) b.
Proof. intros H. unfold write_at. rewrite pad_long by exact H. reflexivity. Qed.

Lemma length_write_at (off : Datatypes.nat) (src b : list ascii) :
  (off + length src <= length b)%nat -> length (write_at off src b) = length b.
Proof.
  intros H. rewrite write_at_long by exact H.
  rewrite !length_app, length_take, length_drop. lia.
Qed.

Lemma write_at_snoc (off : Datatypes.nat) (src : list ascii) (c : ascii) (b : list ascii) :
  (off + length src + 1 <= length b)%nat ->
  write_at (off + length src) [c] (write_at off src b) = write_at off (src ++ [c]) b.
Proof.
  intros H.
  rewrite (write_at_long (off + length src) [c]).
  2: { rewrite length_write_at by lia. cbn. lia. }
  rewrite (write_at_long off src) by lia.
  rewrite (write_at_long off (src ++ [c])) by (rewrite length_app; cbn; lia).
  assert (Ht : length (take off b) = off) by (rewrite length_take; lia).
  rewrite (app_assoc (take off b) src).
  rewrite take_app_length' by (rewrite length_app; lia).
  rewrite drop_app_ge by (rewrite length_app; cbn; lia).
  rewrite length_app, Ht, drop_drop.
  rewrite <- !app_assoc. do 3 f_equal.
  rewrite length_app. cbn [length]. f_equal. lia.
Qed.

(** The copy of a line and its line feed appends both. *)
Lemma copy_line_put_bytes (token : list ascii) (m : msgb) :
  write_l3h (length token) [LF] (write_l3h 0 token (put_l3h (length token + 1) m))
  = put_bytes (token ++ [LF]) m.
Proof.
  unfold put_bytes, write_l3h, put_l3h. cbn [buf tail l3h].
  rewrite length_app. cbn [length]. f_equal.
  rewrite !Nat.add_0_r. apply write_at_snoc.
  pose proof (length_pad (tail m + (length token + 1)) (buf m)). lia.
Qed.

(** The first command line: written at the start of the empty message. *)
Lemma msgb_bytes_patch_first (op tok : list ascii) (endp : Z) (cr : bool) :
  msgb_bytes (patch_mgcp (output rewrite_init) op tok endp cr)
  = match scan_second_word tok with
    | Some word => verb_out op word endp cr
    | None => []
    end.
Proof.
  unfold patch_mgcp. destruct (scan_second_word tok) as [word |]; [| reflexivity].
  fold (verb_out op word endp cr). set (line := verb_out op word endp cr).
  unfold msgb_bytes, put_l3h, write_l3h, write_at. cbn [output rewrite_init buf tail l3h].
  cbn [Nat.add take app].
  assert (Hpad : pad (length (line ++ [NUL])) [] = replicate (length (line ++ [NUL])) NUL).
  { unfold pad. cbn [app length]. rewrite Nat.sub_0_r. reflexivity. }
  rewrite Hpad. rewrite drop_ge by (rewrite length_replicate; apply Nat.le_refl).
  rewrite app_nil_r, take_0. cbn [app].
  rewrite !(pad_long (length line) (line ++ [NUL])) by (rewrite length_app; lia).
  apply take_app_length.
Qed.

(** A line without verb appends [line_out] to the message. *)
Lemma rewrite_line_out (endpoint : Z) (ip : list ascii) (port : Z)
    (line : list ascii) (st st' : rewrite_state) :
  line_verb line = None ->
  rewrite_line endpoint ip port line st = Some st' ->
  msgb_bytes (output st') = msgb_bytes (output st) ++ line_out ip port line.
Proof.
  unfold line_verb, rewrite_line, line_out, line_cr.
  destruct (starts_with crcx_str line); [discriminate |].
  destruct (starts_with dlcx_str line); [discriminate |].
  destruct (starts_with mdcx_str line); [discriminate |]. intros _.
  destruct (starts_with ip_str line).
  { intros [= <-]. cbn [output]. rewrite !msgb_bytes_put_bytes, <- !app_assoc.
    reflexivity. }
  destruct (starts_with aud_str line).
  { destruct (scan_audio line) as [pt |]; [| discriminate].
    intros [= <-]. cbn [output]. rewrite msgb_bytes_put_bytes. reflexivity. }
  destruct (starts_with fmt_str line); intros [= <-]; cbn [output];
    rewrite copy_line_put_bytes, msgb_bytes_put_bytes; reflexivity.
Qed.

Lemma rewrite_lines_out (endpoint : Z) (ip : list ascii) (port : Z)
    (lines : list (list ascii)) (st st' : rewrite_state) :
  Forall (fun l => line_verb l = None) lines ->
  rewrite_lines endpoint ip port lines st = Some st' ->
  msgb_bytes (output st')
  = msgb_bytes (output st) ++ concat (map (line_out ip port) lines).
Proof.
  intros Hlines. revert st. induction Hlines as [| line lines Hline Hlines IH];
    intros st; cbn [rewrite_lines map concat].
  - intros [= <-]. rewrite app_nil_r. reflexivity.
  - destruct (rewrite_line endpoint ip port line st) as [st1 |] eqn:E; [| discriminate].
    cbn [mbind option_bind]. intros H. rewrite (IH _ H).
    rewrite (rewrite_line_out _ _ _ _ _ _ Hline E), <- app_assoc. reflexivity.
Qed.

(** The closing step of the rewriter on the state the loop leaves. *)
Lemma rewrite_result_bytes (input : list ascii) (len endpoint : Z) (ip : list ascii)
    (port : Z) (outp : msgb) :
  bsc_mgcp_rewrite input len endpoint ip port = Some outp ->
  exists st,
    rewrite_lines endpoint ip port (lf_lines (c_str input)) rewrite_init = Some st
    /\ msgb_bytes outp = msgb_bytes (output st) ++ fmtp_out (lf_lines (c_str input)).
Proof.
  unfold bsc_mgcp_rewrite. intros H.
  destruct (Z.le_gt_cases len (4096 - 256)) as [Hle | Hgt].
  2: { unfold rewrite_scan in H. destruct (len >? 4096 - 256) eqn:E; [discriminate H | lia]. }
  rewrite rewrite_scan_lines in H by exact Hle.
  destruct (rewrite_lines endpoint ip port _ rewrite_init) as [st |] eqn:E;
    [| discriminate H].
  cbn [mbind option_bind] in H. exists st. split; [reflexivity |].
  destruct (rewrite_lines_flags _ _ _ _ _ _ E) as (Hf & Hp & Hc).
  change (found_fmtp rewrite_init) with false in Hf.
  change (payload rewrite_init) with (-1) in Hp.
  change (cr rewrite_init) with true in Hc.
  cbn [orb] in Hf. unfold fmtp_out. rewrite <- Hf, <- Hp, <- Hc.
  destruct (found_fmtp st); cbn [negb andb orb] in *.
  - injection H as <-. rewrite app_nil_r. reflexivity.
  - destruct (payload st =? -1); cbn [negb] in *; injection H as <-.
    + rewrite app_nil_r. reflexivity.
    + rewrite msgb_bytes_put_bytes. reflexivity.
Qed.

(** *** The room taken never shrinks *)

Lemma length_pad_ge (n : Datatypes.nat) (b : list ascii) :
  (length b <= length (pad n b))%nat.
Proof. unfold pad. rewrite length_app. lia. Qed.

Lemma length_write_at_ge (off : Datatypes.nat) (src b : list ascii) :
  (length b <= length (write_at off src b))%nat.
Proof.
  unfold write_at. set (b' := pad (off + length src) b).
  pose proof (length_pad (off + length src) b) as H1.
  pose proof (length_pad_ge (off + length src) b) as H2.
  fold b' in H1, H2.
  rewrite !length_app, length_take, length_drop. lia.
Qed.

Lemma put_l3h_room (len : Datatypes.nat) (m : msgb) :
  (length (buf m) <= length (buf (put_l3h len m)))%nat
  /\ (tail (put_l3h len m) <= length (buf (put_l3h len m)))%nat.
Proof.
  unfold put_l3h. cbn [buf tail]. split; [apply length_pad_ge | apply length_pad].
Qed.

Lemma write_l3h_room (off : Datatypes.nat) (src : list ascii) (m : msgb) :
  (length (buf m) <= length (buf (write_l3h off src m)))%nat
  /\ tail (write_l3h off src m) = tail m.
Proof.
  unfold write_l3h. cbn [buf tail]. split; [apply length_write_at_ge | reflexivity].
Qed.

Lemma put_bytes_room (src : list ascii) (m : msgb) :
  (length (buf m) <= length (buf (put_bytes src m)))%nat
  /\ (tail (put_bytes src m) <= length (buf (put_bytes src m)))%nat.
Proof.
  unfold put_bytes.
  destruct (put_l3h_room (length src) m) as [H1 H2].
  destruct (write_l3h_room 0 src (put_l3h (length src) m)) as [H3 H4].
  rewrite H4. split; lia.
Qed.

Lemma patch_mgcp_room (m : msgb) (op tok : list ascii) (endp : Z) (cr : bool) :
  (tail m <= length (buf m))%nat ->
  (length (buf m) <= length (buf (patch_mgcp m op tok endp cr)))%nat
  /\ (tail (patch_mgcp m op tok endp cr)
      <= length (buf (patch_mgcp m op tok endp cr)))%nat.
Proof.
  intros Ht. unfold patch_mgcp.
  destruct (scan_second_word tok) as [word |]; [| split; [lia | exact Ht]].
  set (line := op ++ _).
  destruct (write_l3h_room 0 (line ++ [NUL]) m) as [H1 H2].
  destruct (put_l3h_room (length line) (write_l3h 0 (line ++ [NUL]) m)) as [H3 H4].
  split; [lia | exact H4].
Qed.

(** Every pass of the loop leaves at least as much of the buffer taken as
    it found, and the tail inside what is taken: a message that fits the
    buffer in the end has fitted it at every [msgb_put] before. *)
Lemma rewrite_line_room (endpoint : Z) (ip : list ascii) (port : Z)
    (line : list ascii) (st st' : rewrite_state) :
  rewrite_line endpoint ip port line st = Some st' ->
  (tail (output st) <= length (buf (output st)))%nat ->
  (length (buf (output st)) <= length (buf (output st')))%nat
  /\ (tail (output st') <= length (buf (output st')))%nat.
Proof.
  unfold rewrite_line. intros H Ht.
  assert (Hcopy : forall found,
             Some {| output := write_l3h (length line) [LF]
                                 (write_l3h 0 line (put_l3h (length line + 1) (output st)));
                     found_fmtp := found; payload := payload st;
                     cr := match last line with
                           | Some c => Ascii.eqb c CR
                           | None => false
                           end |} = Some st' ->
             (length (buf (output st)) <= length (buf (output st')))%nat
             /\ (tail (output st') <= length (buf (output st')))%nat).
  { intros found [= <-]. cbn [output].
    rewrite copy_line_put_bytes. apply put_bytes_room. }
  destruct (starts_with crcx_str line);
    [injection H as <-; cbn [output]; apply patch_mgcp_room; exact Ht |].
  destruct (starts_with dlcx_str line);
    [injection H as <-; cbn [output]; apply patch_mgcp_room; exact Ht |].
  destruct (starts_with mdcx_str line);
    [injection H as <-; cbn [output]; apply patch_mgcp_room; exact Ht |].
  destruct (starts_with ip_str line).
  { injection H as <-. cbn [output].
    pose proof (put_bytes_room ip_str (output st)) as [A1 A2].
    pose proof (put_bytes_room (c_str ip) (put_bytes ip_str (output st))) as [B1 B2].
    match goal with
    | |- context [put_bytes ?e (put_bytes (c_str ip) _)] =>
      pose proof (put_bytes_room e (put_bytes (c_str ip) (put_bytes ip_str (output st))))
        as [C1 C2]
    end.
    split; [lia | exact C2]. }
  destruct (starts_with aud_str line).
  { destruct (scan_audio line) as [pt |]; [| discriminate H].
    injection H as <-. cbn [output]. apply put_bytes_room. }
  destruct (starts_with fmt_str line); exact (Hcopy _ H).
Qed.

Lemma rewrite_lines_room (endpoint : Z) (ip : list ascii) (port : Z)
    (lines : list (list ascii)) (st st' : rewrite_state) :
  rewrite_lines endpoint ip port lines st = Some st' ->
  (tail (output st) <= length (buf (output st)))%nat ->
  (length (buf (output st)) <= length (buf (output st')))%nat
  /\ (tail (output st') <= length (buf (output st')))%nat.
Proof.
  revert st. induction lines as [| line lines IH]; intros st; cbn [rewrite_lines].
  - intros [= <-] Ht. split; [lia | exact Ht].
  - destruct (rewrite_line endpoint ip port line st) as [st1 |] eqn:E; [| discriminate].
    cbn [mbind option_bind]. intros H Ht.
    destruct (rewrite_line_room _ _ _ _ _ _ E Ht) as [H1 H2].
    destruct (IH _ H H2) as [H3 H4]. split; [lia | exact H4].
Qed.

(** The message returned fits the buffer only if the state the loop left
    did. *)
Lemma rewrite_fits_loop (input : list ascii) (len endpoint : Z) (ip : list ascii)
    (port : Z) (outp : msgb) :
  bsc_mgcp_rewrite input len endpoint ip port = Some outp ->
  fits_msgb outp ->
  exists st,
    rewrite_lines endpoint ip port (lf_lines (c_str input)) rewrite_init = Some st
    /\ fits_msgb (output st) /\ (tail outp <= length (buf outp))%nat.
Proof.
  unfold bsc_mgcp_rewrite, fits_msgb. intros H Hfit.
  destruct (Z.le_gt_cases len (4096 - 256)) as [Hle | Hgt].
  2: { unfold rewrite_scan in H. destruct (len >? 4096 - 256) eqn:E; [discriminate H | lia]. }
  rewrite rewrite_scan_lines in H by exact Hle.
  destruct (rewrite_lines endpoint ip port _ rewrite_init) as [st |] eqn:E;
    [| discriminate H].
  cbn [mbind option_bind] in H. exists st. split; [reflexivity |].
  destruct (rewrite_lines_room _ _ _ _ _ _ E ltac:(cbn; lia)) as [_ Ht].
  destruct (negb (found_fmtp st) && negb (payload st =? -1)); injection H as <-.
  - destruct (put_bytes_room (fmtp_line (payload st) (cr st)) (output st)) as [H1 H2].
    split; [lia | exact H2].
  - split; [exact Hfit | exact Ht].
Qed.

(** X22: a message without command line, as the replies of a BSC are.  When
    no line starts with a verb keyword and the message returned fits the
    buffer, the output is, line by line, the connection line with the
    address given, the audio line with the port given and its payload type
    as the [int] it was read into, and every other line unchanged with its
    line feed, followed by the [a=fmtp] line when one is due; the endpoint
    argument plays no part. *)
Theorem bsc_mgcp_rewrite_body (input : list ascii) (len endpoint : Z) (ip : list ascii)
    (port : Z) (outp : msgb) :
  bsc_mgcp_rewrite input len endpoint ip port = Some outp ->
  fits_msgb outp ->
  let lines := lf_lines (c_str input) in
  Forall (fun l => line_verb l = None) lines ->
  msgb_bytes outp = concat (map (line_out ip port) lines) ++ fmtp_out lines.
Proof.
  intros H _ lines Hlines.
  destruct (rewrite_result_bytes _ _ _ _ _ _ H) as (st & Hst & ->).
  fold lines in Hst |- *.
  rewrite (rewrite_lines_out _ _ _ _ _ _ Hlines Hst). reflexivity.
Qed.

Lemma bsc_mgcp_rewrite_body_witness :
  exists outp,
    bsc_mgcp_rewrite reply_sdp_msg (Z.of_nat (length reply_sdp_msg)) (-1)
      (txt "10.0.0.1") 5000 = Some outp
    /\ msgb_bytes outp
       = txt "200 1234" ++ [CR; LF] ++ txt "I: 57" ++ [CR; LF] ++ [CR; LF]
         ++ txt "c=IN IP4 10.0.0.1" ++ [CR; LF]
         ++ txt "m=audio 5000 RTP/AVP 98" ++ [CR; LF]
         ++ txt "a=fmtp:98 mode-set=2" ++ [CR; LF].
Proof.
  eexists. split; [vm_compute; reflexivity |].
  apply (bsc_mgcp_rewrite_body reply_sdp_msg (Z.of_nat (length reply_sdp_msg)) (-1)
           (txt "10.0.0.1") 5000).
  - vm_compute. reflexivity.
  - apply Nat.leb_le. vm_compute. reflexivity.
  - vm_compute. repeat constructor.
Defined.

(** X23: a command of the call agent.  When the first line carries a verb
    and no later line does, and the message returned fits the buffer, the
    output starts with the command line made of the verb, the second word
    of the line (the transaction id, shorter than the buffer of 40 that
    receives it), the endpoint in hexadecimal with the suffix of the
    gateway and the line ending of the input line; the first line is
    dropped when it has no second word.  The other lines follow as for a
    message without command line. *)
Theorem bsc_mgcp_rewrite_command (input : list ascii) (len endpoint : Z) (ip : list ascii)
    (port : Z) (outp : msgb) (first op : list ascii) (rest : list (list ascii)) :
  bsc_mgcp_rewrite input len endpoint ip port = Some outp ->
  fits_msgb outp ->
  lf_lines (c_str input) = first :: rest ->
  line_verb first = Some op ->
  (forall word, scan_second_word first = Some word -> (length word < 40)%nat) ->
  Forall (fun l => line_verb l = None) rest ->
  msgb_bytes outp
  = match scan_second_word first with
    | Some word => verb_out op word endpoint (line_cr first)
    | None => []
    end
    ++ concat (map (line_out ip port) rest) ++ fmtp_out (first :: rest).
Proof.
  intros H _ Hlines Hverb _ Hrest.
  destruct (rewrite_result_bytes _ _ _ _ _ _ H) as (st & Hst & ->).
  rewrite Hlines in Hst |- *. cbn [rewrite_lines] in Hst.
  destruct (rewrite_line endpoint ip port first rewrite_init) as [st1 |] eqn:E;
    [| discriminate Hst].
  cbn [mbind option_bind] in Hst.
  rewrite (rewrite_lines_out _ _ _ _ _ _ Hrest Hst), <- app_assoc. f_equal.
  revert E Hverb. unfold rewrite_line, line_verb. fold (line_cr first).
  destruct (starts_with crcx_str first);
    [intros [= <-] [= <-]; apply msgb_bytes_patch_first |].
  destruct (starts_with dlcx_str first);
    [intros [= <-] [= <-]; apply msgb_bytes_patch_first |].
  destruct (starts_with mdcx_str first);
    [intros [= <-] [= <-]; apply msgb_bytes_patch_first |].
  intros _ [=].
Qed.

Lemma bsc_mgcp_rewrite_command_witness :
  exists outp,
    bsc_mgcp_rewrite crcx_msg (Z.of_nat (length crcx_msg)) 26 (txt "10.0.0.1") 4002
    = Some outp
    /\ msgb_bytes outp
       = txt "CRCX 1234 1a@mgw MGCP 1.0" ++ [CR; LF] ++ [CR; LF]
         ++ txt "c=IN IP4 10.0.0.1" ++ [CR; LF]
         ++ txt "m=audio 4002 RTP/AVP 8" ++ [CR; LF]
         ++ txt "a=fmtp:8 mode-set=2" ++ [CR; LF].
Proof.
  eexists. split; [vm_compute; reflexivity |].
  apply (bsc_mgcp_rewrite_command crcx_msg (Z.of_nat (length crcx_msg)) 26
           (txt "10.0.0.1") 4002 _ (txt "CRCX 1234 1@mgw MGCP 1.0" ++ [CR]) (txt "CRCX")
           [[CR]; txt "c=IN IP4 1.1.1.1" ++ [CR]; txt "m=audio 4000 RTP/AVP 8" ++ [CR]]).
  - vm_compute. reflexivity.
  - apply Nat.leb_le. vm_compute. reflexivity.
  - vm_compute. reflexivity.
  - vm_compute. reflexivity.
  - intros word. vm_compute. intros [= <-]. cbn. lia.
  - vm_compute. repeat constructor.
Defined.
